(** * Rate-your-teacher REST backend (server.js): a shallow embedding

    The server is an Express application over eight Mongoose collections.
    Every handler is a straight-line sequence of store operations, so a
    request is modelled as a function from the store to a response and a
    new store.

    Modelling conventions.
    - A collection is the list of its documents in insertion order;
      [findOne] returns the first match, [find] every match in order.
    - An ObjectId is a natural number drawn from a counter of the store.
      Path and body identifiers are well-formed ObjectIds; the CastError
      Mongoose raises on a malformed identifier is not modelled.
    - A body field that a schema validator inspects is an [option]:
      [None] when the JSON body lacks it.
    - A JavaScript number is an IEEE-754 binary64 value: the sum and the
      quotient of the rating aggregate are computed with the operations
      of the Standard Library's [SpecFloat] at precision 53, rounding to
      nearest, ties to even.  A rating of a request body and a stored
      number are written as the rational the double denotes.
    - A string is the sequence of the bytes of its UTF-8 encoding.
    - [bcrypt.hash] is a symbolic constructor over the password, and
      [bcrypt.compare] compares the 72-byte keys bcrypt derives from two
      passwords; the salt is not modelled, and two different keys never
      hash alike.  [jwt.sign] is a symbolic constructor.
    - Requests are handled one after the other. *)

From Stdlib Require Import Ascii String List Bool Arith Lia QArith.
From Stdlib Require Import Sorted Permutation SpecFloat.
Import ListNotations.
Open Scope string_scope.
Open Scope nat_scope.

Set Implicit Arguments.

Definition ObjectId := nat.
Definition Date := nat.

(** ** Opaque primitives *)

(** [bcrypt.hash(p, 10)] is the term [Bcrypt p]. *)
Inductive pwhash := Bcrypt (plaintext : string).

Definition bcrypt_hash (p : string) : pwhash := Bcrypt p.

(** The key stream of bcryptjs ([_streamtoword]): [n] bytes read from
    [rest], starting again from the beginning of [key] whenever the end
    is reached. *)
Fixpoint keyStream (n : nat) (key rest : list ascii) : list ascii :=
  match n with
  | O => []
  | S n' =>
      match rest with
      | c :: rest' => c :: keyStream n' key rest'
      | [] =>
          match key with
          | c :: rest' => c :: keyStream n' key rest'
          | [] => []
          end
      end
  end.

(** The key of a password: bcryptjs appends a NUL byte to the password
    and the Blowfish key schedule reads 18 words of 4 bytes from it,
    cyclically.  Nothing of the password beyond these 72 bytes reaches
    the hash. *)
Definition bcryptKey (p : string) : list ascii :=
  let key := app (list_ascii_of_string p) [Ascii.zero] in
  keyStream 72 key key.

Definition keyEqb (k1 k2 : list ascii) : bool :=
  String.eqb (string_of_list_ascii k1) (string_of_list_ascii k2).

(** [bcrypt.compare(p, h)] hashes [p] with the salt of [h] and compares
    the result with [h]: it accepts [p] when its key is the key of the
    password [h] was made from. *)
Definition bcrypt_compare (p : string) (h : pwhash) : bool :=
  match h with Bcrypt q => keyEqb (bcryptKey p) (bcryptKey q) end.

Arguments bcrypt_compare : simpl never.

(** [jwt.sign({ userId }, JWT_SECRET)] and [jwt.sign({ isAdmin: true }, JWT_SECRET)].
    A request carries [Some] token when the Authorization header holds a
    token that [jwt.verify] accepts, [None] otherwise. *)
Inductive token := UserToken (userId : ObjectId) | AdminToken.

(** ** Numbers *)

(** A JavaScript number is an IEEE-754 binary64 value: 53 bits of
    precision, exponents below 1024. *)
Definition double := spec_float.

(** [x + y] and [x / y] on numbers: the exact result rounded to the
    nearest double, ties to even. *)
Definition double_add : double -> double -> double := SFadd 53 1024.

Definition double_div : double -> double -> double := SFdiv 53 1024.

(** The number of an integer, such as an array's [length]. *)
Definition doubleOfZ (z : Z) : double := binary_normalize 53 1024 z 0 false.

(** The number a rational is read as: the double nearest to it, which is
    the rational itself when a double denotes it. *)
Definition doubleOfQ (q : Q) : double :=
  match Qnum q with
  | Z0 => S754_zero false
  | Zpos n => double_div (S754_finite false n 0) (S754_finite false (Qden q) 0)
  | Zneg n => double_div (S754_finite true n 0) (S754_finite false (Qden q) 0)
  end.

(** A number as a document stores it and a response shows it: [NaN], an
    infinity, or the rational the double denotes, in lowest terms. *)
Inductive Number := NaN | Num (q : Q) | Infinity (negative : bool).

(** The rational [(-1)^s * m * 2^e]. *)
Definition double_value (s : bool) (m : positive) (e : Z) : Q :=
  let z := if s then Zneg m else Zpos m in
  match e with
  | Z0 => inject_Z z
  | Zpos p => inject_Z (z * 2 ^ Zpos p)
  | Zneg p => Qmake z (2 ^ p)
  end.

Definition numberOfDouble (d : double) : Number :=
  match d with
  | S754_nan => NaN
  | S754_infinity s => Infinity s
  | S754_zero _ => Num 0
  | S754_finite s m e => Num (Qred (double_value s m e))
  end.

(** The doubles of sign [sx]: zeros, infinities and finite numbers, but
    not NaN. *)
Definition signed (sx : bool) (d : double) : Prop :=
  match d with
  | S754_zero s | S754_infinity s | S754_finite s _ _ => s = sx
  | S754_nan => False
  end.

(** ** Documents (the Mongoose schemas) *)

Module User.
Record t := mk {
  _id : ObjectId;
  username : string;
  password : pwhash;
  school : option ObjectId;
  class : option ObjectId;
  isSetup : bool;
  createdAt : Date }.
End User.

Module School.
Record t := mk {
  _id : ObjectId;
  name : string;
  createdAt : Date }.
End School.

Module Class.
Record t := mk {
  _id : ObjectId;
  name : string;
  school : ObjectId;
  createdAt : Date }.
End Class.

Module Teacher.
Record t := mk {
  _id : ObjectId;
  name : string;
  qualifications : string;
  imageUrl : string;
  class : ObjectId;
  school : ObjectId;
  averageRating : Number;
  totalRatings : nat;
  createdAt : Date }.
End Teacher.

Module Review.
Record t := mk {
  _id : ObjectId;
  teacher : ObjectId;
  user : ObjectId;
  username : string;
  text : string;
  createdAt : Date;
  updatedAt : Date }.
End Review.

Module Rating.
Record t := mk {
  _id : ObjectId;
  teacher : ObjectId;
  user : ObjectId;
  rating : Q;
  createdAt : Date }.
End Rating.

Module Discussion.
Record t := mk {
  _id : ObjectId;
  user : ObjectId;
  username : string;
  message : string;
  isPinned : bool;
  createdAt : Date }.
End Discussion.

Module AdminConfig.
Record t := mk {
  _id : ObjectId;
  secret : pwhash;
  anonymousReviews : bool;
  hideTeacherImages : bool }.
End AdminConfig.

(** Every document has an [_id]. *)
Class Document (A : Type) := doc_id : A -> ObjectId.

#[export] Instance User_doc : Document User.t := User._id.
#[export] Instance School_doc : Document School.t := School._id.
#[export] Instance Class_doc : Document Class.t := Class._id.
#[export] Instance Teacher_doc : Document Teacher.t := Teacher._id.
#[export] Instance Review_doc : Document Review.t := Review._id.
#[export] Instance Rating_doc : Document Rating.t := Rating._id.
#[export] Instance Discussion_doc : Document Discussion.t := Discussion._id.
#[export] Instance AdminConfig_doc : Document AdminConfig.t := AdminConfig._id.

(** ** Collection operations (the Mongoose model API the handlers call) *)

Section Collection.
Context {A : Type} `{Document A}.

Definition find (p : A -> bool) (c : list A) : list A := filter p c.

Definition findOne (p : A -> bool) (c : list A) : option A := List.find p c.

Definition findById (i : ObjectId) (c : list A) : option A :=
  findOne (fun d => doc_id d =? i) c.

Definition create (d : A) (c : list A) : list A := c ++ [d].

(** [Model.findByIdAndUpdate(i, ...)]: the first document whose [_id]
    is [i] is replaced by its image under [f]; nothing happens when
    there is none. *)
Fixpoint findByIdAndUpdate (i : ObjectId) (f : A -> A) (c : list A) : list A :=
  match c with
  | [] => []
  | d :: c' => if doc_id d =? i then f d :: c' else d :: findByIdAndUpdate i f c'
  end.

(** [doc.save()] on a document that was read from the collection: an
    update of the stored document with the same [_id]. *)
Definition save (d : A) (c : list A) : list A :=
  findByIdAndUpdate (doc_id d) (fun _ => d) c.

Fixpoint findByIdAndDelete (i : ObjectId) (c : list A) : list A :=
  match c with
  | [] => []
  | d :: c' => if doc_id d =? i then c' else d :: findByIdAndDelete i c'
  end.

Definition deleteMany (p : A -> bool) (c : list A) : list A :=
  filter (fun d => negb (p d)) c.

Definition ids (c : list A) : list ObjectId := map doc_id c.
End Collection.

(** [.sort(...)]: a stable insertion sort under the order [le];
    [.limit(n)] keeps the first [n]. *)
Section Sorting.
Context {A : Type} (le : A -> A -> bool).

Fixpoint insert_sorted (x : A) (l : list A) : list A :=
  match l with
  | [] => [x]
  | y :: l' => if le x y then x :: l else y :: insert_sorted x l'
  end.

Definition sort_by (l : list A) : list A := fold_right insert_sorted [] l.
End Sorting.

Definition limit {A} (n : nat) (l : list A) : list A := firstn n l.

(** ** The store *)

Record Store := mkStore {
  users : list User.t;
  schools : list School.t;
  classes : list Class.t;
  teachers : list Teacher.t;
  reviews : list Review.t;
  ratings : list Rating.t;
  discussions : list Discussion.t;
  adminConfigs : list AdminConfig.t;
  nextId : ObjectId }.

Definition set_users (v : list User.t) (s : Store) : Store :=
  mkStore v (schools s) (classes s) (teachers s) (reviews s) (ratings s)
          (discussions s) (adminConfigs s) (nextId s).
Definition set_schools (v : list School.t) (s : Store) : Store :=
  mkStore (users s) v (classes s) (teachers s) (reviews s) (ratings s)
          (discussions s) (adminConfigs s) (nextId s).
Definition set_classes (v : list Class.t) (s : Store) : Store :=
  mkStore (users s) (schools s) v (teachers s) (reviews s) (ratings s)
          (discussions s) (adminConfigs s) (nextId s).
Definition set_teachers (v : list Teacher.t) (s : Store) : Store :=
  mkStore (users s) (schools s) (classes s) v (reviews s) (ratings s)
          (discussions s) (adminConfigs s) (nextId s).
Definition set_reviews (v : list Review.t) (s : Store) : Store :=
  mkStore (users s) (schools s) (classes s) (teachers s) v (ratings s)
          (discussions s) (adminConfigs s) (nextId s).
Definition set_ratings (v : list Rating.t) (s : Store) : Store :=
  mkStore (users s) (schools s) (classes s) (teachers s) (reviews s) v
          (discussions s) (adminConfigs s) (nextId s).
Definition set_discussions (v : list Discussion.t) (s : Store) : Store :=
  mkStore (users s) (schools s) (classes s) (teachers s) (reviews s) (ratings s)
          v (adminConfigs s) (nextId s).
Definition set_adminConfigs (v : list AdminConfig.t) (s : Store) : Store :=
  mkStore (users s) (schools s) (classes s) (teachers s) (reviews s) (ratings s)
          (discussions s) v (nextId s).

(** A new document takes the next ObjectId. *)
Definition newId (s : Store) : ObjectId * Store :=
  (nextId s,
   mkStore (users s) (schools s) (classes s) (teachers s) (reviews s) (ratings s)
           (discussions s) (adminConfigs s) (S (nextId s))).

(** [AdminConfig.findOne()]. *)
Definition config (s : Store) : option AdminConfig.t :=
  findOne (fun _ => true) (adminConfigs s).

(** The database once [initializeAdminConfig] has run on an empty one. *)
Definition initialStore : Store :=
  mkStore [] [] [] [] [] [] []
          [AdminConfig.mk 0 (bcrypt_hash "admin") false false] 1.

(** ** Requests and responses *)

Inductive route :=
| GET_health
| POST_register (username password : string)
| POST_login (username password : string)
| POST_setup (schoolId classId : option ObjectId)
| GET_schools
| GET_school_classes (schoolId : ObjectId)
| GET_teachers
| GET_teacher (teacherId : ObjectId)
| GET_teacher_reviews (teacherId : ObjectId)
| GET_my_review (teacherId : ObjectId)
| POST_review (teacherId : ObjectId) (text : option string)
| PUT_review (reviewId : ObjectId) (text : option string)
| GET_my_rating (teacherId : ObjectId)
| POST_rating (teacherId : ObjectId) (rating : option Q)
| GET_discussions
| POST_discussion (message : option string)
| POST_admin_login (secret : string)
| GET_admin_config
| PUT_admin_config (anonymousReviews hideTeacherImages : option bool)
| POST_admin_upload_image (file : option string)
| POST_admin_school (name : option string)
| DELETE_admin_school (schoolId : ObjectId)
| POST_admin_class (name : option string) (schoolId : option ObjectId)
| DELETE_admin_class (classId : ObjectId)
| GET_admin_teachers
| POST_admin_teacher (name qualifications imageUrl : option string)
                     (classId schoolId : option ObjectId)
| PUT_admin_teacher (teacherId : ObjectId) (name qualifications imageUrl : option string)
| DELETE_admin_teacher (teacherId : ObjectId)
| GET_admin_reviews
| DELETE_admin_review (reviewId : ObjectId)
| GET_admin_users
| DELETE_admin_user (userId : ObjectId)
| POST_admin_reset_password (userId : ObjectId) (newPassword : string)
| PUT_admin_discussion_pin (discussionId : ObjectId)
| DELETE_admin_discussion (discussionId : ObjectId).

Record request := mkRequest {
  authorization : option token;
  target : route }.

(** A populated reference ([.populate(path, 'name')]): the [_id] and
    [name] of the referenced document, or null. *)
Definition populated := option (ObjectId * string).

(** A user as [GET /api/admin/users] lists it: no password, school and
    class populated. *)
Module UserInfo.
Record t := mk {
  _id : ObjectId;
  username : string;
  school : populated;
  class : populated;
  isSetup : bool;
  createdAt : Date }.
End UserInfo.

Inductive json :=
| JError (error : string)          (* { error: <literal of the handler> } *)
| JThrown                          (* { error: error.message } of a caught exception *)
| JMessage (message : string)
| JHealth (timestamp : Date)
| JRegistered (tok : token) (id : ObjectId) (username : string) (isSetup : bool)
| JLoggedIn (tok : token) (id : ObjectId) (username : string) (isSetup : bool)
            (school class : option ObjectId)
| JAdminToken (tok : token)
| JConfig (anonymousReviews hideTeacherImages : bool)
| JImage (imageUrl : string)
| JSchools (l : list School.t)
| JSchool (d : School.t)
| JClasses (l : list Class.t)
| JClass (d : Class.t)
| JTeachers (l : list Teacher.t)
| JTeacher (d : option Teacher.t)
| JAdminTeachers (l : list (Teacher.t * populated * populated))
| JReviews (l : list Review.t)
| JReview (d : option Review.t)
| JAdminReviews (l : list (Review.t * populated))
| JRating (d : option Rating.t)
| JDiscussions (l : list Discussion.t)
| JDiscussion (d : Discussion.t)
| JUsers (l : list UserInfo.t).

Record response := mkResponse {
  status : nat;
  body : json }.

Definition ok (b : json) : response := mkResponse 200 b.

(** The [catch] block every handler ends with. *)
Definition thrown : response := mkResponse 400 JThrown.

(** ** Schema validators *)

(** [required: true] on a String path: present and not empty. *)
Definition required (o : option string) : option string :=
  match o with
  | Some v => if String.eqb v "" then None else Some v
  | None => None
  end.

(** [rating: { type: Number, required: true, min: 1, max: 5 }]. *)
Definition validRating (q : Q) : bool := Qle_bool 1 q && Qle_bool q 5.

Definition validateRating (o : option Q) : option Q :=
  match o with
  | Some q => if validRating q then Some q else None
  | None => None
  end.

(** ** Middleware *)

(** [auth]: the token must carry a [userId] of a stored user.  An admin
    token has no [userId], and [User.findById(undefined)] finds nobody. *)
Definition auth (tok : option token) (s : Store) : option User.t :=
  match tok with
  | Some (UserToken userId) => findById userId (users s)
  | _ => None
  end.

Definition adminAuth (tok : option token) : bool :=
  match tok with
  | Some AdminToken => true
  | _ => false
  end.

Definition with_auth (tok : option token) (s : Store)
    (next : User.t -> response * Store) : response * Store :=
  match auth tok s with
  | Some user => next user
  | None => (mkResponse 401 (JError "Please authenticate"), s)
  end.

Definition with_adminAuth (tok : option token) (s : Store)
    (next : response * Store) : response * Store :=
  if adminAuth tok then next
  else (mkResponse 401 (JError "Admin authentication required"), s).

(** ** User routes *)

Definition get_health (now : Date) (s : Store) : response * Store :=
  (ok (JHealth now), s).

Definition post_register (now : Date) (username password : string) (s : Store)
    : response * Store :=
  match findOne (fun u => String.eqb (User.username u) username) (users s) with
  | Some _ => (mkResponse 400 (JError "Username already exists"), s)
  | None =>
      let hashedPassword := bcrypt_hash password in
      match required (Some username) with
      | None => (thrown, s)
      | Some username =>
          let (i, s1) := newId s in
          let user := User.mk i username hashedPassword None None false now in
          (ok (JRegistered (UserToken i) i username false),
           set_users (create user (users s1)) s1)
      end
  end.

Definition post_login (username password : string) (s : Store) : response * Store :=
  match findOne (fun u => String.eqb (User.username u) username) (users s) with
  | None => (mkResponse 401 (JError "Invalid credentials"), s)
  | Some user =>
      if bcrypt_compare password (User.password user)
      then (ok (JLoggedIn (UserToken (User._id user)) (User._id user)
                          (User.username user) (User.isSetup user)
                          (User.school user) (User.class user)), s)
      else (mkResponse 401 (JError "Invalid credentials"), s)
  end.

Definition post_setup (tok : option token) (schoolId classId : option ObjectId)
    (s : Store) : response * Store :=
  with_auth tok s (fun requser =>
    match findById (User._id requser) (users s) with
    | None => (thrown, s)
    | Some user =>
        if User.isSetup user
        then (mkResponse 400 (JError "Setup already completed"), s)
        else
          let user := User.mk (User._id user) (User.username user)
                              (User.password user) schoolId classId true
                              (User.createdAt user) in
          (ok (JMessage "Setup completed successfully"),
           set_users (save user (users s)) s)
    end).

(** ** School routes *)

Definition get_schools (s : Store) : response * Store :=
  (ok (JSchools (sort_by (fun a b => String.leb (School.name a) (School.name b))
                         (find (fun _ => true) (schools s)))), s).

Definition get_school_classes (schoolId : ObjectId) (s : Store) : response * Store :=
  (ok (JClasses (sort_by (fun a b => String.leb (Class.name a) (Class.name b))
                         (find (fun c => Class.school c =? schoolId) (classes s)))), s).

(** ** Teacher routes *)

Definition hideTeacherImages (s : Store) : bool :=
  match config s with
  | Some c => AdminConfig.hideTeacherImages c
  | None => false
  end.

(** [teacher.toObject()] followed by the assignment of [imageUrl]: the
    object sent is a copy, the stored document is not touched. *)
Definition blankImage (t : Teacher.t) : Teacher.t :=
  Teacher.mk (Teacher._id t) (Teacher.name t) (Teacher.qualifications t) ""
             (Teacher.class t) (Teacher.school t) (Teacher.averageRating t)
             (Teacher.totalRatings t) (Teacher.createdAt t).

Definition teacherObj (s : Store) (t : Teacher.t) : Teacher.t :=
  if hideTeacherImages s then blankImage t else t.

Definition get_teachers (tok : option token) (s : Store) : response * Store :=
  with_auth tok s (fun requser =>
    match findById (User._id requser) (users s) with
    | None => (thrown, s)
    | Some user =>
        if negb (User.isSetup user)
        then (mkResponse 400 (JError "Please complete setup first"), s)
        else
          let teachers :=
            find (fun t => match User.class user with
                           | Some c => Teacher.class t =? c
                           | None => false
                           end) (teachers s) in
          (ok (JTeachers (map (teacherObj s) teachers)), s)
    end).

Definition get_teacher (tok : option token) (teacherId : ObjectId) (s : Store)
    : response * Store :=
  with_auth tok s (fun _ =>
    match findById teacherId (teachers s) with
    | None => (mkResponse 404 (JError "Teacher not found"), s)
    | Some teacher => (ok (JTeacher (Some (teacherObj s teacher))), s)
    end).

(** ** Review routes *)

Definition anonymousReviews (s : Store) : bool :=
  match config s with
  | Some c => AdminConfig.anonymousReviews c
  | None => false
  end.

(** [review.toObject()] followed by the assignment of [username]. *)
Definition anonymize (r : Review.t) : Review.t :=
  Review.mk (Review._id r) (Review.teacher r) (Review.user r) "Anonymous"
            (Review.text r) (Review.createdAt r) (Review.updatedAt r).

Definition newestReviewFirst (a b : Review.t) : bool :=
  Review.createdAt b <=? Review.createdAt a.

Definition get_teacher_reviews (tok : option token) (teacherId : ObjectId)
    (s : Store) : response * Store :=
  with_auth tok s (fun _ =>
    let reviews :=
      limit 50 (sort_by newestReviewFirst
                        (find (fun r => Review.teacher r =? teacherId) (reviews s))) in
    let reviews := if anonymousReviews s then map anonymize reviews else reviews in
    (ok (JReviews reviews), s)).

Definition reviewOf (teacherId userId : ObjectId) (r : Review.t) : bool :=
  (Review.teacher r =? teacherId) && (Review.user r =? userId).

Definition get_my_review (tok : option token) (teacherId : ObjectId) (s : Store)
    : response * Store :=
  with_auth tok s (fun requser =>
    (ok (JReview (findOne (reviewOf teacherId (User._id requser)) (reviews s))), s)).

Definition post_review (now : Date) (tok : option token) (teacherId : ObjectId)
    (text : option string) (s : Store) : response * Store :=
  with_auth tok s (fun requser =>
    match findById (User._id requser) (users s) with
    | None => (thrown, s)
    | Some user =>
        match findOne (reviewOf teacherId (User._id requser)) (reviews s) with
        | Some _ =>
            (mkResponse 400 (JError "You have already reviewed this teacher"), s)
        | None =>
            match required (Some (User.username user)), required text with
            | Some username, Some text =>
                let (i, s1) := newId s in
                let review :=
                  Review.mk i teacherId (User._id requser) username text now now in
                (ok (JReview (Some review)), set_reviews (create review (reviews s1)) s1)
            | _, _ => (thrown, s)
            end
        end
    end).

Definition put_review (now : Date) (tok : option token) (reviewId : ObjectId)
    (text : option string) (s : Store) : response * Store :=
  with_auth tok s (fun requser =>
    match findOne (fun r => (Review._id r =? reviewId)
                            && (Review.user r =? User._id requser)) (reviews s) with
    | None => (mkResponse 404 (JError "Review not found"), s)
    | Some review =>
        match required text with
        | None => (thrown, s)
        | Some text =>
            let review :=
              Review.mk (Review._id review) (Review.teacher review)
                        (Review.user review) (Review.username review) text
                        (Review.createdAt review) now in
            (ok (JReview (Some review)), set_reviews (save review (reviews s)) s)
        end
    end).

(** ** Rating routes *)

Definition ratingOf (teacherId userId : ObjectId) (r : Rating.t) : bool :=
  (Rating.teacher r =? teacherId) && (Rating.user r =? userId).

Definition get_my_rating (tok : option token) (teacherId : ObjectId) (s : Store)
    : response * Store :=
  with_auth tok s (fun requser =>
    (ok (JRating (findOne (ratingOf teacherId (User._id requser)) (ratings s))), s)).

(** Lines 405-419: overwrite the caller's rating, or create it.  [None]
    when the validator rejects the value, which throws. *)
Definition upsertRating (now : Date) (teacherId userId : ObjectId)
    (rating : option Q) (s : Store) : option (Rating.t * Store) :=
  match findOne (ratingOf teacherId userId) (ratings s) with
  | Some existingRating =>
      match validateRating rating with
      | None => None
      | Some rating =>
          let existingRating :=
            Rating.mk (Rating._id existingRating) (Rating.teacher existingRating)
                      (Rating.user existingRating) rating
                      (Rating.createdAt existingRating) in
          Some (existingRating, set_ratings (save existingRating (ratings s)) s)
      end
  | None =>
      match validateRating rating with
      | None => None
      | Some rating =>
          let (i, s1) := newId s in
          let existingRating := Rating.mk i teacherId userId rating now in
          Some (existingRating, set_ratings (create existingRating (ratings s1)) s1)
      end
  end.

(** [ratings.reduce((sum, r) => sum + r.rating, 0)]: the values are
    added in double arithmetic, from left to right, starting from 0. *)
Definition sumRatings (ratings : list Rating.t) : double :=
  fold_left (fun sum r => double_add sum (doubleOfQ (Rating.rating r)))
            ratings (S754_zero false).

(** [... / ratings.length], one division of doubles: on an empty array the
    sum is 0 and 0 / 0 is NaN. *)
Definition avgRating (ratings : list Rating.t) : Number :=
  numberOfDouble
    (double_div (sumRatings ratings) (doubleOfZ (Z.of_nat (length ratings)))).

Definition setAggregate (averageRating : Number) (totalRatings : nat)
    (t : Teacher.t) : Teacher.t :=
  Teacher.mk (Teacher._id t) (Teacher.name t) (Teacher.qualifications t)
             (Teacher.imageUrl t) (Teacher.class t) (Teacher.school t)
             averageRating totalRatings (Teacher.createdAt t).

Definition post_rating (now : Date) (tok : option token) (teacherId : ObjectId)
    (rating : option Q) (s : Store) : response * Store :=
  with_auth tok s (fun requser =>
    match upsertRating now teacherId (User._id requser) rating s with
    | None => (thrown, s)
    | Some (existingRating, s1) =>
        let ratings := find (fun r => Rating.teacher r =? teacherId) (ratings s1) in
        let avgRating := avgRating ratings in
        (ok (JRating (Some existingRating)),
         set_teachers (findByIdAndUpdate teacherId
                         (setAggregate avgRating (length ratings)) (teachers s1)) s1)
    end).

(** ** Discussion routes *)

Definition pinnedThenNewest (a b : Discussion.t) : bool :=
  if Bool.eqb (Discussion.isPinned a) (Discussion.isPinned b)
  then Discussion.createdAt b <=? Discussion.createdAt a
  else Discussion.isPinned a.

Definition get_discussions (tok : option token) (s : Store) : response * Store :=
  with_auth tok s (fun _ =>
    (ok (JDiscussions (limit 100 (sort_by pinnedThenNewest
                                          (find (fun _ => true) (discussions s))))), s)).

Definition post_discussion (now : Date) (tok : option token)
    (message : option string) (s : Store) : response * Store :=
  with_auth tok s (fun requser =>
    match findById (User._id requser) (users s) with
    | None => (thrown, s)
    | Some user =>
        match required (Some (User.username user)), required message with
        | Some username, Some message =>
            let (i, s1) := newId s in
            let discussion :=
              Discussion.mk i (User._id requser) username message false now in
            (ok (JDiscussion discussion),
             set_discussions (create discussion (discussions s1)) s1)
        | _, _ => (thrown, s)
        end
    end).

(** ** Admin routes *)

Definition post_admin_login (secret : string) (s : Store) : response * Store :=
  match config s with
  | None => (mkResponse 401 (JError "Invalid secret"), s)
  | Some config =>
      if bcrypt_compare secret (AdminConfig.secret config)
      then (ok (JAdminToken AdminToken), s)
      else (mkResponse 401 (JError "Invalid secret"), s)
  end.

Definition get_admin_config (tok : option token) (s : Store) : response * Store :=
  with_adminAuth tok s
    match config s with
    | None => (thrown, s)
    | Some config =>
        (ok (JConfig (AdminConfig.anonymousReviews config)
                     (AdminConfig.hideTeacherImages config)), s)
    end.

Definition put_admin_config (tok : option token)
    (anonymousReviews hideTeacherImages : option bool) (s : Store)
    : response * Store :=
  with_adminAuth tok s
    match config s with
    | None => (thrown, s)
    | Some config =>
        let config :=
          AdminConfig.mk (AdminConfig._id config) (AdminConfig.secret config)
            (match anonymousReviews with
             | Some b => b
             | None => AdminConfig.anonymousReviews config
             end)
            (match hideTeacherImages with
             | Some b => b
             | None => AdminConfig.hideTeacherImages config
             end) in
        (ok (JConfig (AdminConfig.anonymousReviews config)
                     (AdminConfig.hideTeacherImages config)),
         set_adminConfigs (save config (adminConfigs s)) s)
    end.

(** [file] is [req.file.path], the URL the image host returned, or [None]
    when the request carried no file. *)
Definition post_admin_upload_image (tok : option token) (file : option string)
    (s : Store) : response * Store :=
  with_adminAuth tok s
    match file with
    | None => (mkResponse 400 (JError "No image file provided"), s)
    | Some path => (ok (JImage path), s)
    end.

Definition post_admin_school (now : Date) (tok : option token)
    (name : option string) (s : Store) : response * Store :=
  with_adminAuth tok s
    match required name with
    | None => (thrown, s)
    | Some name =>
        let (i, s1) := newId s in
        let school := School.mk i name now in
        (ok (JSchool school), set_schools (create school (schools s1)) s1)
    end.

Definition delete_admin_school (tok : option token) (schoolId : ObjectId)
    (s : Store) : response * Store :=
  with_adminAuth tok s
    (let s := set_schools (findByIdAndDelete schoolId (schools s)) s in
     let s := set_classes (deleteMany (fun c => Class.school c =? schoolId) (classes s)) s in
     let s := set_teachers (deleteMany (fun t => Teacher.school t =? schoolId) (teachers s)) s in
     (ok (JMessage "School deleted successfully"), s)).

Definition post_admin_class (now : Date) (tok : option token)
    (name : option string) (schoolId : option ObjectId) (s : Store)
    : response * Store :=
  with_adminAuth tok s
    match required name, schoolId with
    | Some name, Some schoolId =>
        let (i, s1) := newId s in
        let classObj := Class.mk i name schoolId now in
        (ok (JClass classObj), set_classes (create classObj (classes s1)) s1)
    | _, _ => (thrown, s)
    end.

Definition delete_admin_class (tok : option token) (classId : ObjectId)
    (s : Store) : response * Store :=
  with_adminAuth tok s
    (let s := set_classes (findByIdAndDelete classId (classes s)) s in
     let s := set_teachers (deleteMany (fun t => Teacher.class t =? classId) (teachers s)) s in
     (ok (JMessage "Class deleted successfully"), s)).

Definition populateSchool (s : Store) (i : ObjectId) : populated :=
  match findById i (schools s) with
  | Some d => Some (School._id d, School.name d)
  | None => None
  end.

Definition populateClass (s : Store) (i : ObjectId) : populated :=
  match findById i (classes s) with
  | Some d => Some (Class._id d, Class.name d)
  | None => None
  end.

Definition populateTeacher (s : Store) (i : ObjectId) : populated :=
  match findById i (teachers s) with
  | Some d => Some (Teacher._id d, Teacher.name d)
  | None => None
  end.

Definition get_admin_teachers (tok : option token) (s : Store) : response * Store :=
  with_adminAuth tok s
    (ok (JAdminTeachers
           (map (fun t => (t, populateSchool s (Teacher.school t),
                              populateClass s (Teacher.class t)))
                (sort_by (fun a b => Teacher.createdAt b <=? Teacher.createdAt a)
                         (find (fun _ => true) (teachers s))))), s).

Definition post_admin_teacher (now : Date) (tok : option token)
    (name qualifications imageUrl : option string)
    (classId schoolId : option ObjectId) (s : Store) : response * Store :=
  with_adminAuth tok s
    match required name, required qualifications, required imageUrl,
          classId, schoolId with
    | Some name, Some qualifications, Some imageUrl, Some classId, Some schoolId =>
        let (i, s1) := newId s in
        let teacher :=
          Teacher.mk i name qualifications imageUrl classId schoolId
                     (Num 0) 0 now in
        (ok (JTeacher (Some teacher)), set_teachers (create teacher (teachers s1)) s1)
    | _, _, _, _, _ => (thrown, s)
    end.

(** The update [{ name, qualifications, imageUrl }]: a field the body
    lacks is undefined and leaves the stored one as it is; no validator
    runs on an update. *)
Definition editTeacher (name qualifications imageUrl : option string)
    (t : Teacher.t) : Teacher.t :=
  Teacher.mk (Teacher._id t)
             (match name with Some v => v | None => Teacher.name t end)
             (match qualifications with
              | Some v => v
              | None => Teacher.qualifications t
              end)
             (match imageUrl with Some v => v | None => Teacher.imageUrl t end)
             (Teacher.class t) (Teacher.school t) (Teacher.averageRating t)
             (Teacher.totalRatings t) (Teacher.createdAt t).

Definition put_admin_teacher (tok : option token) (teacherId : ObjectId)
    (name qualifications imageUrl : option string) (s : Store)
    : response * Store :=
  with_adminAuth tok s
    (let s := set_teachers (findByIdAndUpdate teacherId
                              (editTeacher name qualifications imageUrl)
                              (teachers s)) s in
     (ok (JTeacher (findById teacherId (teachers s))), s)).

Definition delete_admin_teacher (tok : option token) (teacherId : ObjectId)
    (s : Store) : response * Store :=
  with_adminAuth tok s
    (let s := set_teachers (findByIdAndDelete teacherId (teachers s)) s in
     let s := set_reviews (deleteMany (fun r => Review.teacher r =? teacherId) (reviews s)) s in
     let s := set_ratings (deleteMany (fun r => Rating.teacher r =? teacherId) (ratings s)) s in
     (ok (JMessage "Teacher deleted successfully"), s)).

Definition get_admin_reviews (tok : option token) (s : Store) : response * Store :=
  with_adminAuth tok s
    (ok (JAdminReviews
           (map (fun r => (r, populateTeacher s (Review.teacher r)))
                (sort_by newestReviewFirst (find (fun _ => true) (reviews s))))), s).

Definition delete_admin_review (tok : option token) (reviewId : ObjectId)
    (s : Store) : response * Store :=
  with_adminAuth tok s
    (ok (JMessage "Review deleted successfully"),
     set_reviews (findByIdAndDelete reviewId (reviews s)) s).

Definition userInfo (s : Store) (u : User.t) : UserInfo.t :=
  UserInfo.mk (User._id u) (User.username u)
              (match User.school u with
               | Some i => populateSchool s i
               | None => None
               end)
              (match User.class u with
               | Some i => populateClass s i
               | None => None
               end)
              (User.isSetup u) (User.createdAt u).

Definition get_admin_users (tok : option token) (s : Store) : response * Store :=
  with_adminAuth tok s
    (ok (JUsers (map (userInfo s)
                     (sort_by (fun a b => User.createdAt b <=? User.createdAt a)
                              (find (fun _ => true) (users s))))), s).

Definition delete_admin_user (tok : option token) (userId : ObjectId)
    (s : Store) : response * Store :=
  with_adminAuth tok s
    (let s := set_users (findByIdAndDelete userId (users s)) s in
     let s := set_reviews (deleteMany (fun r => Review.user r =? userId) (reviews s)) s in
     let s := set_ratings (deleteMany (fun r => Rating.user r =? userId) (ratings s)) s in
     let s := set_discussions
                (deleteMany (fun d => Discussion.user d =? userId) (discussions s)) s in
     (ok (JMessage "User deleted successfully"), s)).

Definition setPassword (hashedPassword : pwhash) (u : User.t) : User.t :=
  User.mk (User._id u) (User.username u) hashedPassword (User.school u)
          (User.class u) (User.isSetup u) (User.createdAt u).

Definition post_admin_reset_password (tok : option token) (userId : ObjectId)
    (newPassword : string) (s : Store) : response * Store :=
  with_adminAuth tok s
    (let hashedPassword := bcrypt_hash newPassword in
     (ok (JMessage "Password reset successfully"),
      set_users (findByIdAndUpdate userId (setPassword hashedPassword) (users s)) s)).

Definition put_admin_discussion_pin (tok : option token) (discussionId : ObjectId)
    (s : Store) : response * Store :=
  with_adminAuth tok s
    match findById discussionId (discussions s) with
    | None => (thrown, s)
    | Some discussion =>
        let discussion :=
          Discussion.mk (Discussion._id discussion) (Discussion.user discussion)
                        (Discussion.username discussion)
                        (Discussion.message discussion)
                        (negb (Discussion.isPinned discussion))
                        (Discussion.createdAt discussion) in
        (ok (JDiscussion discussion),
         set_discussions (save discussion (discussions s)) s)
    end.

Definition delete_admin_discussion (tok : option token) (discussionId : ObjectId)
    (s : Store) : response * Store :=
  with_adminAuth tok s
    (ok (JMessage "Discussion deleted successfully"),
     set_discussions (findByIdAndDelete discussionId (discussions s)) s).

(** ** The router *)

Definition handle (now : Date) (req : request) (s : Store) : response * Store :=
  let tok := authorization req in
  match target req with
  | GET_health => get_health now s
  | POST_register username password => post_register now username password s
  | POST_login username password => post_login username password s
  | POST_setup schoolId classId => post_setup tok schoolId classId s
  | GET_schools => get_schools s
  | GET_school_classes schoolId => get_school_classes schoolId s
  | GET_teachers => get_teachers tok s
  | GET_teacher teacherId => get_teacher tok teacherId s
  | GET_teacher_reviews teacherId => get_teacher_reviews tok teacherId s
  | GET_my_review teacherId => get_my_review tok teacherId s
  | POST_review teacherId text => post_review now tok teacherId text s
  | PUT_review reviewId text => put_review now tok reviewId text s
  | GET_my_rating teacherId => get_my_rating tok teacherId s
  | POST_rating teacherId rating => post_rating now tok teacherId rating s
  | GET_discussions => get_discussions tok s
  | POST_discussion message => post_discussion now tok message s
  | POST_admin_login secret => post_admin_login secret s
  | GET_admin_config => get_admin_config tok s
  | PUT_admin_config anonymousReviews hideTeacherImages =>
      put_admin_config tok anonymousReviews hideTeacherImages s
  | POST_admin_upload_image file => post_admin_upload_image tok file s
  | POST_admin_school name => post_admin_school now tok name s
  | DELETE_admin_school schoolId => delete_admin_school tok schoolId s
  | POST_admin_class name schoolId => post_admin_class now tok name schoolId s
  | DELETE_admin_class classId => delete_admin_class tok classId s
  | GET_admin_teachers => get_admin_teachers tok s
  | POST_admin_teacher name qualifications imageUrl classId schoolId =>
      post_admin_teacher now tok name qualifications imageUrl classId schoolId s
  | PUT_admin_teacher teacherId name qualifications imageUrl =>
      put_admin_teacher tok teacherId name qualifications imageUrl s
  | DELETE_admin_teacher teacherId => delete_admin_teacher tok teacherId s
  | GET_admin_reviews => get_admin_reviews tok s
  | DELETE_admin_review reviewId => delete_admin_review tok reviewId s
  | GET_admin_users => get_admin_users tok s
  | DELETE_admin_user userId => delete_admin_user tok userId s
  | POST_admin_reset_password userId newPassword =>
      post_admin_reset_password tok userId newPassword s
  | PUT_admin_discussion_pin discussionId => put_admin_discussion_pin tok discussionId s
  | DELETE_admin_discussion discussionId => delete_admin_discussion tok discussionId s
  end.

(** A sequence of requests, each with the time it arrives at. *)
Fixpoint run (trace : list (Date * request)) (s : Store) : Store :=
  match trace with
  | [] => s
  | (now, req) :: trace' => run trace' (snd (handle now req s))
  end.

(** The stores the server can be in: what a sequence of requests makes of
    the initial one. *)
Inductive reachable : Store -> Prop :=
| reachable_init : reachable initialStore
| reachable_step (s : Store) (now : Date) (req : request) :
    reachable s -> reachable (snd (handle now req s)).

(** * Invariants *)

(** Identifiers are pairwise distinct and were all handed out already. *)
Definition fresh {A : Type} `{Document A} (n : ObjectId) (c : list A) : Prop :=
  NoDup (ids c) /\ Forall (fun d => doc_id d < n) c.

(** What every store the server reaches satisfies: fresh identifiers in
    every collection, at most one review and one rating for a teacher
    and a user, and rating values the validator accepts. *)
Record wellFormed (s : Store) : Prop := mkWellFormed {
  wf_users : fresh (nextId s) (users s);
  wf_schools : fresh (nextId s) (schools s);
  wf_classes : fresh (nextId s) (classes s);
  wf_teachers : fresh (nextId s) (teachers s);
  wf_reviews : fresh (nextId s) (reviews s);
  wf_ratings : fresh (nextId s) (ratings s);
  wf_discussions : fresh (nextId s) (discussions s);
  wf_adminConfigs : fresh (nextId s) (adminConfigs s);
  wf_one_review : forall t u, length (find (reviewOf t u) (reviews s)) <= 1;
  wf_one_rating : forall t u, length (find (ratingOf t u) (ratings s)) <= 1;
  wf_rating_range :
    Forall (fun r => validRating (Rating.rating r) = true) (ratings s) }.

(** What one request can do to a user who has completed setup: nothing
    to [isSetup], [school] and [class], short of deleting the user. *)
Definition setupKept (userId : ObjectId) (school class : option ObjectId)
    (s : Store) : Prop :=
  userId < nextId s /\
  forall u, findById userId (users s) = Some u ->
            User.isSetup u = true /\ User.school u = school /\ User.class u = class.

(** The aggregate of teacher [teacherId], if the teacher is stored, is
    that of [t]. *)
Definition aggregateOf (teacherId : ObjectId) (t : Teacher.t) (s : Store) : Prop :=
  forall t', findById teacherId (teachers s) = Some t' ->
             Teacher.averageRating t' = Teacher.averageRating t /\
             Teacher.totalRatings t' = Teacher.totalRatings t.

(** * Vocabulary of the specification *)

(** The mean as the specification has it: the sum of the values over
    their number. *)
Definition mean (values : list Q) : Q :=
  (fold_right Qplus 0 values / inject_Z (Z.of_nat (length values)))%Q.


(** A password bcrypt keeps whole: at most 71 bytes, so that the password
    and its NUL byte fit the 72 bytes of the key, and no NUL byte inside. *)
Definition fitsBcrypt (p : string) : bool :=
  (String.length p <=? 71)
  && forallb (fun c => negb (Ascii.eqb c Ascii.zero)) (list_ascii_of_string p).

(** The values of all stored ratings of a teacher. *)
Definition ratingValues (teacherId : ObjectId) (s : Store) : list Q :=
  map Rating.rating (find (fun r => Rating.teacher r =? teacherId) (ratings s)).

(** An integer, as the specification words the type of a rating. *)
Definition isInteger (q : Q) : bool :=
  (Z.modulo (Qnum q) (Zpos (Qden q)) =? 0)%Z.


(** The reviews a response body carries. *)
Definition response_reviews (b : json) : list Review.t :=
  match b with
  | JReviews l => l
  | JReview (Some r) => [r]
  | JAdminReviews l => map fst l
  | _ => []
  end.


(** The one route that recomputes the aggregate. *)
Definition isPostRating (r : route) : bool :=
  match r with
  | POST_rating _ _ => true
  | _ => false
  end.

(** * A worked scenario *)

(** Requests of the administrator and of a user. *)
Definition asAdmin (r : route) : request := mkRequest (Some AdminToken) r.

Definition asUser (userId : ObjectId) (r : route) : request :=
  mkRequest (Some (UserToken userId)) r.

(** Three registered users, one school, one class and one teacher, with
    the identifiers the store hands out. *)
Definition alice : ObjectId := 1.
Definition bob : ObjectId := 2.
Definition carol : ObjectId := 3.
Definition hilltop : ObjectId := 4.
Definition class7B : ObjectId := 5.
Definition msRao : ObjectId := 6.

Definition classroom : Store :=
  run [ (1, mkRequest None (POST_register "alice" "pw-a"));
        (2, mkRequest None (POST_register "bob" "pw-b"));
        (3, mkRequest None (POST_register "carol" "pw-c"));
        (4, asAdmin (POST_admin_school (Some "Hilltop")));
        (5, asAdmin (POST_admin_class (Some "7B") (Some hilltop)));
        (6, asAdmin (POST_admin_teacher (Some "Ms Rao") (Some "MSc Physics")
                                        (Some "https://img.example/rao.png")
                                        (Some class7B) (Some hilltop))) ]
      initialStore.

(** Alice rates 5 and Bob rates 3. *)
Definition twoRatings : Store :=
  run [ (7, asUser alice (POST_rating msRao (Some 5%Q)));
        (8, asUser bob (POST_rating msRao (Some 3%Q))) ] classroom.

(** Alice has reviewed Ms Rao. *)
Definition reviewed : Store :=
  run [ (7, asUser alice (POST_review msRao (Some "Explains clearly."))) ] classroom.


(** Alice has reviewed Ms Rao and the administrator has switched
    anonymous reviews on. *)
Definition anonymousOn : Store :=
  run [ (8, asAdmin (PUT_admin_config (Some true) None)) ] reviewed.

(** Alice has reviewed and rated Ms Rao. *)
Definition reviewedAndRated : Store :=
  run [ (8, asUser alice (POST_rating msRao (Some 5%Q))) ] reviewed.

(** Alice and Bob have rated Ms Rao 5 and 3; then Alice's account is
    deleted. *)
Definition aliceDeleted : Store :=
  run [ (9, asAdmin (DELETE_admin_user alice)) ] twoRatings.

(** Alice and Bob have each posted a discussion, and Bob's is pinned. *)
Definition discussed : Store :=
  run [ (7, asUser alice (POST_discussion (Some "Exam tips?")));
        (8, asUser bob (POST_discussion (Some "Sports day on Friday.")));
        (9, asAdmin (PUT_admin_discussion_pin 8)) ] classroom.

(** A second school, with a name that sorts before the first. *)
Definition twoSchools : Store :=
  run [ (7, asAdmin (POST_admin_school (Some "Brookside"))) ] classroom.

(** * Start-up *)

(** A database with no document at all. *)
Definition emptyStore : Store := mkStore [] [] [] [] [] [] [] [] 0.

(** [initializeAdminConfig] (lines 134-145), run at every start of the
    process: the configuration is created only when none is stored. *)
Definition initializeAdminConfig (s : Store) : Store :=
  match config s with
  | Some _ => s
  | None =>
      let hashedSecret := bcrypt_hash "admin" in
      let (i, s1) := newId s in
      set_adminConfigs
        (create (AdminConfig.mk i hashedSecret false false) (adminConfigs s1)) s1
  end.



(** * The routes by their middleware *)

(** The routes registered with [auth]. *)
Definition requiresUser (r : route) : bool :=
  match r with
  | POST_setup _ _ | GET_teachers | GET_teacher _ | GET_teacher_reviews _
  | GET_my_review _ | POST_review _ _ | PUT_review _ _ | GET_my_rating _
  | POST_rating _ _ | GET_discussions | POST_discussion _ => true
  | _ => false
  end.

(** The routes registered with [adminAuth]. *)
Definition requiresAdmin (r : route) : bool :=
  match r with
  | GET_admin_config | PUT_admin_config _ _ | POST_admin_upload_image _
  | POST_admin_school _ | DELETE_admin_school _ | POST_admin_class _ _
  | DELETE_admin_class _ | GET_admin_teachers | POST_admin_teacher _ _ _ _ _
  | PUT_admin_teacher _ _ _ _ | DELETE_admin_teacher _ | GET_admin_reviews
  | DELETE_admin_review _ | GET_admin_users | DELETE_admin_user _
  | POST_admin_reset_password _ _ | PUT_admin_discussion_pin _
  | DELETE_admin_discussion _ => true
  | _ => false
  end.

(** The routes whose handler calls no writing store operation. *)
Definition isRead (r : route) : bool :=
  match r with
  | GET_health | POST_login _ _ | GET_schools | GET_school_classes _
  | GET_teachers | GET_teacher _ | GET_teacher_reviews _ | GET_my_review _
  | GET_my_rating _ | GET_discussions | POST_admin_login _ | GET_admin_config
  | POST_admin_upload_image _ | GET_admin_teachers | GET_admin_reviews
  | GET_admin_users => true
  | _ => false
  end.

(** * Further invariants *)

(** No two users share a username. *)
Definition usernamesUnique (s : Store) : Prop :=
  NoDup (map User.username (users s)).

(** Every review, rating and discussion belongs to a stored user, and the
    username a review or a discussion carries is that user's. *)
Definition userRefsValid (s : Store) : Prop :=
  (forall r, In r (reviews s) ->
     exists u, findById (Review.user r) (users s) = Some u /\
               Review.username r = User.username u) /\
  (forall r, In r (ratings s) ->
     exists u, findById (Rating.user r) (users s) = Some u) /\
  (forall d, In d (discussions s) ->
     exists u, findById (Discussion.user d) (users s) = Some u /\
               Discussion.username d = User.username u).

(** Every lookup of a user still succeeds, with the same username. *)
Definition usersKept (s s' : Store) : Prop :=
  forall i u, findById i (users s) = Some u ->
              exists u', findById i (users s') = Some u' /\
                         User.username u' = User.username u.

(** The administrator's secret is the one [initializeAdminConfig] stored. *)
Definition adminSecretIsDefault (s : Store) : Prop :=
  exists c, config s = Some c /\ AdminConfig.secret c = bcrypt_hash "admin".

(** [pinnedThenNewest] spelled out. *)
Definition pinnedBefore (a b : Discussion.t) : Prop :=
  (Discussion.isPinned a = true /\ Discussion.isPinned b = false) \/
  (Discussion.isPinned a = Discussion.isPinned b /\
   Discussion.createdAt b <= Discussion.createdAt a).

(** * Properties *)

(** ** Doubles *)

(** Rounding a non-negative mantissa never yields NaN and keeps the
    sign. *)
Lemma shr_1_nonneg mrs : (0 <= shr_m mrs)%Z -> (0 <= shr_m (shr_1 mrs))%Z.
Proof.
  destruct mrs as [m r s]. simpl. destruct m as [|[p|p|]|[p|p|]]; simpl; lia.
Qed.

Lemma iter_pos_inv (A : Type) (P : A -> Prop) (f : A -> A) :
  (forall x, P x -> P (f x)) -> forall n x, P x -> P (iter_pos f n x).
Proof.
  intros Hf. induction n as [n IH|n IH|]; simpl; intros x Hx; auto.
Qed.

Lemma shr_nonneg mrs e n : (0 <= shr_m mrs)%Z -> (0 <= shr_m (fst (shr mrs e n)))%Z.
Proof.
  intros Hm. unfold shr. destruct n; simpl; try exact Hm.
  apply (@iter_pos_inv _ (fun x => (0 <= shr_m x)%Z) shr_1 shr_1_nonneg). exact Hm.
Qed.

Lemma shr_fexp_nonneg m e l :
  (0 <= m)%Z -> (0 <= shr_m (fst (shr_fexp 53 1024 m e l)))%Z.
Proof.
  intros Hm. unfold shr_fexp. apply shr_nonneg.
  destruct l as [|[| |]]; simpl; exact Hm.
Qed.

Lemma round_nearest_even_nonneg m l : (0 <= m)%Z -> (0 <= round_nearest_even m l)%Z.
Proof.
  intros Hm. unfold round_nearest_even. destruct l as [|[| |]]; try lia.
  destruct (Z.even m); lia.
Qed.

Lemma binary_round_aux_signed sx mx ex lx :
  (0 <= mx)%Z -> signed sx (binary_round_aux 53 1024 sx mx ex lx).
Proof.
  intros Hm. unfold binary_round_aux.
  pose proof (@shr_fexp_nonneg mx ex lx Hm) as H1.
  destruct (shr_fexp 53 1024 mx ex lx) as [mrs' e']. simpl in H1.
  pose proof (@shr_fexp_nonneg
                (round_nearest_even (shr_m mrs') (loc_of_shr_record mrs'))
                e' loc_Exact
                (@round_nearest_even_nonneg _ (loc_of_shr_record mrs') H1)) as H2.
  destruct (shr_fexp 53 1024 _ e' loc_Exact) as [mrs'' e'']. simpl in H2.
  destruct (shr_m mrs'') as [|m|m]; unfold signed; [reflexivity | | lia].
  destruct (Z.leb e'' (1024 - 53)); reflexivity.
Qed.

Lemma binary_round_signed sx m e : signed sx (binary_round 53 1024 sx m e).
Proof.
  unfold binary_round. destruct (shl_align _ _ _) as [mz ez].
  apply binary_round_aux_signed. lia.
Qed.

(** The quotient of two finite doubles has the sign of the two signs. *)
Lemma double_div_signed sx sy mx ex my ey :
  signed (xorb sx sy) (double_div (S754_finite sx mx ex) (S754_finite sy my ey)).
Proof.
  unfold double_div, SFdiv.
  destruct (SFdiv_core_binary 53 1024 (Zpos mx) ex (Zpos my) ey) as [[mz ez] lz] eqn:E.
  apply binary_round_aux_signed.
  unfold SFdiv_core_binary in E.
  match type of E with
  | (let '(q, r) := Z.div_eucl ?a ?b in _) = _ =>
      pose proof (Z.div_pos a b) as Hdiv; unfold Z.div in Hdiv;
      destruct (Z.div_eucl a b) as [q r] eqn:Eq
  end.
  injection E as <- _ _. apply Hdiv; [|lia].
  match goal with |- (0 <= match ?s with _ => _ end)%Z => destruct s end; try lia.
  apply Z.shiftl_nonneg. lia.
Qed.

Lemma doubleOfQ_nonneg q : (0 <= Qnum q)%Z -> signed false (doubleOfQ q).
Proof.
  intros Hq. unfold doubleOfQ. destruct (Qnum q) as [|n|n]; [reflexivity | | lia].
  apply (double_div_signed false false).
Qed.

(** The sum of two doubles that are not negative is a double that is not
    negative: in particular it is not NaN. *)
Lemma double_add_nonneg x y :
  signed false x -> signed false y -> signed false (double_add x y).
Proof.
  destruct x as [sx|sx| |sx mx ex], y as [sy|sy| |sy my ey]; simpl;
    intros Hx Hy; try contradiction; subst; try reflexivity.
  unfold binary_normalize. simpl.
  apply binary_round_signed.
Qed.

Lemma digits2_pos_size p : digits2_pos p = Pos.size p.
Proof. induction p; simpl; congruence. Qed.

Lemma digits2_pos_iter_xO p k :
  Zpos (digits2_pos (Pos.iter xO p k)) = (Zpos (digits2_pos p) + Zpos k)%Z.
Proof.
  induction k as [|k IH] using Pos.peano_ind.
  - simpl. lia.
  - rewrite Pos.iter_succ. simpl. lia.
Qed.

Lemma digits2_pos_bound p n :
  (0 <= n)%Z -> (Zpos p < 2 ^ n)%Z -> (Zpos (digits2_pos p) <= n)%Z.
Proof.
  intros Hn Hp. rewrite digits2_pos_size.
  pose proof (Pos.size_le p) as Hle.
  assert (H2 : (2 ^ Zpos (Pos.size p) <= 2 * Zpos p)%Z).
  { rewrite <- Pos2Z.inj_pow. change (2 * Zpos p)%Z with (Zpos (p~0)). lia. }
  destruct (Z.le_gt_cases (Zpos (Pos.size p)) n) as [H|H]; [exact H|].
  exfalso.
  assert (H3 : (2 ^ (n + 1) <= 2 ^ Zpos (Pos.size p))%Z)
    by (apply Z.pow_le_mono_r; lia).
  rewrite Z.pow_add_r in H3 by lia. lia.
Qed.

Lemma shr_fexp_exact mz ez :
  Zpos (digits2_pos mz) = 53%Z -> (-1074 <= ez)%Z ->
  shr_fexp 53 1024 (Zpos mz) ez loc_Exact =
  ({| shr_m := Zpos mz; shr_r := false; shr_s := false |}, ez).
Proof.
  intros Hd He. unfold shr_fexp, Zdigits2, fexp, emin. rewrite Hd.
  replace (Z.max (53 + ez - 53) (3 - 1024 - 53) - ez)%Z with 0%Z by lia.
  reflexivity.
Qed.

(** A positive integer below 2^53, such as the length of an array, is a
    finite double. *)
Lemma doubleOfZ_finite p :
  (Zpos p < 2 ^ 53)%Z -> exists m e, doubleOfZ (Zpos p) = S754_finite false m e.
Proof.
  intros Hp. unfold doubleOfZ, binary_normalize, binary_round.
  pose proof (@digits2_pos_bound p 53 ltac:(lia) Hp) as Hd.
  assert (Hal : exists mz ez,
             shl_align p 0 (fexp 53 1024 (Zpos (digits2_pos p) + 0)) = (mz, ez) /\
             Zpos (digits2_pos mz) = 53%Z /\ (-52 <= ez <= 0)%Z).
  { unfold shl_align, fexp, emin.
    replace (Z.max (Zpos (digits2_pos p) + 0 - 53) (3 - 1024 - 53) - 0)%Z
      with (Zpos (digits2_pos p) - 53)%Z by lia.
    destruct (Zpos (digits2_pos p) - 53)%Z as [|k|k] eqn:Ek.
    - exists p, 0%Z. split; [reflexivity|]. lia.
    - lia.
    - eexists _, _. split; [reflexivity|]. rewrite digits2_pos_iter_xO. lia. }
  destruct Hal as (mz & ez & -> & Hdz & Hez).
  unfold binary_round_aux.
  rewrite (@shr_fexp_exact mz ez Hdz) by lia. simpl.
  rewrite (@shr_fexp_exact mz ez Hdz) by lia. simpl.
  match goal with
  | |- context [if ?c then _ else _] => destruct c eqn:El
  end.
  - now exists mz, ez.
  - apply Z.leb_gt in El. lia.
Qed.

(** A double that is not negative, divided by a finite positive double,
    is not NaN. *)
Lemma double_div_not_nan x m e :
  signed false x -> double_div x (S754_finite false m e) <> S754_nan.
Proof.
  destruct x as [sx|sx| |sx mx ex]; simpl; intros Hx; try contradiction;
    try discriminate.
  pose proof (double_div_signed sx false mx ex m e) as Hs.
  intros Hn. unfold double_div in Hs. simpl in Hs. unfold SFdiv in Hn.
  rewrite Hn in Hs. exact Hs.
Qed.

Lemma numberOfDouble_nan d : numberOfDouble d = NaN -> d = S754_nan.
Proof. destruct d; simpl; intros Hd; try discriminate; reflexivity. Qed.

(** ** The keys of bcrypt *)

Lemma keyEqb_eq k1 k2 : keyEqb k1 k2 = true <-> k1 = k2.
Proof.
  unfold keyEqb. rewrite String.eqb_eq. split; [|now intros ->].
  intros H. rewrite <- (list_ascii_of_string_of_list_ascii k1),
    <- (list_ascii_of_string_of_list_ascii k2). now rewrite H.
Qed.

Lemma bcrypt_compare_key p q :
  bcrypt_compare p (bcrypt_hash q) = true <-> bcryptKey p = bcryptKey q.
Proof. unfold bcrypt_compare, bcrypt_hash. apply keyEqb_eq. Qed.

Lemma bcrypt_compare_same p : bcrypt_compare p (bcrypt_hash p) = true.
Proof. now apply bcrypt_compare_key. Qed.

Lemma bcrypt_compare_other p q :
  bcryptKey p <> bcryptKey q -> bcrypt_compare p (bcrypt_hash q) = false.
Proof.
  intros Hne. destruct (bcrypt_compare p (bcrypt_hash q)) eqn:E; [|reflexivity].
  apply bcrypt_compare_key in E. contradiction.
Qed.

Lemma keyStream_prefix n key rest :
  length rest <= n ->
  keyStream n key rest = app rest (keyStream (n - length rest) key []).
Proof.
  revert n. induction rest as [|c rest IH]; intros n Hn; simpl.
  - now rewrite Nat.sub_0_r.
  - destruct n as [|n]; simpl in *; [lia|]. f_equal. apply IH. lia.
Qed.

Lemma first_zero (a b t1 t2 : list ascii) :
  forallb (fun c => negb (Ascii.eqb c Ascii.zero)) a = true ->
  forallb (fun c => negb (Ascii.eqb c Ascii.zero)) b = true ->
  app a (Ascii.zero :: t1) = app b (Ascii.zero :: t2) -> a = b.
Proof.
  revert b. induction a as [|x a IH]; intros [|y b]; simpl; intros Ha Hb He.
  - reflexivity.
  - injection He as <- _. rewrite Ascii.eqb_refl in Hb. discriminate.
  - injection He as -> _. rewrite Ascii.eqb_refl in Ha. discriminate.
  - apply andb_true_iff in Ha, Hb. injection He as -> He.
    f_equal. apply IH; tauto.
Qed.

Lemma length_list_ascii_of_string p : length (list_ascii_of_string p) = String.length p.
Proof. induction p; simpl; congruence. Qed.

(** Two passwords of at most 71 bytes, none of them NUL, have the same
    key only when they are the same password. *)
Lemma bcryptKey_inj p q :
  fitsBcrypt p = true -> fitsBcrypt q = true -> bcryptKey p = bcryptKey q -> p = q.
Proof.
  unfold fitsBcrypt, bcryptKey. intros Hp Hq He.
  apply andb_true_iff in Hp, Hq. destruct Hp as [Lp Np], Hq as [Lq Nq].
  apply Nat.leb_le in Lp, Lq.
  rewrite (@keyStream_prefix 72 (app (list_ascii_of_string p) [Ascii.zero])
             (app (list_ascii_of_string p) [Ascii.zero])),
    (@keyStream_prefix 72 (app (list_ascii_of_string q) [Ascii.zero])
       (app (list_ascii_of_string q) [Ascii.zero])) in He
    by (rewrite length_app, length_list_ascii_of_string; simpl; lia).
  rewrite <- !app_assoc in He. simpl in He.
  apply first_zero in He; auto.
  rewrite <- (string_of_list_ascii_of_string p), <- (string_of_list_ascii_of_string q).
  now rewrite He.
Qed.

Lemma bcrypt_compare_distinct p q :
  fitsBcrypt p = true -> fitsBcrypt q = true -> p <> q ->
  bcrypt_compare p (bcrypt_hash q) = false.
Proof.
  intros Hp Hq Hne. apply bcrypt_compare_other.
  intros He. apply Hne. now apply bcryptKey_inj.
Qed.

(** ** Collections *)

Section CollectionFacts.
Context {A : Type} `{Document A}.
Implicit Types (c : list A) (d : A) (p : A -> bool) (i n : ObjectId).

Lemma findOne_some p c d : findOne p c = Some d -> In d c /\ p d = true.
Proof. apply find_some. Qed.

Lemma findOne_none p c d : findOne p c = None -> In d c -> p d = false.
Proof. intros Hn Hin. exact (find_none p c Hn d Hin). Qed.

Lemma findOne_none_find p c : findOne p c = None -> find p c = [].
Proof.
  unfold findOne, find. induction c as [|d c IH]; simpl; [reflexivity|].
  destruct (p d); [discriminate | exact IH].
Qed.

Lemma findById_id i c d : findById i c = Some d -> doc_id d = i.
Proof.
  intros Hf. apply findOne_some in Hf. destruct Hf as [_ Hp].
  now apply Nat.eqb_eq in Hp.
Qed.

Lemma findById_again i c d : findById i c = Some d -> findById (doc_id d) c = Some d.
Proof. intros Hf. now rewrite (findById_id _ _ Hf). Qed.

Lemma findById_create_some i c d d' :
  findById i c = Some d -> findById i (create d' c) = Some d.
Proof.
  unfold findById, findOne, create. induction c as [|x c IH]; simpl; [discriminate|].
  destruct (doc_id x =? i); [trivial | exact IH].
Qed.

Lemma findById_update i j f c :
  (forall d, doc_id d = j -> doc_id (f d) = j) ->
  findById i (findByIdAndUpdate j f c) =
  if i =? j then option_map f (findById i c) else findById i c.
Proof.
  intros Hf. unfold findById, findOne.
  induction c as [|x c IH]; simpl.
  - now destruct (i =? j).
  - destruct (doc_id x =? j) eqn:Exj.
    + apply Nat.eqb_eq in Exj. simpl. rewrite (Hf _ Exj).
      destruct (i =? j) eqn:Eij.
      * apply Nat.eqb_eq in Eij. subst i. rewrite !Nat.eqb_refl.
        rewrite Exj, Nat.eqb_refl. reflexivity.
      * rewrite Exj. rewrite (Nat.eqb_sym j i), Eij. reflexivity.
    + simpl. destruct (doc_id x =? i) eqn:Exi.
      * apply Nat.eqb_eq in Exi. subst i. rewrite Exj. reflexivity.
      * exact IH.
Qed.

Lemma ids_update i f c :
  (forall d, doc_id d = i -> doc_id (f d) = i) ->
  ids (findByIdAndUpdate i f c) = ids c.
Proof.
  intros Hf. unfold ids. induction c as [|x c IH]; simpl; [reflexivity|].
  destruct (doc_id x =? i) eqn:E; simpl.
  - apply Nat.eqb_eq in E. now rewrite (Hf _ E), E.
  - now rewrite IH.
Qed.

Lemma In_update i f c d :
  In d (findByIdAndUpdate i f c) ->
  In d c \/ exists d0, In d0 c /\ doc_id d0 = i /\ d = f d0.
Proof.
  induction c as [|x c IH]; simpl; [tauto|].
  destruct (doc_id x =? i) eqn:E; simpl.
  - intros [Hd|Hd]; [|tauto].
    right. exists x. apply Nat.eqb_eq in E. auto.
  - intros [Hd|Hd]; [tauto|].
    destruct (IH Hd) as [Hc|(d0 & H1 & H2 & H3)]; [tauto|].
    right. exists d0. auto.
Qed.

Lemma In_delete i c d : In d (findByIdAndDelete i c) -> In d c.
Proof.
  induction c as [|x c IH]; simpl; [tauto|].
  destruct (doc_id x =? i); simpl; tauto.
Qed.

Lemma NoDup_ids_delete i c : NoDup (ids c) -> NoDup (ids (findByIdAndDelete i c)).
Proof.
  unfold ids. induction c as [|x c IH]; simpl; intros Hn; [constructor|].
  inversion Hn as [|? ? Hx Hc]; subst.
  destruct (doc_id x =? i); simpl; [assumption|].
  constructor; [|auto].
  intros Hin. apply Hx. apply in_map_iff in Hin. destruct Hin as (y & Hy & Hiny).
  apply in_map_iff. exists y. split; [assumption|]. eapply In_delete; eassumption.
Qed.

Lemma NoDup_ids_filter p c : NoDup (ids c) -> NoDup (ids (filter p c)).
Proof.
  unfold ids. induction c as [|x c IH]; simpl; intros Hn; [constructor|].
  inversion Hn as [|? ? Hx Hc]; subst.
  destruct (p x); simpl; [|auto].
  constructor; [|auto].
  intros Hin. apply Hx. apply in_map_iff in Hin. destruct Hin as (y & Hy & Hiny).
  apply in_map_iff. exists y. split; [assumption|].
  apply filter_In in Hiny. tauto.
Qed.

Lemma NoDup_ids_inj c d d' :
  NoDup (ids c) -> In d c -> In d' c -> doc_id d = doc_id d' -> d = d'.
Proof.
  unfold ids. induction c as [|x c IH]; simpl; intros Hn Hd Hd' He; [tauto|].
  inversion Hn as [|? ? Hx Hc]; subst.
  destruct Hd as [Hd|Hd], Hd' as [Hd'|Hd']; subst; auto.
  - exfalso. apply Hx. rewrite He. now apply in_map.
  - exfalso. apply Hx. rewrite <- He. now apply in_map.
Qed.

Lemma fresh_mono n m c : n <= m -> fresh n c -> fresh m c.
Proof.
  intros Hle [Hn Hb]. split; [assumption|].
  eapply Forall_impl; [|exact Hb]. simpl. intros. lia.
Qed.

Lemma fresh_create n c d : doc_id d = n -> fresh n c -> fresh (S n) (create d c).
Proof.
  intros Hd [Hn Hb]. unfold fresh, create, ids. split.
  - rewrite map_app. simpl. apply NoDup_app.
    + assumption.
    + repeat constructor. simpl. tauto.
    + intros a Ha [Hx|[]]. subst a.
      apply in_map_iff in Ha. destruct Ha as (y & Hy & Hiny).
      rewrite Forall_forall in Hb. specialize (Hb _ Hiny). simpl in Hb. lia.
  - apply Forall_app. split.
    + eapply Forall_impl; [|exact Hb]. simpl. intros. lia.
    + constructor; [|constructor]. rewrite Hd. lia.
Qed.

Lemma fresh_update n i f c :
  (forall d, doc_id d = i -> doc_id (f d) = i) ->
  fresh n c -> fresh n (findByIdAndUpdate i f c).
Proof.
  intros Hf [Hn Hb]. split.
  - now rewrite ids_update.
  - rewrite Forall_forall in *. intros d Hd.
    apply In_update in Hd. destruct Hd as [Hd|(d0 & H1 & H2 & H3)]; [auto|].
    subst d. rewrite (Hf _ H2). rewrite <- H2. auto.
Qed.

Lemma fresh_save n c d : fresh n c -> fresh n (save d c).
Proof. intros Hc. apply fresh_update; auto. Qed.

Lemma fresh_delete n i c : fresh n c -> fresh n (findByIdAndDelete i c).
Proof.
  intros [Hn Hb]. split; [now apply NoDup_ids_delete|].
  rewrite Forall_forall in *. intros d Hd. apply Hb. eapply In_delete; eassumption.
Qed.

Lemma fresh_deleteMany n p c : fresh n c -> fresh n (deleteMany p c).
Proof.
  intros [Hn Hb]. split; [now apply NoDup_ids_filter|].
  rewrite Forall_forall in *. intros d Hd. apply Hb.
  apply filter_In in Hd. tauto.
Qed.

(** *** Counting the documents that match a query *)

Lemma count_create p c d :
  length (find p (create d c)) = length (find p c) + (if p d then 1 else 0).
Proof.
  unfold find, create. rewrite filter_app, length_app. simpl.
  now destruct (p d).
Qed.

Lemma count_delete p i c :
  length (find p (findByIdAndDelete i c)) <= length (find p c).
Proof.
  unfold find. induction c as [|x c IH]; simpl; [lia|].
  destruct (doc_id x =? i); simpl; destruct (p x); simpl; lia.
Qed.

Lemma count_deleteMany p q c :
  length (find p (deleteMany q c)) <= length (find p c).
Proof.
  unfold find, deleteMany. induction c as [|x c IH]; simpl; [lia|].
  destruct (q x); simpl; destruct (p x); simpl; lia.
Qed.

Lemma count_update p i f c :
  (forall d, In d c -> doc_id d = i -> p (f d) = p d) ->
  length (find p (findByIdAndUpdate i f c)) = length (find p c).
Proof.
  unfold find. induction c as [|x c IH]; simpl; intros Hf; [reflexivity|].
  destruct (doc_id x =? i) eqn:E; simpl.
  - apply Nat.eqb_eq in E. rewrite (Hf x); [now destruct (p x) | now left | assumption].
  - assert (IH' : length (filter p (findByIdAndUpdate i f c)) = length (filter p c)).
    { apply IH. intros d Hd. apply Hf. now right. }
    destruct (p x); simpl; rewrite IH'; reflexivity.
Qed.

Lemma count_save p c d d' :
  NoDup (ids c) -> In d c -> doc_id d' = doc_id d -> p d' = p d ->
  length (find p (save d' c)) = length (find p c).
Proof.
  intros Hn Hin Hid Hp. unfold save. apply count_update.
  intros x Hx Hxi. rewrite Hp. f_equal.
  apply (NoDup_ids_inj c); auto. congruence.
Qed.
End CollectionFacts.

Section ForallFacts.
Context {A : Type} `{Document A} (P : A -> Prop).

Lemma Forall_delete i (c : list A) : Forall P c -> Forall P (findByIdAndDelete i c).
Proof.
  rewrite !Forall_forall. intros Hc d Hd. apply Hc. eapply In_delete; eassumption.
Qed.

Lemma Forall_deleteMany p (c : list A) : Forall P c -> Forall P (deleteMany p c).
Proof.
  rewrite !Forall_forall. intros Hc d Hd. apply Hc. apply filter_In in Hd. tauto.
Qed.

Lemma Forall_create d (c : list A) : P d -> Forall P c -> Forall P (create d c).
Proof. intros Hd Hc. apply Forall_app. split; [assumption|]. now constructor. Qed.

Lemma Forall_save d (c : list A) : P d -> Forall P c -> Forall P (save d c).
Proof.
  rewrite !Forall_forall. intros Hd Hc x Hx.
  apply In_update in Hx. destruct Hx as [Hx|(d0 & _ & _ & ->)]; auto.
Qed.
End ForallFacts.

(** ** The invariant of the store *)

Lemma count_le_delete {A} `{Document A} (p : A -> bool) i (c : list A) n :
  length (find p c) <= n -> length (find p (findByIdAndDelete i c)) <= n.
Proof. intros Hc. eapply Nat.le_trans; [apply count_delete | exact Hc]. Qed.

Lemma count_le_deleteMany {A} `{Document A} (p q : A -> bool) (c : list A) n :
  length (find p c) <= n -> length (find p (deleteMany q c)) <= n.
Proof. intros Hc. eapply Nat.le_trans; [apply count_deleteMany | exact Hc]. Qed.

Lemma fresh_next {A} `{Document A} n (c : list A) : fresh n c -> fresh (S n) c.
Proof. apply fresh_mono. lia. Qed.

Create HintDb store discriminated.

#[export] Hint Resolve fresh_next fresh_save fresh_delete fresh_deleteMany
  count_le_delete count_le_deleteMany Forall_delete Forall_deleteMany : store.

#[export] Hint Extern 2 (fresh (S _) (create _ _)) =>
  apply fresh_create; [reflexivity | assumption] : store.

#[export] Hint Extern 2 (fresh _ (findByIdAndUpdate _ _ _)) =>
  apply fresh_update; [intros ? ?; simpl; assumption | ] : store.

(** Splits the invariant of the new store into its eleven parts, each
    stated over the collections of the old one. *)
Ltac wf_parts Hwf :=
  destruct Hwf; constructor; simpl; auto with store;
  try (intros; apply count_le_deleteMany; auto).

Ltac unfold_handlers :=
  unfold get_health, post_register, post_login, post_setup, get_schools,
    get_school_classes, get_teachers, get_teacher, get_teacher_reviews,
    get_my_review, post_review, put_review, get_my_rating, post_rating,
    get_discussions, post_discussion, post_admin_login, get_admin_config,
    put_admin_config, post_admin_upload_image, post_admin_school,
    delete_admin_school, post_admin_class, delete_admin_class,
    get_admin_teachers, post_admin_teacher, put_admin_teacher,
    delete_admin_teacher, get_admin_reviews, delete_admin_review,
    get_admin_users, delete_admin_user, post_admin_reset_password,
    put_admin_discussion_pin, delete_admin_discussion,
    with_auth, with_adminAuth in *.

Ltac store_simpl :=
  unfold newId, set_users, set_schools, set_classes, set_teachers, set_reviews,
    set_ratings, set_discussions, set_adminConfigs; simpl.

Lemma post_review_wellFormed now tok teacherId text s :
  wellFormed s -> wellFormed (snd (post_review now tok teacherId text s)).
Proof.
  intros Hwf. unfold post_review, with_auth.
  destruct (auth tok s) as [requser|]; [|exact Hwf].
  destruct (findById (User._id requser) (users s)) as [user|]; [|exact Hwf].
  destruct (findOne (reviewOf teacherId (User._id requser)) (reviews s)) eqn:Hex;
    [exact Hwf|].
  destruct (required (Some (User.username user))) as [username|]; [|exact Hwf].
  destruct (required text) as [text'|]; [|exact Hwf].
  wf_parts Hwf.
  intros t u. rewrite count_create. simpl.
  unfold reviewOf at 2. simpl.
  destruct (teacherId =? t) eqn:Et; simpl.
  - destruct (User._id requser =? u) eqn:Eu; simpl.
    + apply Nat.eqb_eq in Et, Eu. subst t u.
      rewrite (findOne_none_find _ _ Hex). simpl. lia.
    + rewrite Nat.add_0_r. auto.
  - rewrite Nat.add_0_r. auto.
Qed.

Lemma put_review_wellFormed now tok reviewId text s :
  wellFormed s -> wellFormed (snd (put_review now tok reviewId text s)).
Proof.
  intros Hwf. unfold put_review, with_auth.
  destruct (auth tok s) as [requser|]; [|exact Hwf].
  destruct (findOne _ (reviews s)) as [review|] eqn:Hex; [|exact Hwf].
  destruct (required text) as [text'|]; [|exact Hwf].
  apply findOne_some in Hex. destruct Hex as [Hin _].
  pose proof (wf_reviews Hwf) as [Hnd _].
  wf_parts Hwf.
  intros t u. rewrite (@count_save _ _ (reviewOf t u) _ review); auto.
Qed.

Lemma validateRating_some rating q :
  validateRating rating = Some q -> rating = Some q /\ validRating q = true.
Proof.
  unfold validateRating. destruct rating as [r|]; [|discriminate].
  destruct (validRating r) eqn:Hv; [|discriminate].
  intros [= ->]. auto.
Qed.

Lemma upsertRating_wellFormed now teacherId userId rating s r s1 :
  wellFormed s -> upsertRating now teacherId userId rating s = Some (r, s1) ->
  wellFormed s1.
Proof.
  intros Hwf. unfold upsertRating.
  destruct (findOne (ratingOf teacherId userId) (ratings s)) as [existing|] eqn:Hex;
    destruct (validateRating rating) as [q|] eqn:Hq; try discriminate;
    apply validateRating_some in Hq; destruct Hq as [_ Hq];
    intros [= <- <-].
  - apply findOne_some in Hex. destruct Hex as [Hin _].
    pose proof (wf_ratings Hwf) as [Hnd _].
    wf_parts Hwf.
    + intros t u. rewrite (@count_save _ _ (ratingOf t u) _ existing); auto.
    + apply Forall_save; auto.
  - wf_parts Hwf.
    + intros t u. rewrite count_create. simpl.
      unfold ratingOf at 2. simpl.
      destruct (teacherId =? t) eqn:Et; simpl.
      * destruct (userId =? u) eqn:Eu; simpl.
        -- apply Nat.eqb_eq in Et, Eu. subst t u.
           rewrite (findOne_none_find _ _ Hex). simpl. lia.
        -- rewrite Nat.add_0_r. auto.
      * rewrite Nat.add_0_r. auto.
    + apply Forall_create; auto.
Qed.

Lemma post_rating_wellFormed now tok teacherId rating s :
  wellFormed s -> wellFormed (snd (post_rating now tok teacherId rating s)).
Proof.
  intros Hwf. unfold post_rating, with_auth.
  destruct (auth tok s) as [requser|]; [|exact Hwf].
  destruct (upsertRating now teacherId (User._id requser) rating s)
    as [[r s1]|] eqn:Hup; [|exact Hwf].
  apply upsertRating_wellFormed in Hup; [|exact Hwf].
  simpl. wf_parts Hup.
Qed.

Lemma initialStore_wellFormed : wellFormed initialStore.
Proof.
  constructor; simpl; try (split; constructor); auto; try lia.
  all: repeat constructor; simpl; auto.
Qed.

Theorem handle_wellFormed now req s :
  wellFormed s -> wellFormed (snd (handle now req s)).
Proof.
  intros Hwf. destruct req as [tok r]. unfold handle. simpl.
  destruct r;
    try apply post_review_wellFormed;
    try apply put_review_wellFormed;
    try apply post_rating_wellFormed;
    try exact Hwf;
    unfold_handlers; unfold newId;
    repeat match goal with
           | |- wellFormed (snd (match ?x with _ => _ end)) => destruct x
           | |- wellFormed (snd (if ?x then _ else _)) => destruct x
           end;
    simpl; try exact Hwf; wf_parts Hwf.
Qed.

Theorem reachable_wellFormed s : reachable s -> wellFormed s.
Proof.
  induction 1 as [|s now req _ IH].
  - exact initialStore_wellFormed.
  - now apply handle_wellFormed.
Qed.

Lemma reachable_run trace s : reachable s -> reachable (run trace s).
Proof.
  revert s. induction trace as [|[now req] trace IH]; simpl; intros s Hs.
  - exact Hs.
  - apply IH. now apply reachable_step.
Qed.

(** ** Rating upsert and the aggregate *)

Section SaveFacts.
Context {A : Type} `{Document A}.

Lemma In_save (c : list A) d d' : In d c -> doc_id d' = doc_id d -> In d' (save d' c).
Proof.
  unfold save. intros Hin Hid. induction c as [|x c IH]; simpl; [destruct Hin|].
  destruct (doc_id x =? doc_id d') eqn:E; simpl; [now left|].
  destruct Hin as [->|Hin].
  - rewrite Hid, Nat.eqb_refl in E. discriminate.
  - right. now apply IH.
Qed.

Lemma In_create (c : list A) d : In d (create d c).
Proof. unfold create. apply in_or_app. right. now left. Qed.

Lemma singleton_of_count (p : A -> bool) (c : list A) d :
  length (find p c) <= 1 -> In d c -> p d = true -> find p c = [d].
Proof.
  intros Hlen Hin Hp.
  assert (Hf : In d (find p c)) by (apply filter_In; auto).
  destruct (find p c) as [|x [|y l]]; simpl in *.
  - destruct Hf.
  - destruct Hf as [->|[]]. reflexivity.
  - lia.
Qed.
End SaveFacts.

(** What the upsert of lines 405-419 leaves behind. *)
Lemma upsertRating_spec now teacherId userId rating s r s1 :
  upsertRating now teacherId userId rating s = Some (r, s1) ->
  In r (ratings s1) /\ ratingOf teacherId userId r = true /\
  rating = Some (Rating.rating r) /\
  users s1 = users s /\ teachers s1 = teachers s /\ reviews s1 = reviews s /\
  nextId s <= nextId s1.
Proof.
  unfold upsertRating.
  destruct (findOne (ratingOf teacherId userId) (ratings s)) as [existing|] eqn:Hex;
    destruct (validateRating rating) as [q|] eqn:Hq; try discriminate;
    apply validateRating_some in Hq; destruct Hq as [-> _];
    intros [= <- <-]; simpl.
  - apply findOne_some in Hex. destruct Hex as [Hin Hp].
    repeat split; auto.
    apply In_save with (d := existing); auto.
  - repeat split; auto.
    + apply In_create.
    + unfold ratingOf. simpl. now rewrite !Nat.eqb_refl.
Qed.

Lemma ratingOf_teacher teacherId userId r :
  ratingOf teacherId userId r = true -> (Rating.teacher r =? teacherId) = true.
Proof. unfold ratingOf. intros Hp. apply andb_true_iff in Hp. tauto. Qed.

(** What a successful [POST /api/teachers/:teacherId/ratings] went through. *)
Lemma post_rating_ok now tok teacherId rating s resp s' :
  post_rating now tok teacherId rating s = (resp, s') -> status resp = 200 ->
  exists requser r s1,
    auth tok s = Some requser /\
    upsertRating now teacherId (User._id requser) rating s = Some (r, s1) /\
    resp = ok (JRating (Some r)) /\
    s' = set_teachers
           (findByIdAndUpdate teacherId
              (setAggregate
                 (avgRating (find (fun r => Rating.teacher r =? teacherId) (ratings s1)))
                 (length (find (fun r => Rating.teacher r =? teacherId) (ratings s1))))
              (teachers s1)) s1.
Proof.
  unfold post_rating, with_auth.
  destruct (auth tok s) as [requser|]; [|intros [= <- <-]; discriminate].
  destruct (upsertRating now teacherId (User._id requser) rating s)
    as [[r s1]|] eqn:Hup; [|intros [= <- <-]; discriminate].
  intros [= <- <-] _. exists requser, r, s1. auto.
Qed.



Lemma validRating_nonneg q : validRating q = true -> (0 <= Qnum q)%Z.
Proof.
  unfold validRating. rewrite andb_true_iff, !Qle_bool_iff.
  unfold Qle. simpl. lia.
Qed.

(** The sum of valid ratings is a double that is not negative. *)
Lemma sumRatings_nonneg (rs : list Rating.t) :
  Forall (fun r => validRating (Rating.rating r) = true) rs ->
  signed false (sumRatings rs).
Proof.
  unfold sumRatings.
  assert (Hacc : signed false (S754_zero false)) by reflexivity.
  revert Hacc. generalize (S754_zero false).
  induction rs as [|r rs IH]; simpl; intros a Ha Hrs; [exact Ha|].
  inversion Hrs as [|? ? Hr Hrest]; subst.
  apply IH; [|exact Hrest].
  apply double_add_nonneg; [exact Ha|].
  apply doubleOfQ_nonneg. now apply validRating_nonneg.
Qed.

(** The quotient of line 423 over one valid rating or more, fewer than
    2^53, is a number. *)
Lemma avgRating_not_nan (rs : list Rating.t) :
  Forall (fun r => validRating (Rating.rating r) = true) rs ->
  1 <= length rs -> (Z.of_nat (length rs) < 2 ^ 53)%Z ->
  avgRating rs <> NaN.
Proof.
  intros Hrs Hlen Hbound Hnan. unfold avgRating in Hnan.
  apply numberOfDouble_nan in Hnan.
  destruct (Z.of_nat (length rs)) as [|p|p] eqn:Ep; try lia.
  destruct (@doubleOfZ_finite p Hbound) as (m & e & Hd).
  rewrite Hd in Hnan.
  exact (@double_div_not_nan (sumRatings rs) m e (sumRatings_nonneg Hrs) Hnan).
Qed.

(** On the success path the handler divides the ratings of the teacher as
    the store holds them after the upsert, and writes the quotient and
    their number on the teacher. *)
Lemma post_rating_reads now tok teacherId rating s resp s' :
  handle now (mkRequest tok (POST_rating teacherId rating)) s = (resp, s') ->
  status resp = 200 ->
  exists requser r,
    auth tok s = Some requser /\
    resp = ok (JRating (Some r)) /\
    ratingOf teacherId (User._id requser) r = true /\
    In r (find (fun r => Rating.teacher r =? teacherId) (ratings s')) /\
    teachers s' =
      findByIdAndUpdate teacherId
        (setAggregate
           (avgRating (find (fun r => Rating.teacher r =? teacherId) (ratings s')))
           (length (find (fun r => Rating.teacher r =? teacherId) (ratings s'))))
        (teachers s).
Proof.
  unfold handle. simpl. intros Hh Hst.
  destruct (post_rating_ok _ _ _ _ _ Hh Hst)
    as (requser & r & s1 & Hauth & Hup & Hresp & ->).
  destruct (upsertRating_spec _ _ _ _ _ Hup) as (Hin & Hp & _ & _ & Hts & _).
  exists requser, r. simpl. rewrite Hts.
  repeat split; auto.
  apply filter_In. split; [assumption|]. eapply ratingOf_teacher; eassumption.
Qed.



(** C10. On the success path of POST /api/teachers/:teacherId/ratings the
    list the handler divides by, the ratings of the teacher read after
    the upsert, holds the caller's rating, which the response returns:
    the divisor [ratings.length] is at least 1, the quotient is not NaN,
    and the average and the count written on the teacher are that
    quotient and that divisor.  The list has fewer than 2^53 elements, as
    every JavaScript array has: the length of an array is below 2^32. *)
Theorem post_rating_divisor_positive now tok teacherId rating s resp s' :
  reachable s ->
  handle now (mkRequest tok (POST_rating teacherId rating)) s = (resp, s') ->
  status resp = 200 ->
  let divided := find (fun r => Rating.teacher r =? teacherId) (ratings s') in
  (Z.of_nat (length divided) < 2 ^ 53)%Z ->
  (exists requser r,
      auth tok s = Some requser /\ resp = ok (JRating (Some r)) /\
      ratingOf teacherId (User._id requser) r = true /\ In r divided) /\
  1 <= length divided /\
  avgRating divided <> NaN /\
  teachers s' =
    findByIdAndUpdate teacherId (setAggregate (avgRating divided) (length divided))
                      (teachers s) /\
  (forall t', findById teacherId (teachers s') = Some t' ->
              Teacher.averageRating t' = avgRating divided /\
              Teacher.averageRating t' <> NaN /\
              Teacher.totalRatings t' = length divided /\
              1 <= Teacher.totalRatings t').
Proof.
  intros Hs Hh Hst divided Hbound.
  destruct (post_rating_reads _ _ _ _ _ Hh Hst)
    as (requser & r & Hauth & Hresp & Hp & Hin & Hts).
  fold divided in Hin, Hts.
  assert (Hwf : wellFormed s').
  { replace s' with (snd (handle now (mkRequest tok (POST_rating teacherId rating)) s))
      by now rewrite Hh.
    apply handle_wellFormed. now apply reachable_wellFormed. }
  assert (Hlen : 1 <= length divided).
  { destruct divided; [destruct Hin | simpl; lia]. }
  assert (Hvalid : Forall (fun r => validRating (Rating.rating r) = true) divided).
  { pose proof (wf_rating_range Hwf) as Hall. rewrite Forall_forall in *.
    intros x Hx. apply Hall. unfold divided, find in Hx.
    apply filter_In in Hx. tauto. }
  assert (Hnum : avgRating divided <> NaN).
  { apply avgRating_not_nan; [exact Hvalid | exact Hlen | exact Hbound]. }
  split; [exists requser, r; auto|].
  split; [exact Hlen|]. split; [exact Hnum|]. split; [exact Hts|].
  intros t' Ht'. rewrite Hts in Ht'.
  rewrite findById_update in Ht' by (intros d Hd; exact Hd).
  rewrite Nat.eqb_refl in Ht'.
  destruct (findById teacherId (teachers s)) as [t|]; [|discriminate].
  injection Ht' as <-. simpl. auto.
Qed.

(** A valid value submitted by an authenticated caller is stored, and it
    is then the caller's only rating of that teacher. *)
Lemma post_rating_stores now tok teacherId q s requser :
  wellFormed s -> auth tok s = Some requser -> validRating q = true ->
  let s' := snd (post_rating now tok teacherId (Some q) s) in
  status (fst (post_rating now tok teacherId (Some q) s)) = 200 /\
  users s' = users s /\
  exists r, find (ratingOf teacherId (User._id requser)) (ratings s') = [r] /\
            Rating.rating r = q.
Proof.
  intros Hwf Hauth Hq.
  pose proof (post_rating_wellFormed now tok teacherId (Some q) Hwf) as Hwf'.
  revert Hwf'. unfold post_rating, with_auth. rewrite Hauth.
  destruct (upsertRating now teacherId (User._id requser) (Some q) s)
    as [[r s1]|] eqn:Hup.
  - simpl. intros Hwf'.
    destruct (upsertRating_spec _ _ _ _ _ Hup) as (Hin & Hp & Hval & Hus & _ & _).
    repeat split; auto.
    exists r. split; [|congruence].
    apply singleton_of_count; auto.
    apply (wf_one_rating Hwf').
  - exfalso. unfold upsertRating, validateRating in Hup. rewrite Hq in Hup.
    destruct (findOne _ (ratings s)); discriminate.
Qed.

(** C3. Submitting the value r1 and then the value r2 for the same
    teacher as the same user leaves exactly one Rating of that pair, and
    its value is r2. *)
Theorem rating_upsert_last_wins now1 now2 tok teacherId r1 r2 s requser :
  reachable s -> auth tok s = Some requser ->
  validRating r1 = true -> validRating r2 = true ->
  let s1 := snd (handle now1 (mkRequest tok (POST_rating teacherId (Some r1))) s) in
  let s2 := snd (handle now2 (mkRequest tok (POST_rating teacherId (Some r2))) s1) in
  (exists r, find (ratingOf teacherId (User._id requser)) (ratings s1) = [r] /\
             Rating.rating r = r1) /\
  (exists r, find (ratingOf teacherId (User._id requser)) (ratings s2) = [r] /\
             Rating.rating r = r2).
Proof.
  intros Hs Hauth H1 H2. unfold handle. simpl.
  apply reachable_wellFormed in Hs.
  destruct (@post_rating_stores now1 tok teacherId r1 s requser Hs Hauth H1)
    as (_ & Hus & Hr1).
  split; [exact Hr1|].
  assert (Hauth1 : auth tok (snd (post_rating now1 tok teacherId (Some r1) s)) = Some requser).
  { unfold auth in *. now rewrite Hus. }
  pose proof (post_rating_wellFormed now1 tok teacherId (Some r1) Hs) as Hwf1.
  destruct (@post_rating_stores now2 tok teacherId r2 _ requser Hwf1 Hauth1 H2)
    as (_ & _ & Hr2).
  exact Hr2.
Qed.

Lemma classroom_reachable : reachable classroom.
Proof. apply reachable_run. constructor. Qed.

Example classroom_ids :
  ids (users classroom) = [alice; bob; carol] /\
  ids (schools classroom) = [hilltop] /\
  ids (classes classroom) = [class7B] /\
  ids (teachers classroom) = [msRao].
Proof. repeat split; reflexivity. Qed.



Example post_rating_average_5_3_3 :
  let s' := snd (handle 9 (asUser carol (POST_rating msRao (Some 3%Q))) twoRatings) in
  ratingValues msRao s' = [5%Q; 3%Q; 3%Q] /\
  (mean (ratingValues msRao s') == 11 # 3)%Q /\
  findById msRao (teachers s') =
    Some (Teacher.mk msRao "Ms Rao" "MSc Physics" "https://img.example/rao.png"
                     class7B hilltop
                     (Num (8256599316845909 # 2251799813685248)) 3 6) /\
  (8256599316845909 # 2251799813685248 < 11 # 3)%Q.
Proof. repeat split; vm_compute; reflexivity. Qed.

Lemma twoRatings_reachable : reachable twoRatings.
Proof. unfold twoRatings. apply reachable_run. exact classroom_reachable. Qed.

(** Alice is the first to rate Ms Rao: the list divided holds her rating
    alone, and the teacher gets the average 5 and the count 1. *)
Lemma post_rating_divisor_positive_witness :
  let s' := snd (handle 7 (asUser alice (POST_rating msRao (Some 5%Q))) classroom) in
  let divided := find (fun r => Rating.teacher r =? msRao) (ratings s') in
  divided = [Rating.mk 7 msRao alice 5 7] /\
  avgRating divided <> NaN /\
  forall t', findById msRao (teachers s') = Some t' ->
             Teacher.averageRating t' = Num 5 /\ Teacher.totalRatings t' = 1.
Proof.
  intros s' divided.
  assert (Hd : divided = [Rating.mk 7 msRao alice 5 7]) by (vm_compute; reflexivity).
  destruct (@post_rating_divisor_positive 7 (Some (UserToken alice)) msRao (Some 5%Q)
              classroom
              (fst (handle 7 (asUser alice (POST_rating msRao (Some 5%Q))) classroom))
              s' classroom_reachable)
    as (_ & _ & Hnum & _ & Hstored).
  - vm_compute. reflexivity.
  - vm_compute. reflexivity.
  - vm_compute. reflexivity.
  - fold divided in Hnum, Hstored.
    split; [exact Hd|]. split; [exact Hnum|].
    intros t' Ht'. destruct (Hstored t' Ht') as (Havg & _ & Hn & _).
    rewrite Havg, Hn, Hd. split; vm_compute; reflexivity.
Defined.

(** Alice rates 2 and then 5 on the classroom store: one rating, value 5. *)
Lemma rating_upsert_last_wins_witness :
  let s1 := snd (handle 7 (asUser alice (POST_rating msRao (Some 2%Q))) classroom) in
  let s2 := snd (handle 8 (asUser alice (POST_rating msRao (Some 5%Q))) s1) in
  (exists r, find (ratingOf msRao alice) (ratings s1) = [r] /\ Rating.rating r = 2%Q) /\
  (exists r, find (ratingOf msRao alice) (ratings s2) = [r] /\ Rating.rating r = 5%Q).
Proof.
  apply (@rating_upsert_last_wins 7 8 (Some (UserToken alice)) msRao 2%Q 5%Q classroom
           (User.mk alice "alice" (Bcrypt "pw-a") None None false 1)).
  - exact classroom_reachable.
  - reflexivity.
  - reflexivity.
  - reflexivity.
Defined.

(** ** The range of a rating *)

Lemma validRating_range q : validRating q = true <-> (1 <= q /\ q <= 5)%Q.
Proof.
  unfold validRating. rewrite andb_true_iff, !Qle_bool_iff. tauto.
Qed.

(** C7, as the code has it. A stored rating is always a number of the
    interval [1,5], integer or not: a submitted value that is missing,
    below 1 or above 5 is refused with status 400, stores nothing and
    leaves the teacher's aggregate as it was, while every value of the
    interval is stored as submitted. *)
Theorem rating_within_1_5 :
  (forall s r, reachable s -> In r (ratings s) ->
               (1 <= Rating.rating r /\ Rating.rating r <= 5)%Q) /\
  (forall now tok requser teacherId rating s,
      auth tok s = Some requser ->
      match rating with
      | Some q => (q < 1 \/ 5 < q)%Q
      | None => True
      end ->
      handle now (mkRequest tok (POST_rating teacherId rating)) s = (thrown, s)) /\
  (forall now tok requser teacherId q s,
      reachable s -> auth tok s = Some requser ->
      (1 <= q /\ q <= 5)%Q ->
      let (resp, s') := handle now (mkRequest tok (POST_rating teacherId (Some q))) s in
      status resp = 200 /\
      exists r, find (ratingOf teacherId (User._id requser)) (ratings s') = [r] /\
                Rating.rating r = q).
Proof.
  split; [|split].
  - intros s r Hs Hin. apply reachable_wellFormed in Hs.
    pose proof (wf_rating_range Hs) as Hall. rewrite Forall_forall in Hall.
    apply validRating_range. auto.
  - intros now tok requser teacherId rating s Hauth Hbad.
    assert (Hv : validateRating rating = None).
    { unfold validateRating. destruct rating as [q|]; [|reflexivity].
      destruct (validRating q) eqn:Hq; [|reflexivity].
      apply validRating_range in Hq. destruct Hq as [Hlo Hhi].
      destruct Hbad as [Hb|Hb].
      - exfalso. exact (Qlt_not_le _ _ Hb Hlo).
      - exfalso. exact (Qlt_not_le _ _ Hb Hhi). }
    unfold handle. simpl. unfold post_rating, with_auth, upsertRating.
    rewrite Hauth, Hv.
    now destruct (findOne _ (ratings s)).
  - intros now tok requser teacherId q s Hs Hauth Hq.
    apply reachable_wellFormed in Hs. apply validRating_range in Hq.
    destruct (@post_rating_stores now tok teacherId q s requser Hs Hauth Hq)
      as (Hst & _ & Hr).
    unfold handle. simpl.
    destruct (post_rating now tok teacherId (Some q) s) as [resp s'].
    simpl in *. auto.
Qed.

Lemma rating_within_1_5_witness :
  (1 <= 5 /\ 5 <= 5)%Q /\
  handle 7 (asUser alice (POST_rating msRao (Some 6%Q))) classroom = (thrown, classroom) /\
  handle 7 (asUser alice (POST_rating msRao (Some 0%Q))) classroom = (thrown, classroom) /\
  handle 7 (asUser alice (POST_rating msRao None)) classroom = (thrown, classroom).
Proof.
  destruct rating_within_1_5 as (Hrange & Hbad & _).
  split; [|split; [|split]].
  - apply (Hrange twoRatings (Rating.mk 7 msRao alice 5%Q 7)).
    + apply reachable_run. exact classroom_reachable.
    + simpl. left. reflexivity.
  - apply (Hbad 7 (Some (UserToken alice))
             (User.mk alice "alice" (Bcrypt "pw-a") None None false 1)).
    + reflexivity.
    + right. reflexivity.
  - apply (Hbad 7 (Some (UserToken alice))
             (User.mk alice "alice" (Bcrypt "pw-a") None None false 1)).
    + reflexivity.
    + left. reflexivity.
  - apply (Hbad 7 (Some (UserToken alice))
             (User.mk alice "alice" (Bcrypt "pw-a") None None false 1)).
    + reflexivity.
    + exact I.
Defined.

(** C7 as the specification words it does not hold: 9/2 is not an
    integer, yet the request succeeds and the value is stored. *)
Lemma fractional_rating_is_stored :
  ~ (isInteger (9 # 2) = false ->
     let (resp, s') :=
       handle 7 (asUser alice (POST_rating msRao (Some (9 # 2)%Q))) classroom in
     status resp <> 200 /\ ratings s' = ratings classroom /\
     teachers s' = teachers classroom).
Proof.
  intros Hclaim.
  assert (Hfrac : isInteger (9 # 2) = false) by reflexivity.
  specialize (Hclaim Hfrac). vm_compute in Hclaim.
  destruct Hclaim as (Hst & _). apply Hst. reflexivity.
Qed.

Example fractional_rating_response :
  handle 7 (asUser alice (POST_rating msRao (Some (9 # 2)%Q))) classroom =
  (ok (JRating (Some (Rating.mk 7 msRao alice (9 # 2) 7))),
   set_teachers [Teacher.mk msRao "Ms Rao" "MSc Physics" "https://img.example/rao.png"
                            class7B hilltop (Num (9 # 2)) 1 6]
     (set_ratings [Rating.mk 7 msRao alice (9 # 2) 7]
        (snd (newId classroom)))).
Proof. vm_compute. reflexivity. Qed.

(** ** Reviews *)

Lemma auth_findById tok s requser :
  auth tok s = Some requser -> findById (User._id requser) (users s) = Some requser.
Proof.
  unfold auth. destruct tok as [[userId|]|]; try discriminate.
  apply findById_again.
Qed.

(** C2. At most one Review exists for every (teacher, user) pair: POST
    /api/teachers/:teacherId/reviews by a user who has already reviewed
    the teacher answers 400 and creates nothing, and PUT
    /api/reviews/:reviewId by a caller who is not the review's author
    answers 404 and changes nothing. *)
Theorem one_review_per_pair s :
  reachable s ->
  (forall t u, length (find (reviewOf t u) (reviews s)) <= 1) /\
  (forall now tok requser teacherId text existing,
      auth tok s = Some requser ->
      findOne (reviewOf teacherId (User._id requser)) (reviews s) = Some existing ->
      handle now (mkRequest tok (POST_review teacherId text)) s =
      (mkResponse 400 (JError "You have already reviewed this teacher"), s)) /\
  (forall now tok requser reviewId text review,
      auth tok s = Some requser ->
      findById reviewId (reviews s) = Some review ->
      Review.user review <> User._id requser ->
      handle now (mkRequest tok (PUT_review reviewId text)) s =
      (mkResponse 404 (JError "Review not found"), s)).
Proof.
  intros Hs. apply reachable_wellFormed in Hs. split; [|split].
  - exact (wf_one_review Hs).
  - intros now tok requser teacherId text existing Hauth Hex.
    unfold handle. simpl. unfold post_review, with_auth.
    now rewrite Hauth, (auth_findById _ _ Hauth), Hex.
  - intros now tok requser reviewId text review Hauth Hfind Hother.
    unfold handle. simpl. unfold put_review, with_auth. rewrite Hauth.
    destruct (findOne _ (reviews s)) as [mine|] eqn:Hmine; [|reflexivity].
    exfalso. apply Hother.
    apply findOne_some in Hmine. destruct Hmine as [Hin Hp].
    apply andb_true_iff in Hp. destruct Hp as [Hid Hu].
    apply Nat.eqb_eq in Hid, Hu.
    pose proof (findById_id _ _ Hfind) as Hid'.
    apply findOne_some in Hfind. destruct Hfind as [Hin' _].
    destruct (wf_reviews Hs) as [Hnd _].
    assert (Heq : mine = review).
    { apply (NoDup_ids_inj (reviews s)); auto.
      unfold doc_id, Review_doc in *. congruence. }
    now subst mine.
Qed.

Lemma one_review_per_pair_witness :
  length (find (reviewOf msRao alice) (reviews reviewed)) <= 1 /\
  handle 8 (asUser alice (POST_review msRao (Some "Again."))) reviewed =
  (mkResponse 400 (JError "You have already reviewed this teacher"), reviewed) /\
  handle 8 (asUser bob (PUT_review 7 (Some "Edited by Bob."))) reviewed =
  (mkResponse 404 (JError "Review not found"), reviewed).
Proof.
  assert (Hr : reachable reviewed) by (apply reachable_run; exact classroom_reachable).
  destruct (one_review_per_pair Hr) as (Hone & Hpost & Hput).
  split; [|split].
  - apply Hone.
  - apply (Hpost 8 (Some (UserToken alice))
             (User.mk alice "alice" (Bcrypt "pw-a") None None false 1) msRao
             (Some "Again.")
             (Review.mk 7 msRao alice "alice" "Explains clearly." 7 7)).
    + reflexivity.
    + reflexivity.
  - apply (Hput 8 (Some (UserToken bob))
             (User.mk bob "bob" (Bcrypt "pw-b") None None false 2) 7
             (Some "Edited by Bob.")
             (Review.mk 7 msRao alice "alice" "Explains clearly." 7 7)).
    + reflexivity.
    + reflexivity.
    + discriminate.
Defined.

(** ** Setup *)

Section LookupFacts.
Context {A : Type} `{Document A}.

Lemma findById_In (c : list A) d :
  NoDup (ids c) -> In d c -> findById (doc_id d) c = Some d.
Proof.
  intros Hn Hin.
  destruct (findById (doc_id d) c) as [x|] eqn:Hx.
  - pose proof (findById_id _ _ Hx) as Hid.
    apply findOne_some in Hx. destruct Hx as [Hxin _].
    f_equal. apply (NoDup_ids_inj c); auto.
  - apply (findOne_none _ _ d Hx) in Hin. simpl in Hin.
    rewrite Nat.eqb_refl in Hin. discriminate.
Qed.

(** A lookup in a part of a collection finds what the lookup in the
    whole collection finds. *)
Lemma findById_part (c c' : list A) i d' :
  NoDup (ids c) -> (forall x, In x c' -> In x c) ->
  findById i c' = Some d' -> findById i c = Some d'.
Proof.
  intros Hn Hsub Hf.
  pose proof (findById_id _ _ Hf) as Hid.
  apply findOne_some in Hf. destruct Hf as [Hin _].
  rewrite <- Hid. apply findById_In; auto.
Qed.

Lemma findById_delete (c : list A) i j d' :
  NoDup (ids c) ->
  findById i (findByIdAndDelete j c) = Some d' -> findById i c = Some d'.
Proof.
  intros Hn. apply findById_part; [assumption|]. intros x. apply In_delete.
Qed.

Lemma findById_deleteMany (c : list A) p i d' :
  NoDup (ids c) ->
  findById i (deleteMany p c) = Some d' -> findById i c = Some d'.
Proof.
  intros Hn. apply findById_part; [assumption|].
  intros x Hx. apply filter_In in Hx. tauto.
Qed.

Lemma findById_save (c : list A) i d :
  findById i (save d c) =
  if i =? doc_id d then option_map (fun _ => d) (findById i c) else findById i c.
Proof. unfold save. apply findById_update. reflexivity. Qed.

Lemma findById_create (c : list A) i d :
  findById i (create d c) =
  match findById i c with
  | Some x => Some x
  | None => if doc_id d =? i then Some d else None
  end.
Proof.
  unfold findById, findOne, create. induction c as [|x c IH]; simpl.
  - reflexivity.
  - destruct (doc_id x =? i); [reflexivity | exact IH].
Qed.
End LookupFacts.

Lemma post_register_setupKept now username password userId school class s :
  setupKept userId school class s ->
  setupKept userId school class (snd (post_register now username password s)).
Proof.
  intros [Hlt Hk]. unfold post_register.
  destruct (findOne _ (users s)); [split; assumption|].
  destruct (required (Some username)); [|split; assumption].
  store_simpl. split; simpl; [lia|].
  intros u. rewrite findById_create.
  destruct (findById userId (users s)) as [x|].
  - intros [= <-]. now apply Hk.
  - unfold doc_id, User_doc. simpl.
    destruct (nextId s =? userId) eqn:E; [|discriminate].
    apply Nat.eqb_eq in E. lia.
Qed.

Lemma post_setup_setupKept tok schoolId classId userId school class s :
  setupKept userId school class s ->
  setupKept userId school class (snd (post_setup tok schoolId classId s)).
Proof.
  intros [Hlt Hk]. unfold post_setup, with_auth.
  destruct (auth tok s) as [requser|]; [|split; assumption].
  destruct (findById (User._id requser) (users s)) as [user|] eqn:Hu;
    [|split; assumption].
  destruct (User.isSetup user) eqn:Hset; [split; assumption|].
  store_simpl. split; simpl; [assumption|].
  intros u. rewrite findById_save.
  unfold doc_id at 1, User_doc. simpl.
  destruct (userId =? User._id user) eqn:E; [|apply Hk].
  apply Nat.eqb_eq in E. subst userId.
  pose proof (findById_id _ _ Hu) as Hid. unfold doc_id, User_doc in Hid.
  rewrite <- Hid in Hu.
  destruct (Hk user Hu) as (Hs' & _). congruence.
Qed.

Lemma post_rating_setupKept now tok teacherId rating userId school class s :
  setupKept userId school class s ->
  setupKept userId school class (snd (post_rating now tok teacherId rating s)).
Proof.
  intros [Hlt Hk]. unfold post_rating, with_auth.
  destruct (auth tok s) as [requser|]; [|split; assumption].
  destruct (upsertRating now teacherId (User._id requser) rating s)
    as [[r s1]|] eqn:Hup; [|split; assumption].
  destruct (upsertRating_spec _ _ _ _ _ Hup) as (_ & _ & _ & Hus & _ & _ & Hn).
  split; simpl; [lia | now rewrite Hus].
Qed.

Lemma handle_setupKept now req userId school class s :
  wellFormed s -> setupKept userId school class s ->
  setupKept userId school class (snd (handle now req s)).
Proof.
  intros Hwf Hk. destruct req as [tok r]. unfold handle. simpl.
  destruct (wf_users Hwf) as [Hnd _].
  destruct r;
    try apply post_register_setupKept;
    try apply post_setup_setupKept;
    try apply post_rating_setupKept;
    try exact Hk;
    unfold_handlers; unfold newId;
    repeat match goal with
           | |- setupKept _ _ _ (snd (match ?x with _ => _ end)) => destruct x
           | |- setupKept _ _ _ (snd (if ?x then _ else _)) => destruct x
           end;
    store_simpl; try exact Hk; destruct Hk as [Hlt Hk];
    (split; simpl; [lia|]); try exact Hk.
  - intros u Hu. apply Hk. eapply findById_delete; eassumption.
  - intros u. rewrite findById_update by (intros d Hd; exact Hd).
    destruct (userId =? userId0); [|apply Hk].
    destruct (findById userId (users s)) as [x|]; [|discriminate].
    simpl. intros [= <-]. simpl. now apply Hk.
Qed.

Lemma run_setupKept trace userId school class s :
  wellFormed s -> setupKept userId school class s ->
  setupKept userId school class (run trace s).
Proof.
  revert s. induction trace as [|[now req] trace IH]; simpl; intros s Hwf Hk.
  - exact Hk.
  - apply IH; [now apply handle_wellFormed | now apply handle_setupKept].
Qed.

Lemma run_wellFormed trace s : wellFormed s -> wellFormed (run trace s).
Proof.
  revert s. induction trace as [|[now req] trace IH]; simpl; intros s Hwf.
  - exact Hwf.
  - apply IH. now apply handle_wellFormed.
Qed.

(** Once a user is set up, every later [POST /api/setup] of that user is
    refused, whatever requests came in between. *)
Lemma setup_refused_later tok requser s trace now schoolId classId user :
  wellFormed s -> auth tok s = Some requser -> User.isSetup requser = true ->
  auth tok (run trace s) = Some user ->
  handle now (mkRequest tok (POST_setup schoolId classId)) (run trace s) =
  (mkResponse 400 (JError "Setup already completed"), run trace s) /\
  User.school user = User.school requser /\ User.class user = User.class requser.
Proof.
  intros Hwf Hauth Hset Hauth'.
  assert (Hk : setupKept (User._id requser) (User.school requser)
                         (User.class requser) s).
  { pose proof (auth_findById _ _ Hauth) as Hf. split.
    - destruct (wf_users Hwf) as [_ Hb]. rewrite Forall_forall in Hb.
      apply findOne_some in Hf. destruct Hf as [Hin _]. exact (Hb _ Hin).
    - intros u Hu. rewrite Hf in Hu. injection Hu as <-. auto. }
  apply (run_setupKept trace Hwf) in Hk. destruct Hk as [_ Hk].
  assert (Hid : User._id user = User._id requser).
  { unfold auth in *. destruct tok as [[userId|]|]; try discriminate.
    apply findById_id in Hauth, Hauth'. unfold doc_id, User_doc in *. congruence. }
  pose proof (auth_findById _ _ Hauth') as Hf'.
  destruct (Hk user) as (Hs' & Hsch & Hcl); [now rewrite <- Hid|].
  split; [|auto].
  unfold handle. simpl. unfold post_setup, with_auth.
  now rewrite Hauth', Hf', Hs'.
Qed.

(** C4. POST /api/setup succeeds exactly once for a user: the call on a
    user whose isSetup is false sets school, class and isSetup = true;
    every later call of that user answers 400 and leaves the user's
    school and class as they are. *)
Theorem setup_succeeds_once now tok requser schoolId classId s :
  reachable s -> auth tok s = Some requser ->
  let s1 := snd (handle now (mkRequest tok (POST_setup schoolId classId)) s) in
  (User.isSetup requser = false ->
     fst (handle now (mkRequest tok (POST_setup schoolId classId)) s) =
       ok (JMessage "Setup completed successfully") /\
     auth tok s1 =
       Some (User.mk (User._id requser) (User.username requser)
                     (User.password requser) schoolId classId true
                     (User.createdAt requser)) /\
     forall trace now' schoolId' classId' user,
       auth tok (run trace s1) = Some user ->
       handle now' (mkRequest tok (POST_setup schoolId' classId')) (run trace s1) =
         (mkResponse 400 (JError "Setup already completed"), run trace s1) /\
       User.school user = schoolId /\ User.class user = classId) /\
  (User.isSetup requser = true ->
     forall trace now' schoolId' classId' user,
       auth tok (run trace s) = Some user ->
       handle now' (mkRequest tok (POST_setup schoolId' classId')) (run trace s) =
         (mkResponse 400 (JError "Setup already completed"), run trace s) /\
       User.school user = User.school requser /\
       User.class user = User.class requser).
Proof.
  intros Hs Hauth s1. apply reachable_wellFormed in Hs. split.
  - intros Hset.
    assert (Hwf1 : wellFormed s1) by (now apply handle_wellFormed).
    pose proof (auth_findById _ _ Hauth) as Hf.
    assert (Hstep : handle now (mkRequest tok (POST_setup schoolId classId)) s =
                    (ok (JMessage "Setup completed successfully"),
                     set_users (save (User.mk (User._id requser) (User.username requser)
                                              (User.password requser) schoolId classId
                                              true (User.createdAt requser))
                                     (users s)) s)).
    { unfold handle. simpl. unfold post_setup, with_auth.
      now rewrite Hauth, Hf, Hset. }
    assert (Hauth1 : auth tok s1 =
                     Some (User.mk (User._id requser) (User.username requser)
                                   (User.password requser) schoolId classId true
                                   (User.createdAt requser))).
    { subst s1. rewrite Hstep. simpl.
      unfold auth in *. destruct tok as [[userId|]|]; try discriminate.
      cbn [users set_users].
      rewrite findById_save, Hauth.
      pose proof (findById_id _ _ Hauth) as Hid.
      unfold doc_id, User_doc in *. simpl.
      rewrite Hid, Nat.eqb_refl. reflexivity. }
    rewrite Hstep. simpl. split; [reflexivity|]. split; [exact Hauth1|].
    intros trace now' schoolId' classId' user Hlater.
    exact (@setup_refused_later tok _ s1 trace now' schoolId' classId' user
             Hwf1 Hauth1 eq_refl Hlater).
  - intros Hset trace now' schoolId' classId' user Hauth'.
    exact (@setup_refused_later tok requser s trace now' schoolId' classId' user
             Hs Hauth Hset Hauth').
Qed.

(** Alice sets up, posts a review and a rating, and tries to set up again. *)
Lemma setup_succeeds_once_witness :
  let s1 := snd (handle 7 (asUser alice (POST_setup (Some hilltop) (Some class7B)))
                        classroom) in
  let later := run [ (8, asUser alice (POST_review msRao (Some "Fair marking.")));
                     (9, asUser alice (POST_rating msRao (Some 4%Q))) ] s1 in
  fst (handle 7 (asUser alice (POST_setup (Some hilltop) (Some class7B))) classroom) =
    ok (JMessage "Setup completed successfully") /\
  handle 10 (asUser alice (POST_setup None (Some 99))) later =
    (mkResponse 400 (JError "Setup already completed"), later) /\
  option_map User.school (findById alice (users later)) = Some (Some hilltop) /\
  option_map User.class (findById alice (users later)) = Some (Some class7B).
Proof.
  destruct (@setup_succeeds_once 7 (Some (UserToken alice))
              (User.mk alice "alice" (Bcrypt "pw-a") None None false 1)
              (Some hilltop) (Some class7B) classroom classroom_reachable eq_refl)
    as [Hfirst _].
  destruct (Hfirst eq_refl) as (Hok & _ & Hlater).
  split; [exact Hok|].
  split; [|split; reflexivity].
  apply (Hlater [ (8, asUser alice (POST_review msRao (Some "Fair marking.")));
                  (9, asUser alice (POST_rating msRao (Some 4%Q))) ]
                10 None (Some 99)
                (User.mk alice "alice" (Bcrypt "pw-a") (Some hilltop) (Some class7B)
                         true 1)).
  reflexivity.
Defined.

(** ** Moderation policy *)




Lemma Forall_anonymize (l : list Review.t) :
  Forall (fun r => Review.username r = "Anonymous") (map anonymize l).
Proof.
  rewrite Forall_forall. intros r Hr.
  apply in_map_iff in Hr. destruct Hr as (r0 & <- & _). reflexivity.
Qed.

(** C5, as the code has it. With anonymousReviews on, every review that
    GET /api/teachers/:teacherId/reviews lists carries the username
    "Anonymous" and no stored Review changes; GET
    /api/teachers/:teacherId/my-review answers with the caller's review
    as it is stored and POST /api/teachers/:teacherId/reviews with the
    review it has created, both under the author's username. *)
Theorem anonymous_reviews_in_listing now tok requser teacherId s :
  auth tok s = Some requser -> anonymousReviews s = true ->
  (exists l,
      handle now (mkRequest tok (GET_teacher_reviews teacherId)) s =
        (ok (JReviews (map anonymize l)), s) /\
      l = limit 50 (sort_by newestReviewFirst
                      (find (fun r => Review.teacher r =? teacherId) (reviews s))) /\
      Forall (fun r => Review.username r = "Anonymous") (map anonymize l)) /\
  handle now (mkRequest tok (GET_my_review teacherId)) s =
    (ok (JReview (findOne (reviewOf teacherId (User._id requser)) (reviews s))), s) /\
  (forall text resp s' r,
      handle now (mkRequest tok (POST_review teacherId text)) s = (resp, s') ->
      body resp = JReview (Some r) ->
      Review.username r = User.username requser /\ In r (reviews s')).
Proof.
  intros Hauth Hanon. split; [|split].
  - eexists. split; [|split; [reflexivity|apply Forall_anonymize]].
    unfold handle. simpl. unfold get_teacher_reviews, with_auth.
    now rewrite Hauth, Hanon.
  - unfold handle. simpl. unfold get_my_review, with_auth. now rewrite Hauth.
  - intros text resp s' r. unfold handle. simpl. unfold post_review, with_auth.
    rewrite Hauth, (auth_findById _ _ Hauth).
    destruct (findOne _ (reviews s)); [intros [= <- <-]; discriminate|].
    unfold required at 1.
    destruct (String.eqb (User.username requser) ""); [intros [= <- <-]; discriminate|].
    destruct (required text) as [text'|]; [|intros [= <- <-]; discriminate].
    unfold newId. simpl. intros [= <- <-]. simpl. intros [= <-]. simpl.
    split; [reflexivity | apply In_create].
Qed.

Lemma anonymous_reviews_in_listing_witness :
  handle 9 (asUser bob (GET_teacher_reviews msRao)) anonymousOn =
    (ok (JReviews [Review.mk 7 msRao alice "Anonymous" "Explains clearly." 7 7]),
     anonymousOn) /\
  handle 9 (asUser alice (GET_my_review msRao)) anonymousOn =
    (ok (JReview (Some (Review.mk 7 msRao alice "alice" "Explains clearly." 7 7))),
     anonymousOn).
Proof.
  split.
  - destruct (@anonymous_reviews_in_listing 9 (Some (UserToken bob))
                (User.mk bob "bob" (Bcrypt "pw-b") None None false 2) msRao anonymousOn
                eq_refl eq_refl) as ((l & Hl & -> & _) & _).
    exact Hl.
  - destruct (@anonymous_reviews_in_listing 9 (Some (UserToken alice))
                (User.mk alice "alice" (Bcrypt "pw-a") None None false 1) msRao
                anonymousOn eq_refl eq_refl) as (_ & Hmine & _).
    exact Hmine.
Defined.

(** C5 as the specification words it does not hold: with anonymous
    reviews on, the responses of my-review and of the creation of a
    review carry the author's username. *)
Lemma anonymous_reviews_not_everywhere :
  ~ (anonymousReviews anonymousOn = true ->
     Forall (fun r => Review.username r = "Anonymous")
       (response_reviews
          (body (fst (handle 9 (asUser alice (GET_my_review msRao)) anonymousOn))))) /\
  ~ (anonymousReviews anonymousOn = true ->
     Forall (fun r => Review.username r = "Anonymous")
       (response_reviews
          (body (fst (handle 9 (asUser bob (POST_review msRao (Some "Strict but fair.")))
                             anonymousOn))))).
Proof.
  split; intros Hclaim; specialize (Hclaim eq_refl);
    vm_compute in Hclaim; inversion Hclaim as [|? ? Hname _]; discriminate Hname.
Qed.

(** ** Cascading deletes *)

Lemma In_delete_iff {A} `{Document A} i (c : list A) d :
  NoDup (ids c) -> (In d (findByIdAndDelete i c) <-> In d c /\ doc_id d <> i).
Proof.
  unfold ids. induction c as [|x c IH]; simpl; intros Hn; [tauto|].
  inversion Hn as [|? ? Hx Hc]; subst.
  destruct (doc_id x =? i) eqn:E.
  - apply Nat.eqb_eq in E. split.
    + intros Hd. split; [now right|]. intros Hi. apply Hx.
      rewrite E, <- Hi. now apply in_map.
    + intros [[->|Hd] Hne]; [contradiction | assumption].
  - apply Nat.eqb_neq in E. simpl. rewrite (IH Hc). split.
    + intros [->|[Hd Hne]]; auto.
    + intros [[->|Hd] Hne]; auto.
Qed.

Lemma In_deleteMany_iff {A} (p : A -> bool) (c : list A) d :
  In d (deleteMany p c) <-> In d c /\ p d = false.
Proof.
  unfold deleteMany. rewrite filter_In, negb_true_iff. tauto.
Qed.

(** C8. DELETE /api/admin/schools/:schoolId removes the school, every
    Class of that school and every Teacher of that school; the Reviews
    and Ratings of the removed teachers stay stored. *)
Theorem delete_school_cascade now schoolId s :
  reachable s ->
  let (resp, s') := handle now (asAdmin (DELETE_admin_school schoolId)) s in
  resp = ok (JMessage "School deleted successfully") /\
  (forall d, In d (schools s') <-> In d (schools s) /\ School._id d <> schoolId) /\
  (forall c, In c (classes s') <-> In c (classes s) /\ Class.school c <> schoolId) /\
  (forall t, In t (teachers s') <-> In t (teachers s) /\ Teacher.school t <> schoolId) /\
  reviews s' = reviews s /\ ratings s' = ratings s.
Proof.
  intros Hs. apply reachable_wellFormed in Hs.
  unfold handle, asAdmin. simpl. unfold delete_admin_school, with_adminAuth. simpl.
  split; [reflexivity|]. split; [|split; [|split; [|split; reflexivity]]].
  - intros d. destruct (wf_schools Hs) as [Hnd _]. now apply In_delete_iff.
  - intros c. rewrite In_deleteMany_iff, Nat.eqb_neq. tauto.
  - intros t. rewrite In_deleteMany_iff, Nat.eqb_neq. tauto.
Qed.

Lemma reviewedAndRated_reachable : reachable reviewedAndRated.
Proof.
  unfold reviewedAndRated, reviewed. do 2 apply reachable_run.
  exact classroom_reachable.
Qed.

Lemma delete_school_cascade_witness :
  let (resp, s') := handle 9 (asAdmin (DELETE_admin_school hilltop)) reviewedAndRated in
  resp = ok (JMessage "School deleted successfully") /\
  (forall d, In d (schools s') <-> In d (schools reviewedAndRated) /\ School._id d <> hilltop) /\
  (forall c, In c (classes s') <-> In c (classes reviewedAndRated) /\ Class.school c <> hilltop) /\
  (forall t, In t (teachers s') <-> In t (teachers reviewedAndRated) /\ Teacher.school t <> hilltop) /\
  reviews s' = reviews reviewedAndRated /\ ratings s' = ratings reviewedAndRated.
Proof. exact (@delete_school_cascade 9 hilltop reviewedAndRated reviewedAndRated_reachable). Defined.

Example delete_school_leaves_orphans :
  let s' := snd (handle 9 (asAdmin (DELETE_admin_school hilltop)) reviewedAndRated) in
  schools s' = [] /\ classes s' = [] /\ teachers s' = [] /\
  reviews s' = [Review.mk 7 msRao alice "alice" "Explains clearly." 7 7] /\
  ratings s' = [Rating.mk 8 msRao alice 5 8].
Proof. repeat split; reflexivity. Qed.

(** ** Who writes the aggregate *)

Lemma handle_keeps_aggregate now req teacherId t s :
  wellFormed s -> isPostRating (target req) = false ->
  findById teacherId (teachers s) = Some t ->
  aggregateOf teacherId t (snd (handle now req s)).
Proof.
  intros Hwf Hreq Ht. destruct req as [tok r]. unfold handle. simpl in *.
  destruct (wf_teachers Hwf) as [Hnd _].
  assert (Hsame : aggregateOf teacherId t s).
  { intros t' Ht'. rewrite Ht in Ht'. injection Ht' as <-. auto. }
  destruct r; try discriminate Hreq;
    try exact Hsame;
    unfold_handlers; unfold newId;
    repeat match goal with
           | |- aggregateOf _ _ (snd (match ?x with _ => _ end)) => destruct x
           | |- aggregateOf _ _ (snd (if ?x then _ else _)) => destruct x
           end;
    try exact Hsame; intros t'; simpl.
  - intros Ht'. apply Hsame. eapply findById_deleteMany; eassumption.
  - intros Ht'. apply Hsame. eapply findById_deleteMany; eassumption.
  - rewrite findById_create, Ht. intros [= <-]. auto.
  - rewrite findById_update by (intros d Hd; exact Hd).
    rewrite Ht. destruct (teacherId =? teacherId0); simpl; intros [= <-]; auto.
  - intros Ht'. apply Hsame. eapply findById_delete; eassumption.
Qed.

(** C9. The aggregate of a teacher is written by POST
    /api/teachers/:teacherId/ratings alone: no other request changes the
    averageRating or totalRatings of a teacher it leaves stored.  DELETE
    /api/admin/users/:userId removes the user's ratings and DELETE
    /api/admin/schools/:schoolId removes teachers and no rating, neither
    recomputes anything, and so a stored teacher's aggregate can differ
    from the mean and the number of its remaining ratings. *)
Theorem aggregate_written_by_post_rating_only :
  (forall now req teacherId t t' s,
      reachable s -> isPostRating (target req) = false ->
      findById teacherId (teachers s) = Some t ->
      findById teacherId (teachers (snd (handle now req s))) = Some t' ->
      Teacher.averageRating t' = Teacher.averageRating t /\
      Teacher.totalRatings t' = Teacher.totalRatings t) /\
  (forall now userId s,
      let s' := snd (handle now (asAdmin (DELETE_admin_user userId)) s) in
      teachers s' = teachers s /\
      ratings s' = deleteMany (fun r => Rating.user r =? userId) (ratings s)) /\
  (forall now schoolId s,
      let s' := snd (handle now (asAdmin (DELETE_admin_school schoolId)) s) in
      teachers s' = deleteMany (fun t => Teacher.school t =? schoolId) (teachers s) /\
      ratings s' = ratings s) /\
  (exists s t q,
      reachable s /\ findById msRao (teachers s) = Some t /\
      Teacher.averageRating t = Num q /\
      ~ (q == mean (ratingValues msRao s))%Q /\
      Teacher.totalRatings t <> length (ratingValues msRao s)).
Proof.
  split; [|split; [|split]].
  - intros now req teacherId t t' s Hs Hreq Ht Ht'.
    apply reachable_wellFormed in Hs.
    exact (@handle_keeps_aggregate now req teacherId t s Hs Hreq Ht t' Ht').
  - intros now userId s. split; reflexivity.
  - intros now schoolId s. split; reflexivity.
  - exists aliceDeleted.
    exists (Teacher.mk msRao "Ms Rao" "MSc Physics" "https://img.example/rao.png"
                       class7B hilltop (Num 4) 2 6).
    exists 4%Q.
    split; [|split; [|split; [|split]]].
    + unfold aliceDeleted, twoRatings. do 2 apply reachable_run.
      exact classroom_reachable.
    + vm_compute. reflexivity.
    + reflexivity.
    + vm_compute. discriminate.
    + vm_compute. discriminate.
Qed.

Lemma aggregate_written_by_post_rating_only_witness :
  Teacher.averageRating
    (Teacher.mk msRao "Ms Rao" "MSc Physics" "https://img.example/rao.png"
                class7B hilltop (Num 4) 2 6) = Num 4 /\
  ratingValues msRao aliceDeleted = [3%Q] /\
  option_map Teacher.totalRatings (findById msRao (teachers aliceDeleted)) = Some 2.
Proof.
  destruct aggregate_written_by_post_rating_only as (Hframe & _).
  destruct (Hframe 9 (asAdmin (DELETE_admin_user alice)) msRao
              (Teacher.mk msRao "Ms Rao" "MSc Physics" "https://img.example/rao.png"
                          class7B hilltop (Num 4) 2 6)
              (Teacher.mk msRao "Ms Rao" "MSc Physics" "https://img.example/rao.png"
                          class7B hilltop (Num 4) 2 6)
              twoRatings) as (Havg & Htotal).
  - unfold twoRatings. apply reachable_run. exact classroom_reachable.
  - reflexivity.
  - vm_compute. reflexivity.
  - vm_compute. reflexivity.
  - split; [exact Havg|]. split; vm_compute; reflexivity.
Defined.

(** * Further properties of the handlers *)

(** ** Authentication *)

Lemma user_route_rejected now tok r s :
  requiresUser r = true -> auth tok s = None ->
  handle now (mkRequest tok r) s =
  (mkResponse 401 (JError "Please authenticate"), s).
Proof.
  intros Hr Hauth. destruct r; try discriminate Hr;
    unfold handle; simpl; unfold_handlers; now rewrite Hauth.
Qed.

Lemma admin_route_rejected now tok r s :
  requiresAdmin r = true -> adminAuth tok = false ->
  handle now (mkRequest tok r) s =
  (mkResponse 401 (JError "Admin authentication required"), s).
Proof.
  intros Hr Hauth. destruct r; try discriminate Hr;
    unfold handle; simpl; unfold_handlers; now rewrite Hauth.
Qed.

(** X1. A route behind [auth] answers 401 "Please authenticate" and
    writes nothing when the request has no valid token, when the token is
    the administrator's, or when the token's user is not stored. *)
Theorem user_routes_need_a_stored_user now tok r s :
  requiresUser r = true ->
  tok = None \/ tok = Some AdminToken \/
  (exists userId, tok = Some (UserToken userId) /\
                  forall u, In u (users s) -> User._id u <> userId) ->
  handle now (mkRequest tok r) s =
  (mkResponse 401 (JError "Please authenticate"), s).
Proof.
  intros Hr Htok. apply user_route_rejected; [exact Hr|].
  destruct Htok as [->|[->|(userId & -> & Hno)]]; try reflexivity.
  simpl. destruct (findById userId (users s)) as [u|] eqn:Hu; [|reflexivity].
  exfalso. pose proof (findById_id _ _ Hu) as Hid.
  apply findOne_some in Hu. destruct Hu as [Hin _].
  exact (Hno u Hin Hid).
Qed.

Lemma user_routes_need_a_stored_user_witness :
  handle 7 (mkRequest None (POST_rating msRao (Some 5%Q))) classroom =
    (mkResponse 401 (JError "Please authenticate"), classroom) /\
  handle 7 (asAdmin (POST_review msRao (Some "As admin."))) classroom =
    (mkResponse 401 (JError "Please authenticate"), classroom) /\
  handle 7 (asUser 99 GET_teachers) classroom =
    (mkResponse 401 (JError "Please authenticate"), classroom).
Proof.
  split; [|split].
  - apply user_routes_need_a_stored_user; [reflexivity | left; reflexivity].
  - apply user_routes_need_a_stored_user; [reflexivity | right; left; reflexivity].
  - apply user_routes_need_a_stored_user; [reflexivity|].
    right; right. exists 99. split; [reflexivity|].
    intros u Hu. simpl in Hu.
    destruct Hu as [<-|[<-|[<-|[]]]]; discriminate.
Defined.

(** X2. A route behind [adminAuth] answers 401 "Admin authentication
    required" and writes nothing unless the token is the administrator's:
    no user token, whoever the user, opens an admin route. *)
Theorem admin_routes_need_the_admin_token now tok r s :
  requiresAdmin r = true -> tok <> Some AdminToken ->
  handle now (mkRequest tok r) s =
  (mkResponse 401 (JError "Admin authentication required"), s).
Proof.
  intros Hr Htok. apply admin_route_rejected; [exact Hr|].
  destruct tok as [[userId|]|]; try reflexivity. now elim Htok.
Qed.

Lemma admin_routes_need_the_admin_token_witness :
  handle 7 (asUser alice (DELETE_admin_user bob)) classroom =
    (mkResponse 401 (JError "Admin authentication required"), classroom) /\
  handle 7 (mkRequest None (PUT_admin_config (Some true) None)) classroom =
    (mkResponse 401 (JError "Admin authentication required"), classroom).
Proof.
  split; apply admin_routes_need_the_admin_token;
    try reflexivity; discriminate.
Defined.

(** ** Requests that write nothing *)

(** X3. The sixteen routes whose handlers only read (every GET, both
    logins and the image upload) leave the store exactly as it was,
    whatever the token and the outcome. *)
Theorem read_routes_write_nothing now req s :
  isRead (target req) = true -> snd (handle now req s) = s.
Proof.
  destruct req as [tok r]. simpl. intros Hr.
  destruct r; try discriminate Hr; unfold handle; simpl; unfold_handlers;
    repeat match goal with
           | |- snd (match ?x with _ => _ end) = _ => destruct x
           | |- snd (if ?x then _ else _) = _ => destruct x
           end; reflexivity.
Qed.

Lemma read_routes_write_nothing_witness :
  snd (handle 9 (asUser alice (GET_teacher_reviews msRao)) anonymousOn) = anonymousOn /\
  snd (handle 9 (mkRequest None (POST_login "alice" "wrong")) anonymousOn) = anonymousOn.
Proof.
  split; apply read_routes_write_nothing; reflexivity.
Defined.

(** X4. A request that is not answered with status 200 has written
    nothing: on every route, an error response comes with the store
    unchanged. *)
Theorem failed_requests_write_nothing now req s :
  status (fst (handle now req s)) <> 200 -> snd (handle now req s) = s.
Proof.
  destruct req as [tok r]. unfold handle. simpl.
  destruct r; unfold_handlers; unfold upsertRating, newId;
    repeat match goal with
           | |- context [match ?x with _ => _ end] =>
               lazymatch x with
               | context [match _ with _ => _ end] => fail
               | _ => destruct x
               end
           end; simpl; intros Hst; try reflexivity; now elim Hst.
Qed.

Lemma failed_requests_write_nothing_witness :
  snd (handle 8 (asUser alice (POST_review msRao (Some "Again."))) reviewed) = reviewed /\
  snd (handle 8 (asUser alice (POST_rating msRao (Some 6%Q))) reviewed) = reviewed.
Proof.
  split; apply failed_requests_write_nothing; discriminate.
Defined.

(** ** Deleting documents *)

Section DeleteFacts.
Context {A : Type} `{Document A}.

Lemma findById_deleted i (c : list A) :
  NoDup (ids c) -> findById i (findByIdAndDelete i c) = None.
Proof.
  intros Hn. destruct (findById i (findByIdAndDelete i c)) as [d|] eqn:Hd;
    [|reflexivity].
  exfalso. pose proof (findById_id _ _ Hd) as Hid.
  apply findOne_some in Hd. destruct Hd as [Hin _].
  apply (In_delete_iff i c d Hn) in Hin. tauto.
Qed.

Lemma findById_delete_other i j (c : list A) :
  j <> i -> findById j (findByIdAndDelete i c) = findById j c.
Proof.
  intros Hne. unfold findById, findOne. induction c as [|x c IH]; simpl.
  - reflexivity.
  - destruct (doc_id x =? i) eqn:Ei.
    + apply Nat.eqb_eq in Ei.
      destruct (doc_id x =? j) eqn:Ej; [|reflexivity].
      apply Nat.eqb_eq in Ej. congruence.
    + simpl. destruct (doc_id x =? j); [reflexivity | exact IH].
Qed.
End DeleteFacts.

(** X5. Once an administrator has deleted a user, that user's token
    opens no route behind [auth] any more, whatever requests follow: the
    identifier is never handed out again. *)
Theorem deleted_user_is_locked_out now userId u s trace now' r :
  reachable s -> findById userId (users s) = Some u ->
  requiresUser r = true ->
  let s' := run trace (snd (handle now (asAdmin (DELETE_admin_user userId)) s)) in
  handle now' (asUser userId r) s' =
  (mkResponse 401 (JError "Please authenticate"), s').
Proof.
  intros Hs Hu Hr s'. apply user_route_rejected; [exact Hr|]. simpl.
  apply reachable_wellFormed in Hs.
  assert (Hwf1 : wellFormed (snd (handle now (asAdmin (DELETE_admin_user userId)) s)))
    by now apply handle_wellFormed.
  assert (Hgone : forall school,
             setupKept userId school None
               (snd (handle now (asAdmin (DELETE_admin_user userId)) s))).
  { intros school. split.
    - simpl. destruct (wf_users Hs) as [_ Hb]. rewrite Forall_forall in Hb.
      pose proof (findById_id _ _ Hu) as Hid.
      apply findOne_some in Hu. destruct Hu as [Hin _].
      specialize (Hb _ Hin). unfold doc_id, User_doc in *. simpl in *. lia.
    - simpl. rewrite findById_deleted; [discriminate|].
      now destruct (wf_users Hs). }
  destruct (findById userId (users s')) as [u'|] eqn:Hu'; [|reflexivity].
  exfalso.
  destruct (run_setupKept trace Hwf1 (Hgone (Some 0))) as [_ H0].
  destruct (run_setupKept trace Hwf1 (Hgone (Some 1))) as [_ H1].
  destruct (H0 u' Hu') as (_ & Ha & _). destruct (H1 u' Hu') as (_ & Hb & _).
  congruence.
Qed.

Lemma deleted_user_is_locked_out_witness :
  let s' := run [ (10, mkRequest None (POST_register "dave" "pw-d")) ]
                (snd (handle 9 (asAdmin (DELETE_admin_user alice)) reviewedAndRated)) in
  handle 11 (asUser alice (GET_my_review msRao)) s' =
  (mkResponse 401 (JError "Please authenticate"), s').
Proof.
  apply (@deleted_user_is_locked_out 9 alice
           (User.mk alice "alice" (Bcrypt "pw-a") None None false 1)
           reviewedAndRated
           [ (10, mkRequest None (POST_register "dave" "pw-d")) ] 11
           (GET_my_review msRao)).
  - exact reviewedAndRated_reachable.
  - reflexivity.
  - reflexivity.
Defined.

(** X6. DELETE /api/admin/teachers/:teacherId removes the teacher and
    every Review and Rating of that teacher, and nothing else: the other
    teachers, reviews and ratings stay, and so do all users, schools,
    classes and discussions. *)
Theorem delete_teacher_cascade now teacherId s :
  reachable s ->
  let (resp, s') := handle now (asAdmin (DELETE_admin_teacher teacherId)) s in
  resp = ok (JMessage "Teacher deleted successfully") /\
  (forall t, In t (teachers s') <-> In t (teachers s) /\ Teacher._id t <> teacherId) /\
  (forall r, In r (reviews s') <-> In r (reviews s) /\ Review.teacher r <> teacherId) /\
  (forall r, In r (ratings s') <-> In r (ratings s) /\ Rating.teacher r <> teacherId) /\
  ratingValues teacherId s' = [] /\
  users s' = users s /\ schools s' = schools s /\ classes s' = classes s /\
  discussions s' = discussions s.
Proof.
  intros Hs. apply reachable_wellFormed in Hs.
  unfold handle, asAdmin. simpl. unfold delete_admin_teacher, with_adminAuth. simpl.
  split; [reflexivity|].
  split; [|split; [|split; [|split; [|repeat split]]]].
  - intros t. destruct (wf_teachers Hs) as [Hnd _]. now apply In_delete_iff.
  - intros r. rewrite In_deleteMany_iff, Nat.eqb_neq. tauto.
  - intros r. rewrite In_deleteMany_iff, Nat.eqb_neq. tauto.
  - unfold ratingValues, find, deleteMany. simpl.
    induction (ratings s) as [|x l IH]; simpl; [reflexivity|].
    destruct (Rating.teacher x =? teacherId) eqn:E; simpl; [exact IH|].
    rewrite E. exact IH.
Qed.

Lemma delete_teacher_cascade_witness :
  let (resp, s') := handle 9 (asAdmin (DELETE_admin_teacher msRao)) reviewedAndRated in
  resp = ok (JMessage "Teacher deleted successfully") /\
  (forall t, In t (teachers s') <->
             In t (teachers reviewedAndRated) /\ Teacher._id t <> msRao) /\
  (forall r, In r (reviews s') <->
             In r (reviews reviewedAndRated) /\ Review.teacher r <> msRao) /\
  (forall r, In r (ratings s') <->
             In r (ratings reviewedAndRated) /\ Rating.teacher r <> msRao) /\
  ratingValues msRao s' = [] /\
  users s' = users reviewedAndRated /\ schools s' = schools reviewedAndRated /\
  classes s' = classes reviewedAndRated /\
  discussions s' = discussions reviewedAndRated.
Proof.
  exact (@delete_teacher_cascade 9 msRao reviewedAndRated reviewedAndRated_reachable).
Defined.

(** X7. DELETE /api/admin/classes/:classId removes the class and every
    Teacher of that class; the Reviews and Ratings of the removed
    teachers stay stored, as do the schools and the users who joined the
    class. *)
Theorem delete_class_cascade now classId s :
  reachable s ->
  let (resp, s') := handle now (asAdmin (DELETE_admin_class classId)) s in
  resp = ok (JMessage "Class deleted successfully") /\
  (forall c, In c (classes s') <-> In c (classes s) /\ Class._id c <> classId) /\
  (forall t, In t (teachers s') <-> In t (teachers s) /\ Teacher.class t <> classId) /\
  reviews s' = reviews s /\ ratings s' = ratings s /\
  schools s' = schools s /\ users s' = users s.
Proof.
  intros Hs. apply reachable_wellFormed in Hs.
  unfold handle, asAdmin. simpl. unfold delete_admin_class, with_adminAuth. simpl.
  split; [reflexivity|]. split; [|split; [|repeat split]].
  - intros c. destruct (wf_classes Hs) as [Hnd _]. now apply In_delete_iff.
  - intros t. rewrite In_deleteMany_iff, Nat.eqb_neq. tauto.
Qed.

Lemma delete_class_cascade_witness :
  let (resp, s') := handle 9 (asAdmin (DELETE_admin_class class7B)) reviewedAndRated in
  resp = ok (JMessage "Class deleted successfully") /\
  (forall c, In c (classes s') <->
             In c (classes reviewedAndRated) /\ Class._id c <> class7B) /\
  (forall t, In t (teachers s') <->
             In t (teachers reviewedAndRated) /\ Teacher.class t <> class7B) /\
  reviews s' = reviews reviewedAndRated /\ ratings s' = ratings reviewedAndRated /\
  schools s' = schools reviewedAndRated /\ users s' = users reviewedAndRated.
Proof.
  exact (@delete_class_cascade 9 class7B reviewedAndRated reviewedAndRated_reachable).
Defined.

(** ** Usernames *)

Section MapFacts.
Context {A B : Type} `{Document A} (f : A -> B).

Lemma map_update (g : A -> A) i (c : list A) :
  (forall d, f (g d) = f d) -> map f (findByIdAndUpdate i g c) = map f c.
Proof.
  intros Hg. induction c as [|x c IH]; simpl; [reflexivity|].
  destruct (doc_id x =? i); simpl; [now rewrite Hg | now rewrite IH].
Qed.

Lemma map_save d d' (c : list A) :
  findById (doc_id d') c = Some d -> f d' = f d -> map f (save d' c) = map f c.
Proof.
  unfold save, findById, findOne. intros Hd Hf.
  induction c as [|x c IH]; simpl in *; [discriminate|].
  destruct (doc_id x =? doc_id d'); simpl.
  - injection Hd as ->. now rewrite Hf.
  - now rewrite IH.
Qed.

Lemma NoDup_map_delete i (c : list A) :
  NoDup (map f c) -> NoDup (map f (findByIdAndDelete i c)).
Proof.
  induction c as [|x c IH]; simpl; intros Hn; [constructor|].
  inversion Hn as [|? ? Hx Hc]; subst.
  destruct (doc_id x =? i); simpl; [assumption|].
  constructor; [|auto].
  intros Hin. apply Hx. apply in_map_iff in Hin. destruct Hin as (y & Hy & Hiny).
  apply in_map_iff. exists y. split; [assumption|]. eapply In_delete; eassumption.
Qed.

Lemma NoDup_map_create d (c : list A) :
  NoDup (map f c) -> ~ In (f d) (map f c) -> NoDup (map f (create d c)).
Proof.
  intros Hn Hd. unfold create. rewrite map_app. simpl.
  apply NoDup_app; [assumption | repeat constructor; simpl; tauto |].
  intros b Hb [<-|[]]. now apply Hd.
Qed.

Lemma findOne_create_new (p : A -> bool) d (c : list A) :
  findOne p c = None -> p d = true -> findOne p (create d c) = Some d.
Proof.
  unfold findOne, create. intros Hn Hp. induction c as [|x c IH]; simpl in *.
  - now rewrite Hp.
  - destruct (p x); [discriminate | auto].
Qed.
End MapFacts.

Lemma required_some v w : required (Some v) = Some w -> w = v /\ v <> "".
Proof.
  unfold required. destruct (String.eqb v "") eqn:E; [discriminate|].
  intros [= <-]. split; [reflexivity|]. now apply String.eqb_neq.
Qed.

Lemma username_not_taken username (c : list User.t) :
  findOne (fun u => String.eqb (User.username u) username) c = None ->
  ~ In username (map User.username c).
Proof.
  intros Hn Hin. apply in_map_iff in Hin. destruct Hin as (u & Hu & Hin).
  apply (findOne_none _ _ u Hn) in Hin. simpl in Hin.
  rewrite Hu, String.eqb_refl in Hin. discriminate.
Qed.

Lemma post_register_usernamesUnique now username password s :
  usernamesUnique s ->
  usernamesUnique (snd (post_register now username password s)).
Proof.
  intros Hu. unfold post_register.
  destruct (findOne _ (users s)) eqn:Hex; [exact Hu|].
  destruct (required (Some username)) as [w|] eqn:Hw; [|exact Hu].
  apply required_some in Hw. destruct Hw as [-> _].
  unfold usernamesUnique, newId. simpl.
  apply NoDup_map_create; [exact Hu|]. simpl. now apply username_not_taken.
Qed.

Lemma post_setup_usernames tok schoolId classId s :
  map User.username (users (snd (post_setup tok schoolId classId s))) =
  map User.username (users s).
Proof.
  unfold post_setup, with_auth.
  destruct (auth tok s) as [requser|]; [|reflexivity].
  destruct (findById (User._id requser) (users s)) as [user|] eqn:Hu; [|reflexivity].
  destruct (User.isSetup user); [reflexivity|]. simpl.
  apply map_save with (d := user); [|reflexivity].
  exact (findById_again _ _ Hu).
Qed.

Lemma handle_usernamesUnique now req s :
  usernamesUnique s -> usernamesUnique (snd (handle now req s)).
Proof.
  intros Hu. destruct req as [tok r]. unfold handle. simpl.
  destruct r;
    try apply post_register_usernamesUnique;
    try exact Hu;
    try (unfold usernamesUnique; rewrite post_setup_usernames; exact Hu);
    unfold_handlers; unfold newId;
    repeat match goal with
           | |- usernamesUnique (snd (match ?x with _ => _ end)) =>
               let E := fresh "E" in destruct x eqn:E
           | |- usernamesUnique (snd (if ?x then _ else _)) => destruct x
           end;
    try exact Hu; unfold usernamesUnique; simpl.
  - destruct p as [r0 s1].
    destruct (upsertRating_spec _ _ _ _ _ E0) as (_ & _ & _ & Hus & _).
    simpl. now rewrite Hus.
  - now apply NoDup_map_delete.
  - rewrite map_update; [exact Hu | reflexivity].
Qed.

Lemma reachable_usernamesUnique s : reachable s -> usernamesUnique s.
Proof.
  induction 1 as [|s now req _ IH].
  - constructor.
  - now apply handle_usernamesUnique.
Qed.

Section UniqueKeyFacts.
Context {A B : Type} `{Document A} (f : A -> B).

Lemma NoDup_map_inj (c : list A) a b :
  NoDup (map f c) -> In a c -> In b c -> f a = f b -> a = b.
Proof.
  induction c as [|x c IH]; simpl; intros Hn Ha Hb He; [tauto|].
  inversion Hn as [|? ? Hx Hc]; subst.
  destruct Ha as [Ha|Ha], Hb as [Hb|Hb]; subst; auto.
  - exfalso. apply Hx. rewrite He. now apply in_map.
  - exfalso. apply Hx. rewrite <- He. now apply in_map.
Qed.

Lemma findOne_exists (p : A -> bool) (c : list A) d :
  In d c -> p d = true -> exists d', findOne p c = Some d'.
Proof.
  intros Hin Hp. destruct (findOne p c) as [d'|] eqn:Hf; [now exists d'|].
  apply (findOne_none _ _ d Hf) in Hin. congruence.
Qed.

(** A query on a field that an update leaves alone finds the same
    document, updated if it is the one the update was for. *)
Lemma findOne_update (p : A -> bool) (g : A -> A) i (c : list A) d :
  NoDup (ids c) -> (forall x, p (g x) = p x) -> (forall x, doc_id (g x) = doc_id x) ->
  findOne p c = Some d ->
  findOne p (findByIdAndUpdate i g c) = Some (if doc_id d =? i then g d else d).
Proof.
  unfold findOne, ids. intros Hn Hp Hid.
  induction c as [|x c IH]; simpl; intros Hd; [discriminate|].
  inversion Hn as [|? ? Hx Hc]; subst.
  destruct (p x) eqn:Hpx.
  - injection Hd as <-. destruct (doc_id x =? i); simpl.
    + now rewrite Hp, Hpx.
    + now rewrite Hpx.
  - destruct (doc_id x =? i) eqn:Exi; simpl.
    + rewrite Hp, Hpx, Hd. f_equal.
      destruct (doc_id d =? i) eqn:Edi; [|reflexivity].
      exfalso. apply Hx. apply Nat.eqb_eq in Exi, Edi.
      apply find_some in Hd. destruct Hd as [Hin _].
      rewrite Exi, <- Edi. now apply in_map.
    + rewrite Hpx. now apply IH.
Qed.
End UniqueKeyFacts.

Lemma findOne_username (c : list User.t) u :
  NoDup (map User.username c) -> In u c ->
  findOne (fun x => String.eqb (User.username x) (User.username u)) c = Some u.
Proof.
  intros Hn Hin.
  destruct (findOne_exists (fun x => String.eqb (User.username x) (User.username u))
              c u Hin (String.eqb_refl _)) as (u' & Hu').
  rewrite Hu'. f_equal.
  apply findOne_some in Hu'. destruct Hu' as [Hin' Hp]. simpl in Hp.
  apply String.eqb_eq in Hp.
  exact (NoDup_map_inj User.username c u' u Hn Hin' Hin Hp).
Qed.

(** X8. Usernames are unique: in every store the server reaches no two
    users share a username, and POST /api/register with the username of
    a stored user answers 400 "Username already exists" and stores
    nothing. *)
Theorem usernames_are_unique s :
  reachable s ->
  NoDup (map User.username (users s)) /\
  (forall now tok password u,
      In u (users s) ->
      handle now (mkRequest tok (POST_register (User.username u) password)) s =
      (mkResponse 400 (JError "Username already exists"), s)).
Proof.
  intros Hs. apply reachable_usernamesUnique in Hs. split; [exact Hs|].
  intros now tok password u Hin. unfold handle. simpl. unfold post_register.
  now rewrite (findOne_username (users s) u Hs Hin).
Qed.

Lemma usernames_are_unique_witness :
  NoDup (map User.username (users classroom)) /\
  handle 7 (mkRequest None (POST_register "bob" "another")) classroom =
  (mkResponse 400 (JError "Username already exists"), classroom).
Proof.
  destruct (@usernames_are_unique classroom classroom_reachable) as [Hnd Hdup].
  split; [exact Hnd|].
  apply (Hdup 7 None "another" (User.mk bob "bob" (Bcrypt "pw-b") None None false 2)).
  simpl. right. left. reflexivity.
Defined.

(** What POST /api/login answers for a stored username. *)
Lemma post_login_found username p u s :
  findOne (fun x => String.eqb (User.username x) username) (users s) = Some u ->
  post_login username p s =
  if bcrypt_compare p (User.password u)
  then (ok (JLoggedIn (UserToken (User._id u)) (User._id u) (User.username u)
                      (User.isSetup u) (User.school u) (User.class u)), s)
  else (mkResponse 401 (JError "Invalid credentials"), s).
Proof. intros Hfind. unfold post_login. now rewrite Hfind. Qed.

(** X9. Registration and login round trip: after a successful POST
    /api/register, the token it returned authenticates the new user, and
    POST /api/login with the same username and password answers 200 with
    a token for the same user.  bcrypt hashes the first 72 bytes of the
    password followed by a NUL byte and repeated, so login answers 200
    for every password with the key of the registered one, and 401
    "Invalid credentials" for every password with another key: such is
    every other password when neither has more than 71 bytes nor a NUL
    byte. *)
Theorem register_then_login now tok username password s resp s' :
  reachable s ->
  handle now (mkRequest tok (POST_register username password)) s = (resp, s') ->
  status resp = 200 ->
  exists i,
    resp = ok (JRegistered (UserToken i) i username false) /\
    auth (Some (UserToken i)) s' =
      Some (User.mk i username (bcrypt_hash password) None None false now) /\
    (forall now' tok',
        handle now' (mkRequest tok' (POST_login username password)) s' =
        (ok (JLoggedIn (UserToken i) i username false None None), s')) /\
    (forall now' tok' p,
        bcryptKey p = bcryptKey password ->
        handle now' (mkRequest tok' (POST_login username p)) s' =
        (ok (JLoggedIn (UserToken i) i username false None None), s')) /\
    (forall now' tok' p,
        bcryptKey p <> bcryptKey password ->
        handle now' (mkRequest tok' (POST_login username p)) s' =
        (mkResponse 401 (JError "Invalid credentials"), s')) /\
    (forall now' tok' p,
        fitsBcrypt p = true -> fitsBcrypt password = true -> p <> password ->
        handle now' (mkRequest tok' (POST_login username p)) s' =
        (mkResponse 401 (JError "Invalid credentials"), s')).
Proof.
  intros Hs. apply reachable_wellFormed in Hs.
  unfold handle. simpl. unfold post_register.
  destruct (findOne _ (users s)) eqn:Hex; [intros [= <- <-]; discriminate|].
  destruct (required (Some username)) as [w|] eqn:Hw; [|intros [= <- <-]; discriminate].
  apply required_some in Hw. destruct Hw as [-> _].
  unfold newId. simpl. intros [= <- <-] _. exists (nextId s).
  set (user := User.mk (nextId s) username (bcrypt_hash password) None None false now).
  set (s' := set_users (create user (users s)) _).
  assert (Hfind : findOne (fun u => String.eqb (User.username u) username)
                          (users s') = Some user).
  { apply findOne_create_new; [exact Hex|]. simpl. apply String.eqb_refl. }
  assert (Hlogin : forall p,
             post_login username p s' =
             if bcrypt_compare p (bcrypt_hash password)
             then (ok (JLoggedIn (UserToken (nextId s)) (nextId s) username false
                                 None None), s')
             else (mkResponse 401 (JError "Invalid credentials"), s')).
  { intros p. exact (@post_login_found username p user s' Hfind). }
  split; [reflexivity|]. split; [|split; [|split; [|split]]].
  - simpl. rewrite findById_create.
    destruct (findById (nextId s) (users s)) as [u|] eqn:Hu.
    + exfalso. destruct (wf_users Hs) as [_ Hb]. rewrite Forall_forall in Hb.
      pose proof (findById_id _ _ Hu) as Hid.
      apply findOne_some in Hu. destruct Hu as [Hin _].
      specialize (Hb _ Hin). lia.
    + unfold doc_id, User_doc. simpl. now rewrite Nat.eqb_refl.
  - intros now' tok'. rewrite Hlogin. now rewrite bcrypt_compare_same.
  - intros now' tok' p Hp. rewrite Hlogin.
    now rewrite (proj2 (bcrypt_compare_key p password) Hp).
  - intros now' tok' p Hp. rewrite Hlogin. now rewrite (@bcrypt_compare_other p _ Hp).
  - intros now' tok' p Fp Fq Hp. rewrite Hlogin.
    now rewrite (@bcrypt_compare_distinct p _ Fp Fq Hp).
Qed.

(** Dave registers with "pw-d": that password logs in, "pw-D" does not,
    and neither does a password that differs beyond the 71st byte only
    when the registered one is shorter. *)
Lemma register_then_login_witness :
  exists i,
    fst (handle 7 (mkRequest None (POST_register "dave" "pw-d")) classroom) =
      ok (JRegistered (UserToken i) i "dave" false) /\
    handle 8 (mkRequest None (POST_login "dave" "pw-d"))
           (snd (handle 7 (mkRequest None (POST_register "dave" "pw-d")) classroom)) =
      (ok (JLoggedIn (UserToken i) i "dave" false None None),
       snd (handle 7 (mkRequest None (POST_register "dave" "pw-d")) classroom)) /\
    handle 8 (mkRequest None (POST_login "dave" "pw-D"))
           (snd (handle 7 (mkRequest None (POST_register "dave" "pw-d")) classroom)) =
      (mkResponse 401 (JError "Invalid credentials"),
       snd (handle 7 (mkRequest None (POST_register "dave" "pw-d")) classroom)).
Proof.
  destruct (@register_then_login 7 None "dave" "pw-d" classroom
              (fst (handle 7 (mkRequest None (POST_register "dave" "pw-d")) classroom))
              (snd (handle 7 (mkRequest None (POST_register "dave" "pw-d")) classroom))
              classroom_reachable eq_refl eq_refl)
    as (i & Hresp & _ & Hlogin & _ & _ & Hother).
  exists i. split; [exact Hresp|]. split; [exact (Hlogin 8 None)|].
  apply (Hother 8 None "pw-D"); [reflexivity | reflexivity | discriminate].
Defined.

(** bcrypt reads 72 bytes of the password, its NUL byte and the password
    again: a user registered with "pw" is logged in with the password
    made of "pw", a NUL byte and "pw". *)
Example login_with_a_repeated_password :
  let s := snd (handle 7 (mkRequest None (POST_register "dave" "pw")) classroom) in
  fst (handle 8 (mkRequest None
                   (POST_login "dave" (String.append "pw" (String Ascii.zero "pw")))) s)
  = ok (JLoggedIn (UserToken 7) 7 "dave" false None None).
Proof. vm_compute. reflexivity. Qed.

(** X10. After POST /api/admin/users/:userId/reset-password on a stored
    user, POST /api/login with the user's username and the new password
    answers 200 with a token for that user, as it does with every
    password that has the key bcrypt derives from the new one; a password
    with another key answers 401, and such is every other password when
    neither has more than 71 bytes nor a NUL byte.  Nothing of the user
    but the password has changed. *)
Theorem reset_password_then_login now userId newPassword u s :
  reachable s -> findById userId (users s) = Some u ->
  let s' := snd (handle now (asAdmin (POST_admin_reset_password userId newPassword)) s) in
  findById userId (users s') = Some (setPassword (bcrypt_hash newPassword) u) /\
  (forall now' tok',
      handle now' (mkRequest tok' (POST_login (User.username u) newPassword)) s' =
      (ok (JLoggedIn (UserToken userId) userId (User.username u) (User.isSetup u)
                     (User.school u) (User.class u)), s')) /\
  (forall now' tok' p,
      bcryptKey p = bcryptKey newPassword ->
      handle now' (mkRequest tok' (POST_login (User.username u) p)) s' =
      (ok (JLoggedIn (UserToken userId) userId (User.username u) (User.isSetup u)
                     (User.school u) (User.class u)), s')) /\
  (forall now' tok' p,
      bcryptKey p <> bcryptKey newPassword ->
      handle now' (mkRequest tok' (POST_login (User.username u) p)) s' =
      (mkResponse 401 (JError "Invalid credentials"), s')) /\
  (forall now' tok' p,
      fitsBcrypt p = true -> fitsBcrypt newPassword = true -> p <> newPassword ->
      handle now' (mkRequest tok' (POST_login (User.username u) p)) s' =
      (mkResponse 401 (JError "Invalid credentials"), s')).
Proof.
  intros Hs Hu s'.
  pose proof (reachable_usernamesUnique Hs) as Hnames.
  apply reachable_wellFormed in Hs. destruct (wf_users Hs) as [Hnd _].
  pose proof (findById_id _ _ Hu) as Hid. unfold doc_id, User_doc in Hid.
  assert (Hin : In u (users s)) by (apply findOne_some in Hu; tauto).
  assert (Hfind : findOne (fun x => String.eqb (User.username x) (User.username u))
                          (users s') = Some (setPassword (bcrypt_hash newPassword) u)).
  { subst s'. unfold handle, asAdmin. simpl.
    unfold post_admin_reset_password, with_adminAuth. simpl.
    rewrite (@findOne_update User.t _
               (fun x => String.eqb (User.username x) (User.username u))
               (setPassword (bcrypt_hash newPassword)) userId (users s) u Hnd);
      try reflexivity.
    - unfold doc_id, User_doc. now rewrite Hid, Nat.eqb_refl.
    - now apply findOne_username. }
  assert (Hlogin : forall p,
             post_login (User.username u) p s' =
             if bcrypt_compare p (bcrypt_hash newPassword)
             then (ok (JLoggedIn (UserToken userId) userId (User.username u)
                                 (User.isSetup u) (User.school u) (User.class u)), s')
             else (mkResponse 401 (JError "Invalid credentials"), s')).
  { intros p. rewrite (@post_login_found (User.username u) p _ s' Hfind).
    simpl. now rewrite Hid. }
  split; [|split; [|split; [|split]]].
  - subst s'. unfold handle, asAdmin. simpl.
    unfold post_admin_reset_password, with_adminAuth. simpl.
    rewrite findById_update by (intros d Hd; exact Hd).
    now rewrite Nat.eqb_refl, Hu.
  - intros now' tok'. unfold handle. simpl. rewrite Hlogin.
    now rewrite bcrypt_compare_same.
  - intros now' tok' p Hp. unfold handle. simpl. rewrite Hlogin.
    now rewrite (proj2 (bcrypt_compare_key p newPassword) Hp).
  - intros now' tok' p Hp. unfold handle. simpl. rewrite Hlogin.
    now rewrite (@bcrypt_compare_other p _ Hp).
  - intros now' tok' p Fp Fq Hp. unfold handle. simpl. rewrite Hlogin.
    now rewrite (@bcrypt_compare_distinct p _ Fp Fq Hp).
Qed.

Lemma reset_password_then_login_witness :
  let s' := snd (handle 7 (asAdmin (POST_admin_reset_password bob "fresh")) classroom) in
  handle 8 (mkRequest None (POST_login "bob" "fresh")) s' =
    (ok (JLoggedIn (UserToken bob) bob "bob" false None None), s') /\
  handle 8 (mkRequest None (POST_login "bob" "pw-b")) s' =
    (mkResponse 401 (JError "Invalid credentials"), s').
Proof.
  destruct (@reset_password_then_login 7 bob "fresh"
              (User.mk bob "bob" (Bcrypt "pw-b") None None false 2) classroom
              classroom_reachable eq_refl) as (_ & Hnew & _ & _ & Hold).
  split; [exact (Hnew 8 None)|].
  apply (Hold 8 None "pw-b"); [reflexivity | reflexivity | discriminate].
Defined.

(** ** References to users *)

Lemma usersKept_same s s' : users s' = users s -> usersKept s s'.
Proof. intros He i u Hu. exists u. now rewrite He. Qed.

Lemma userRefsValid_step s s' :
  userRefsValid s -> usersKept s s' ->
  (forall r, In r (reviews s') ->
     (exists r0, In r0 (reviews s) /\ Review.user r = Review.user r0 /\
                 Review.username r = Review.username r0) \/
     (exists u, findById (Review.user r) (users s') = Some u /\
                Review.username r = User.username u)) ->
  (forall r, In r (ratings s') ->
     (exists r0, In r0 (ratings s) /\ Rating.user r = Rating.user r0) \/
     (exists u, findById (Rating.user r) (users s') = Some u)) ->
  (forall d, In d (discussions s') ->
     (exists d0, In d0 (discussions s) /\ Discussion.user d = Discussion.user d0 /\
                 Discussion.username d = Discussion.username d0) \/
     (exists u, findById (Discussion.user d) (users s') = Some u /\
                Discussion.username d = User.username u)) ->
  userRefsValid s'.
Proof.
  intros (Hrev & Hrat & Hdis) Hk Hrev' Hrat' Hdis'. split; [|split].
  - intros r Hr. destruct (Hrev' r Hr) as [(r0 & Hin & Hu & Hn)|Hnew]; [|exact Hnew].
    destruct (Hrev r0 Hin) as (u & Hfu & Hnu).
    destruct (Hk _ _ Hfu) as (u' & Hfu' & Hnu').
    exists u'. rewrite Hu. split; [exact Hfu' | congruence].
  - intros r Hr. destruct (Hrat' r Hr) as [(r0 & Hin & Hu)|Hnew]; [|exact Hnew].
    destruct (Hrat r0 Hin) as (u & Hfu).
    destruct (Hk _ _ Hfu) as (u' & Hfu' & _).
    exists u'. now rewrite Hu.
  - intros d Hd. destruct (Hdis' d Hd) as [(d0 & Hin & Hu & Hn)|Hnew]; [|exact Hnew].
    destruct (Hdis d0 Hin) as (u & Hfu & Hnu).
    destruct (Hk _ _ Hfu) as (u' & Hfu' & Hnu').
    exists u'. rewrite Hu. split; [exact Hfu' | congruence].
Qed.

(** The documents of [c'] are documents of [c]. *)
Ltac old_document :=
  let x := fresh "x" in
  let Hx := fresh "Hx" in
  intros x Hx; left; exists x;
  first [ split; [exact Hx | auto]
        | split; [eapply In_delete; exact Hx | auto]
        | split; [apply In_deleteMany_iff in Hx; apply Hx | auto] ].

Lemma In_create_inv {A} (c : list A) d x : In x (create d c) -> In x c \/ x = d.
Proof.
  unfold create. intros Hx. apply in_app_or in Hx.
  destruct Hx as [Hx|[Hx|[]]]; auto.
Qed.

Lemma post_register_userRefsValid now username password s :
  userRefsValid s -> userRefsValid (snd (post_register now username password s)).
Proof.
  intros Hv. unfold post_register.
  destruct (findOne _ (users s)); [exact Hv|].
  destruct (required (Some username)); [|exact Hv].
  unfold newId. simpl.
  apply (userRefsValid_step Hv); simpl; try old_document.
  intros i u Hu. simpl. exists u. split; [|reflexivity].
  now apply findById_create_some.
Qed.

Lemma post_setup_userRefsValid tok schoolId classId s :
  userRefsValid s -> userRefsValid (snd (post_setup tok schoolId classId s)).
Proof.
  intros Hv. unfold post_setup, with_auth.
  destruct (auth tok s) as [requser|]; [|exact Hv].
  destruct (findById (User._id requser) (users s)) as [user|] eqn:Hu; [|exact Hv].
  destruct (User.isSetup user); [exact Hv|]. simpl.
  apply (userRefsValid_step Hv); simpl; try old_document.
  intros i u Hi. simpl. rewrite findById_save, Hi.
  pose proof (findById_again _ _ Hu) as Hu'.
  unfold doc_id, User_doc in *. simpl.
  destruct (i =? User._id user) eqn:E.
  - simpl. eexists. split; [reflexivity|]. simpl.
    apply Nat.eqb_eq in E. subst i. congruence.
  - exists u. auto.
Qed.

Lemma post_review_userRefsValid now tok teacherId text s :
  userRefsValid s -> userRefsValid (snd (post_review now tok teacherId text s)).
Proof.
  intros Hv. unfold post_review, with_auth.
  destruct (auth tok s) as [requser|]; [|exact Hv].
  destruct (findById (User._id requser) (users s)) as [user|] eqn:Hu; [|exact Hv].
  destruct (findOne _ (reviews s)); [exact Hv|].
  destruct (required (Some (User.username user))) as [w|] eqn:Hw; [|exact Hv].
  destruct (required text); [|exact Hv].
  apply required_some in Hw. destruct Hw as [-> _].
  unfold newId. simpl.
  apply (userRefsValid_step Hv); simpl; try old_document;
    [now apply usersKept_same|].
  intros r Hr. apply In_create_inv in Hr. destruct Hr as [Hr| ->].
  - left. exists r. auto.
  - right. exists user. simpl. auto.
Qed.

Lemma put_review_userRefsValid now tok reviewId text s :
  userRefsValid s -> userRefsValid (snd (put_review now tok reviewId text s)).
Proof.
  intros Hv. unfold put_review, with_auth.
  destruct (auth tok s) as [requser|]; [|exact Hv].
  destruct (findOne _ (reviews s)) as [review|] eqn:Hr; [|exact Hv].
  destruct (required text); [|exact Hv]. simpl.
  apply findOne_some in Hr. destruct Hr as [Hin _].
  apply (userRefsValid_step Hv); simpl; try old_document;
    [now apply usersKept_same|].
  intros r Hr. apply In_update in Hr. destruct Hr as [Hr|(d0 & _ & _ & ->)].
  - left. exists r. auto.
  - left. exists review. auto.
Qed.

Lemma post_rating_userRefsValid now tok teacherId rating s :
  userRefsValid s -> userRefsValid (snd (post_rating now tok teacherId rating s)).
Proof.
  intros Hv. unfold post_rating, with_auth.
  destruct (auth tok s) as [requser|] eqn:Hauth; [|exact Hv].
  unfold upsertRating.
  destruct (findOne _ (ratings s)) as [existing|] eqn:Hex;
    destruct (validateRating rating); try exact Hv; unfold newId; simpl.
  - apply findOne_some in Hex. destruct Hex as [Hin _].
    apply (userRefsValid_step Hv); simpl; try old_document;
      [now apply usersKept_same|].
    intros r Hr. apply In_update in Hr. destruct Hr as [Hr|(d0 & _ & _ & ->)].
    + left. exists r. auto.
    + left. exists existing. auto.
  - apply (userRefsValid_step Hv); simpl; try old_document;
      [now apply usersKept_same|].
    intros r Hr. apply In_create_inv in Hr. destruct Hr as [Hr| ->].
    + left. exists r. auto.
    + right. exists requser. simpl. now apply auth_findById with (tok := tok).
Qed.

Lemma post_discussion_userRefsValid now tok message s :
  userRefsValid s -> userRefsValid (snd (post_discussion now tok message s)).
Proof.
  intros Hv. unfold post_discussion, with_auth.
  destruct (auth tok s) as [requser|]; [|exact Hv].
  destruct (findById (User._id requser) (users s)) as [user|] eqn:Hu; [|exact Hv].
  destruct (required (Some (User.username user))) as [w|] eqn:Hw; [|exact Hv].
  destruct (required message); [|exact Hv].
  apply required_some in Hw. destruct Hw as [-> _].
  unfold newId. simpl.
  apply (userRefsValid_step Hv); simpl; try old_document;
    [now apply usersKept_same|].
  intros d Hd. apply In_create_inv in Hd. destruct Hd as [Hd| ->].
  - left. exists d. auto.
  - right. exists user. simpl. auto.
Qed.

Lemma delete_admin_user_userRefsValid tok userId s :
  userRefsValid s -> userRefsValid (snd (delete_admin_user tok userId s)).
Proof.
  intros Hv. unfold delete_admin_user, with_adminAuth.
  destruct (adminAuth tok); [|exact Hv]. simpl.
  destruct Hv as (Hrev & Hrat & Hdis). split; [|split]; simpl.
  - intros r Hr. apply In_deleteMany_iff in Hr. destruct Hr as [Hr Hne].
    apply Nat.eqb_neq in Hne. rewrite findById_delete_other by exact Hne. auto.
  - intros r Hr. apply In_deleteMany_iff in Hr. destruct Hr as [Hr Hne].
    apply Nat.eqb_neq in Hne. rewrite findById_delete_other by exact Hne. auto.
  - intros d Hd. apply In_deleteMany_iff in Hd. destruct Hd as [Hd Hne].
    apply Nat.eqb_neq in Hne. rewrite findById_delete_other by exact Hne. auto.
Qed.

Lemma reset_password_userRefsValid tok userId newPassword s :
  userRefsValid s ->
  userRefsValid (snd (post_admin_reset_password tok userId newPassword s)).
Proof.
  intros Hv. unfold post_admin_reset_password, with_adminAuth.
  destruct (adminAuth tok); [|exact Hv]. simpl.
  apply (userRefsValid_step Hv); simpl; try old_document.
  intros i u Hu. simpl. rewrite findById_update by (intros d Hd; exact Hd).
  rewrite Hu. destruct (i =? userId); simpl; eexists; split; reflexivity.
Qed.

Lemma pin_userRefsValid tok discussionId s :
  userRefsValid s ->
  userRefsValid (snd (put_admin_discussion_pin tok discussionId s)).
Proof.
  intros Hv. unfold put_admin_discussion_pin, with_adminAuth.
  destruct (adminAuth tok); [|exact Hv].
  destruct (findById discussionId (discussions s)) as [discussion|] eqn:Hd;
    [|exact Hv].
  simpl. apply findOne_some in Hd. destruct Hd as [Hin _].
  apply (userRefsValid_step Hv); simpl; try old_document;
    [now apply usersKept_same|].
  intros d Hd. apply In_update in Hd. destruct Hd as [Hd|(d0 & _ & _ & ->)].
  - left. exists d. auto.
  - left. exists discussion. auto.
Qed.

Lemma handle_userRefsValid now req s :
  userRefsValid s -> userRefsValid (snd (handle now req s)).
Proof.
  intros Hv. destruct req as [tok r]. unfold handle. simpl.
  destruct r;
    try apply post_register_userRefsValid;
    try apply post_setup_userRefsValid;
    try apply post_review_userRefsValid;
    try apply put_review_userRefsValid;
    try apply post_rating_userRefsValid;
    try apply post_discussion_userRefsValid;
    try apply delete_admin_user_userRefsValid;
    try apply reset_password_userRefsValid;
    try apply pin_userRefsValid;
    try exact Hv;
    unfold_handlers; unfold newId;
    repeat match goal with
           | |- userRefsValid (snd (match ?x with _ => _ end)) => destruct x
           | |- userRefsValid (snd (if ?x then _ else _)) => destruct x
           end;
    try exact Hv; simpl;
    apply (userRefsValid_step Hv); simpl; try old_document;
    now apply usersKept_same.
Qed.

(** X11. References to users never dangle: in every store the server
    reaches, the author of each Review, Rating and Discussion is a stored
    user, and the username a Review or a Discussion carries is that
    user's username. *)
Theorem authors_are_stored_users s :
  reachable s ->
  (forall r, In r (reviews s) ->
     exists u, findById (Review.user r) (users s) = Some u /\
               Review.username r = User.username u) /\
  (forall r, In r (ratings s) ->
     exists u, findById (Rating.user r) (users s) = Some u) /\
  (forall d, In d (discussions s) ->
     exists u, findById (Discussion.user d) (users s) = Some u /\
               Discussion.username d = User.username u).
Proof.
  induction 1 as [|s now req _ IH].
  - repeat split; intros x [].
  - exact (handle_userRefsValid now req IH).
Qed.

Lemma authors_are_stored_users_witness :
  exists u, findById alice (users reviewedAndRated) = Some u /\
            "alice" = User.username u.
Proof.
  destruct (@authors_are_stored_users reviewedAndRated reviewedAndRated_reachable)
    as (Hrev & _).
  apply (Hrev (Review.mk 7 msRao alice "alice" "Explains clearly." 7 7)).
  simpl. left. reflexivity.
Defined.

(** ** The administrator's configuration *)

Lemma put_admin_config_secret tok anonymous hide s :
  adminSecretIsDefault s ->
  adminSecretIsDefault (snd (put_admin_config tok anonymous hide s)).
Proof.
  intros (c & Hc & Hsec). unfold put_admin_config, with_adminAuth.
  destruct (adminAuth tok); [|now exists c].
  rewrite Hc. simpl. unfold adminSecretIsDefault, config in *. simpl.
  destruct (adminConfigs s) as [|x l]; [discriminate|].
  simpl in Hc. injection Hc as ->.
  unfold save. simpl. unfold doc_id at 1 2, AdminConfig_doc. simpl.
  rewrite Nat.eqb_refl. simpl. eexists. split; [reflexivity | exact Hsec].
Qed.

Lemma handle_adminSecret now req s :
  adminSecretIsDefault s -> adminSecretIsDefault (snd (handle now req s)).
Proof.
  intros Hv. destruct req as [tok r]. unfold handle. simpl.
  destruct r;
    try apply put_admin_config_secret;
    try exact Hv;
    unfold_handlers; unfold upsertRating, newId;
    repeat match goal with
           | |- context [match ?x with _ => _ end] =>
               lazymatch x with
               | context [match _ with _ => _ end] => fail
               | _ => destruct x
               end
           end; exact Hv.
Qed.

Lemma reachable_adminSecret s : reachable s -> adminSecretIsDefault s.
Proof.
  induction 1 as [|s now req _ IH].
  - eexists. split; reflexivity.
  - now apply handle_adminSecret.
Qed.











(** ** Discussions *)

Section SaveTwice.
Context {A : Type} `{Document A}.

Lemma save_save (c : list A) d d' :
  findById (doc_id d) c = Some d -> doc_id d' = doc_id d ->
  save d (save d' c) = c.
Proof.
  unfold save, findById, findOne. intros Hd Hid. rewrite Hid.
  induction c as [|x c IH]; simpl in *; [reflexivity|].
  destruct (doc_id x =? doc_id d) eqn:E; simpl.
  - rewrite Hid, Nat.eqb_refl. now injection Hd as ->.
  - rewrite E. f_equal. now apply IH.
Qed.

Lemma findById_save_other (c : list A) d j :
  j <> doc_id d -> findById j (save d c) = findById j c.
Proof.
  intros Hne. rewrite findById_save.
  apply Nat.eqb_neq in Hne. now rewrite Hne.
Qed.
End SaveTwice.

(** X14. PUT /api/admin/discussions/:discussionId/pin toggles: on a
    stored discussion it flips isPinned and touches no other discussion,
    and a second call restores the discussions exactly as they were; on
    an identifier that is not stored it answers 400 and writes nothing. *)
Theorem pin_toggles now now' discussionId s :
  (forall d,
      findById discussionId (discussions s) = Some d ->
      let s1 := snd (handle now (asAdmin (PUT_admin_discussion_pin discussionId)) s) in
      let s2 := snd (handle now' (asAdmin (PUT_admin_discussion_pin discussionId)) s1) in
      (exists d1, findById discussionId (discussions s1) = Some d1 /\
                  Discussion.isPinned d1 = negb (Discussion.isPinned d) /\
                  Discussion.message d1 = Discussion.message d /\
                  Discussion.username d1 = Discussion.username d /\
                  Discussion.createdAt d1 = Discussion.createdAt d) /\
      (forall j, j <> discussionId ->
                 findById j (discussions s1) = findById j (discussions s)) /\
      discussions s2 = discussions s) /\
  (findById discussionId (discussions s) = None ->
   handle now (asAdmin (PUT_admin_discussion_pin discussionId)) s = (thrown, s)).
Proof.
  split.
  - intros d Hd.
    pose proof (findById_id _ _ Hd) as Hid. unfold doc_id, Discussion_doc in Hid.
    set (d1 := Discussion.mk (Discussion._id d) (Discussion.user d)
                 (Discussion.username d) (Discussion.message d)
                 (negb (Discussion.isPinned d)) (Discussion.createdAt d)).
    assert (H1 : handle now (asAdmin (PUT_admin_discussion_pin discussionId)) s =
                 (ok (JDiscussion d1), set_discussions (save d1 (discussions s)) s)).
    { unfold handle, asAdmin. simpl.
      unfold put_admin_discussion_pin, with_adminAuth. simpl. now rewrite Hd. }
    rewrite H1. simpl.
    assert (Hd1 : findById discussionId (save d1 (discussions s)) = Some d1).
    { rewrite findById_save. unfold doc_id at 1, Discussion_doc. simpl.
      rewrite Hid, Nat.eqb_refl. fold (@doc_id Discussion.t Discussion_doc).
      replace (findById discussionId (discussions s)) with (Some d). reflexivity. }
    split; [|split].
    + exists d1. repeat split; auto.
    + intros j Hj. apply findById_save_other.
      unfold doc_id, Discussion_doc. simpl. congruence.
    + unfold handle, asAdmin. simpl.
      unfold put_admin_discussion_pin, with_adminAuth. simpl. rewrite Hd1. simpl.
      rewrite negb_involutive.
      replace (Discussion.mk (Discussion._id d) (Discussion.user d)
                 (Discussion.username d) (Discussion.message d)
                 (Discussion.isPinned d) (Discussion.createdAt d)) with d
        by (now destruct d).
      apply save_save; [|reflexivity].
      unfold doc_id, Discussion_doc. now rewrite Hid.
  - intros Hd. unfold handle, asAdmin. simpl.
    unfold put_admin_discussion_pin, with_adminAuth. simpl. now rewrite Hd.
Qed.

Lemma pin_toggles_witness :
  let s1 := snd (handle 10 (asAdmin (PUT_admin_discussion_pin 7)) discussed) in
  let s2 := snd (handle 11 (asAdmin (PUT_admin_discussion_pin 7)) s1) in
  option_map Discussion.isPinned (findById 7 (discussions s1)) = Some true /\
  discussions s2 = discussions discussed /\
  handle 10 (asAdmin (PUT_admin_discussion_pin 99)) discussed = (thrown, discussed).
Proof.
  destruct (pin_toggles 10 11 7 discussed) as [Hon _].
  destruct (pin_toggles 10 11 99 discussed) as [_ Hoff].
  destruct (Hon (Discussion.mk 7 alice "alice" "Exam tips?" false 7) eq_refl)
    as (_ & _ & Hback).
  split; [reflexivity|]. split; [exact Hback | exact (Hoff eq_refl)].
Defined.

(** ** Sorted listings *)

Section SortFacts.
Context {A : Type} (le : A -> A -> bool).
Hypothesis le_total : forall x y, le x y = false -> le y x = true.

Lemma insert_sorted_perm x (l : list A) : Permutation (insert_sorted le x l) (x :: l).
Proof.
  induction l as [|y l IH]; simpl; [reflexivity|].
  destruct (le x y); [reflexivity|].
  rewrite IH. apply perm_swap.
Qed.

Lemma sort_by_perm (l : list A) : Permutation (sort_by le l) l.
Proof.
  unfold sort_by. induction l as [|x l IH]; simpl; [reflexivity|].
  rewrite insert_sorted_perm. now constructor.
Qed.

Lemma insert_sorted_HdRel x y (l : list A) :
  le y x = true -> HdRel (fun a b => le a b = true) y l ->
  HdRel (fun a b => le a b = true) y (insert_sorted le x l).
Proof.
  intros Hyx Hhd. destruct l as [|z l]; simpl.
  - now constructor.
  - destruct (le x z); constructor; [assumption|].
    now inversion Hhd.
Qed.

Lemma insert_sorted_Sorted x (l : list A) :
  Sorted (fun a b => le a b = true) l ->
  Sorted (fun a b => le a b = true) (insert_sorted le x l).
Proof.
  induction 1 as [|y l Hs IH Hhd]; simpl.
  - repeat constructor.
  - destruct (le x y) eqn:E.
    + constructor; [now constructor | now constructor].
    + constructor; [exact IH|].
      apply insert_sorted_HdRel; [now apply le_total | exact Hhd].
Qed.

Lemma sort_by_Sorted (l : list A) : Sorted (fun a b => le a b = true) (sort_by le l).
Proof.
  unfold sort_by. induction l as [|x l IH]; simpl; [constructor|].
  now apply insert_sorted_Sorted.
Qed.
End SortFacts.

Lemma In_limit {A} n (l : list A) x : In x (limit n l) -> In x l.
Proof.
  unfold limit. revert n. induction l as [|y l IH]; intros [|n]; simpl; try tauto.
  intros [->|Hx]; [now left | right; eauto].
Qed.

Lemma StronglySorted_firstn {A} (R : A -> A -> Prop) n (l : list A) :
  StronglySorted R l -> StronglySorted R (firstn n l).
Proof.
  intros Hs. revert n. induction Hs as [|x l Hs IH Hall]; intros [|n]; simpl;
    try constructor.
  - apply IH.
  - rewrite Forall_forall in *. intros y Hy. apply Hall.
    exact (In_limit n l y Hy).
Qed.

Lemma limit_all {A} n (l : list A) : length l <= n -> limit n l = l.
Proof. unfold limit. apply firstn_all2. Qed.

Lemma pinnedThenNewest_spec a b : pinnedThenNewest a b = true <-> pinnedBefore a b.
Proof.
  unfold pinnedThenNewest, pinnedBefore.
  destruct (Discussion.isPinned a), (Discussion.isPinned b); simpl;
    rewrite ?Nat.leb_le; intuition congruence.
Qed.

Lemma pinnedThenNewest_total a b :
  pinnedThenNewest a b = false -> pinnedThenNewest b a = true.
Proof.
  unfold pinnedThenNewest.
  destruct (Discussion.isPinned a), (Discussion.isPinned b); simpl;
    rewrite ?Nat.leb_le, ?Nat.leb_gt; try discriminate; try reflexivity; lia.
Qed.

Lemma pinnedThenNewest_trans :
  Relations_1.Transitive (fun a b => pinnedThenNewest a b = true).
Proof.
  intros a b c. unfold pinnedThenNewest.
  destruct (Discussion.isPinned a), (Discussion.isPinned b),
    (Discussion.isPinned c); simpl;
    rewrite ?Nat.leb_le; try discriminate; try reflexivity; lia.
Qed.

(** X15. GET /api/discussions answers an authenticated caller with at
    most 100 stored discussions, pinned ones before unpinned ones and
    newer before older within each group; when at most 100 are stored,
    every one of them is listed. *)
Theorem discussions_pinned_first now tok requser s :
  auth tok s = Some requser ->
  exists l,
    handle now (mkRequest tok GET_discussions) s = (ok (JDiscussions l), s) /\
    length l <= 100 /\
    (forall d, In d l -> In d (discussions s)) /\
    StronglySorted pinnedBefore l /\
    (length (discussions s) <= 100 -> Permutation l (discussions s)).
Proof.
  intros Hauth. eexists. split; [|split; [|split; [|split]]].
  - unfold handle. simpl. unfold get_discussions, with_auth. now rewrite Hauth.
  - apply firstn_le_length.
  - intros d Hd. apply In_limit in Hd.
    apply (Permutation_in _ (sort_by_perm pinnedThenNewest _)) in Hd.
    unfold find in Hd. apply filter_In in Hd. tauto.
  - apply StronglySorted_firstn.
    assert (Hs : StronglySorted (fun a b => pinnedThenNewest a b = true)
                   (sort_by pinnedThenNewest (find (fun _ => true) (discussions s)))).
    { apply Sorted_StronglySorted; [exact pinnedThenNewest_trans|].
      apply sort_by_Sorted. exact pinnedThenNewest_total. }
    induction Hs as [|x l Hs IH Hall]; constructor; [exact IH|].
    eapply Forall_impl; [|exact Hall]. intros y. apply pinnedThenNewest_spec.
  - intros Hlen.
    assert (Hall : find (fun _ : Discussion.t => true) (discussions s) = discussions s).
    { unfold find. induction (discussions s) as [|x l IH]; simpl; [reflexivity|].
      f_equal. apply IH. simpl in Hlen. lia. }
    rewrite Hall. rewrite limit_all.
    + apply sort_by_perm.
    + rewrite (Permutation_length (sort_by_perm pinnedThenNewest (discussions s))).
      exact Hlen.
Qed.

Lemma discussions_pinned_first_witness :
  exists l,
    handle 10 (asUser carol GET_discussions) discussed = (ok (JDiscussions l), discussed) /\
    length l <= 100 /\
    (forall d, In d l -> In d (discussions discussed)) /\
    StronglySorted pinnedBefore l /\
    (length (discussions discussed) <= 100 -> Permutation l (discussions discussed)).
Proof.
  exact (@discussions_pinned_first 10 (Some (UserToken carol))
           (User.mk carol "carol" (Bcrypt "pw-c") None None false 3) discussed
           eq_refl).
Defined.

Example discussions_listing_example :
  handle 10 (asUser carol GET_discussions) discussed =
  (ok (JDiscussions [Discussion.mk 8 bob "bob" "Sports day on Friday." true 8;
                     Discussion.mk 7 alice "alice" "Exam tips?" false 7]), discussed).
Proof. reflexivity. Qed.

Lemma StronglySorted_map {A B} (f : A -> B) (R : B -> B -> Prop) (l : list A) :
  StronglySorted (fun a b => R (f a) (f b)) l -> StronglySorted R (map f l).
Proof.
  induction 1 as [|x l Hs IH Hall]; simpl; constructor; [exact IH|].
  rewrite Forall_forall in *. intros y Hy.
  apply in_map_iff in Hy. destruct Hy as (z & <- & Hz). auto.
Qed.

Lemma newestReviewFirst_sorted (l : list Review.t) :
  StronglySorted (fun a b => Review.createdAt b <= Review.createdAt a)
                 (sort_by newestReviewFirst l).
Proof.
  assert (Hs : StronglySorted (fun a b => newestReviewFirst a b = true)
                 (sort_by newestReviewFirst l)).
  { apply Sorted_StronglySorted.
    - intros a b c. unfold newestReviewFirst. rewrite !Nat.leb_le. lia.
    - apply sort_by_Sorted. intros a b. unfold newestReviewFirst.
      rewrite Nat.leb_le, Nat.leb_gt. lia. }
  induction Hs as [|x l' Hs IH Hall]; constructor; [exact IH|].
  eapply Forall_impl; [|exact Hall]. intros y. unfold newestReviewFirst.
  now rewrite Nat.leb_le.
Qed.

(** X16. GET /api/teachers/:teacherId/reviews answers an authenticated
    caller with at most 50 reviews, all of that teacher and each a stored
    review with its text, newest first; when the teacher has at most 50
    reviews, all of them are listed.  This holds with anonymous reviews
    on or off. *)
Theorem reviews_listing_newest_first now tok requser teacherId s :
  auth tok s = Some requser ->
  exists l,
    handle now (mkRequest tok (GET_teacher_reviews teacherId)) s = (ok (JReviews l), s) /\
    length l <= 50 /\
    StronglySorted (fun a b => b <= a) (map Review.createdAt l) /\
    (forall r, In r l ->
       Review.teacher r = teacherId /\
       exists r0, In r0 (reviews s) /\ Review._id r0 = Review._id r /\
                  Review.text r0 = Review.text r) /\
    (length (find (fun r => Review.teacher r =? teacherId) (reviews s)) <= 50 ->
     Permutation (map Review._id l)
       (map Review._id (find (fun r => Review.teacher r =? teacherId) (reviews s)))).
Proof.
  intros Hauth.
  set (stored := find (fun r => Review.teacher r =? teacherId) (reviews s)).
  set (l0 := limit 50 (sort_by newestReviewFirst stored)).
  assert (Hin0 : forall r, In r l0 -> In r (reviews s) /\ Review.teacher r = teacherId).
  { intros r Hr. apply In_limit in Hr.
    apply (Permutation_in _ (sort_by_perm newestReviewFirst _)) in Hr.
    apply filter_In in Hr. now rewrite Nat.eqb_eq in Hr. }
  assert (Hsorted0 : StronglySorted (fun a b => b <= a) (map Review.createdAt l0)).
  { apply StronglySorted_map. apply StronglySorted_firstn.
    apply newestReviewFirst_sorted. }
  assert (Hperm0 : length stored <= 50 -> Permutation l0 stored).
  { intros Hlen. unfold l0. rewrite limit_all.
    - apply sort_by_perm.
    - now rewrite (Permutation_length (sort_by_perm newestReviewFirst stored)). }
  exists (if anonymousReviews s then map anonymize l0 else l0).
  split; [|split; [|split; [|split]]].
  - unfold handle. simpl. unfold get_teacher_reviews, with_auth. now rewrite Hauth.
  - destruct (anonymousReviews s); [rewrite length_map|]; apply firstn_le_length.
  - destruct (anonymousReviews s); [|exact Hsorted0].
    rewrite map_map. exact Hsorted0.
  - intros r Hr. destruct (anonymousReviews s).
    + apply in_map_iff in Hr. destruct Hr as (r0 & <- & Hr0).
      destruct (Hin0 r0 Hr0) as [Hst Ht]. split; [exact Ht|]. exists r0. auto.
    + destruct (Hin0 r Hr) as [Hst Ht]. split; [exact Ht|]. exists r. auto.
  - intros Hlen. destruct (anonymousReviews s).
    + rewrite map_map. simpl. apply Permutation_map. now apply Hperm0.
    + apply Permutation_map. now apply Hperm0.
Qed.

Lemma reviews_listing_newest_first_witness :
  exists l,
    handle 9 (asUser bob (GET_teacher_reviews msRao)) anonymousOn =
      (ok (JReviews l), anonymousOn) /\
    length l <= 50 /\
    StronglySorted (fun a b => b <= a) (map Review.createdAt l) /\
    (forall r, In r l ->
       Review.teacher r = msRao /\
       exists r0, In r0 (reviews anonymousOn) /\ Review._id r0 = Review._id r /\
                  Review.text r0 = Review.text r) /\
    (length (find (fun r => Review.teacher r =? msRao) (reviews anonymousOn)) <= 50 ->
     Permutation (map Review._id l)
       (map Review._id (find (fun r => Review.teacher r =? msRao) (reviews anonymousOn)))).
Proof.
  exact (@reviews_listing_newest_first 9 (Some (UserToken bob))
           (User.mk bob "bob" (Bcrypt "pw-b") None None false 2) msRao anonymousOn
           eq_refl).
Defined.

Lemma string_leb_total (x y : string) : String.leb x y = false -> String.leb y x = true.
Proof.
  intros Hxy. destruct (String.leb_total x y) as [H|H]; [congruence | exact H].
Qed.

(** X17. GET /api/schools lists every stored school exactly once, in
    ascending order of name, and GET /api/schools/:schoolId/classes lists
    exactly the classes of that school, in ascending order of name; both
    need no token and write nothing. *)
Theorem schools_and_classes_sorted_by_name now tok schoolId s :
  (exists l,
      handle now (mkRequest tok GET_schools) s = (ok (JSchools l), s) /\
      Permutation l (schools s) /\
      Sorted (fun a b => String.leb (School.name a) (School.name b) = true) l) /\
  (exists l,
      handle now (mkRequest tok (GET_school_classes schoolId)) s = (ok (JClasses l), s) /\
      (forall c, In c l <-> In c (classes s) /\ Class.school c = schoolId) /\
      length l = length (find (fun c => Class.school c =? schoolId) (classes s)) /\
      Sorted (fun a b => String.leb (Class.name a) (Class.name b) = true) l).
Proof.
  split.
  - eexists. split; [reflexivity|]. split.
    + rewrite sort_by_perm. unfold find.
      induction (schools s) as [|x l IH]; simpl; [reflexivity | now constructor].
    + apply sort_by_Sorted. intros a b. apply string_leb_total.
  - eexists. split; [reflexivity|]. split; [|split].
    + intros c. split.
      * intros Hc. apply (Permutation_in _ (sort_by_perm _ _)) in Hc.
        apply filter_In in Hc. now rewrite Nat.eqb_eq in Hc.
      * intros [Hc Hsch].
        apply (Permutation_in _ (Permutation_sym (sort_by_perm _ _))).
        apply filter_In. now rewrite Nat.eqb_eq.
    + apply Permutation_length. apply sort_by_perm.
    + apply sort_by_Sorted. intros a b. apply string_leb_total.
Qed.

Example schools_listing_example :
  fst (handle 8 (mkRequest None GET_schools) twoSchools) =
  ok (JSchools [School.mk 7 "Brookside" 7; School.mk hilltop "Hilltop" 4]).
Proof. reflexivity. Qed.

(** X18. GET /api/admin/reviews lists every stored review exactly once,
    as stored (usernames are not anonymised for the administrator),
    newest first, each with its teacher's identifier and name, or with
    null when no teacher with that identifier is stored. *)
Theorem admin_reviews_listing now s :
  exists l,
    handle now (asAdmin GET_admin_reviews) s = (ok (JAdminReviews l), s) /\
    Permutation (map fst l) (reviews s) /\
    StronglySorted (fun a b => Review.createdAt b <= Review.createdAt a) (map fst l) /\
    (forall r p, In (r, p) l ->
       match p with
       | Some (i, name) =>
           i = Review.teacher r /\
           exists t, In t (teachers s) /\ Teacher._id t = i /\ Teacher.name t = name
       | None => forall t, In t (teachers s) -> Teacher._id t <> Review.teacher r
       end).
Proof.
  eexists. split; [reflexivity|].
  assert (Hall : find (fun _ : Review.t => true) (reviews s) = reviews s).
  { unfold find. induction (reviews s) as [|x l IH]; simpl; [reflexivity | now f_equal]. }
  rewrite Hall, map_map. simpl. rewrite map_id.
  split; [apply sort_by_perm|]. split; [apply newestReviewFirst_sorted|].
  intros r p Hin. apply in_map_iff in Hin. destruct Hin as (r0 & [= <- <-] & _).
  unfold populateTeacher.
  destruct (findById (Review.teacher r0) (teachers s)) as [t|] eqn:Ht.
  - pose proof (findById_id _ _ Ht) as Hid.
    apply findOne_some in Ht. destruct Ht as [Hin _].
    split; [exact Hid|]. exists t. auto.
  - intros t Hin Hid. apply (findOne_none _ _ t Ht) in Hin. simpl in Hin.
    unfold doc_id, Teacher_doc in Hin. rewrite Hid, Nat.eqb_refl in Hin. discriminate.
Qed.

Example admin_reviews_after_school_delete :
  fst (handle 10 (asAdmin GET_admin_reviews)
         (snd (handle 9 (asAdmin (DELETE_admin_school hilltop)) anonymousOn))) =
  ok (JAdminReviews [(Review.mk 7 msRao alice "alice" "Explains clearly." 7 7, None)]).
Proof. reflexivity. Qed.

(** ** Reviews, ratings and discussions of a caller *)

Lemma Forall_update {A} `{Document A} (P : A -> Prop) (g : A -> A) i (c : list A) :
  (forall d, P d -> P (g d)) -> Forall P c -> Forall P (findByIdAndUpdate i g c).
Proof.
  intros Hg. rewrite !Forall_forall. intros Hc x Hx.
  apply In_update in Hx. destruct Hx as [Hx|(d0 & Hd0 & _ & ->)]; auto.
Qed.

Lemma handle_usernames_nonempty now req s :
  Forall (fun u => User.username u <> "") (users s) ->
  Forall (fun u => User.username u <> "") (users (snd (handle now req s))).
Proof.
  intros Hv. destruct req as [tok r]. unfold handle. simpl.
  destruct r; try exact Hv;
    unfold_handlers; unfold newId;
    repeat match goal with
           | |- Forall _ (users (snd (match ?x with _ => _ end))) =>
               let E := fresh "E" in destruct x eqn:E
           | |- Forall _ (users (snd (if ?x then _ else _))) => destruct x
           end;
    try exact Hv; simpl.
  - apply Forall_create; [|exact Hv]. simpl.
    match goal with
    | Hreq : required _ = Some _ |- _ =>
        apply required_some in Hreq; destruct Hreq as [-> Hne]; exact Hne
    end.
  - apply Forall_save; [|exact Hv]. simpl.
    rewrite Forall_forall in Hv. apply Hv.
    match goal with
    | Hf : findById _ (users s) = Some _ |- _ => apply findOne_some in Hf; tauto
    end.
  - match goal with
    | Hup : upsertRating _ _ _ _ _ = Some (_, _) |- _ =>
        destruct (upsertRating_spec _ _ _ _ _ Hup) as (_ & _ & _ & Hus & _)
    end.
    simpl. now rewrite Hus.
  - now apply Forall_delete.
  - apply Forall_update; [|exact Hv]. auto.
Qed.

Lemma reachable_usernames_nonempty s :
  reachable s -> Forall (fun u => User.username u <> "") (users s).
Proof.
  induction 1 as [|s now req _ IH].
  - constructor.
  - now apply handle_usernames_nonempty.
Qed.

Lemma auth_username_nonempty tok s requser :
  reachable s -> auth tok s = Some requser ->
  required (Some (User.username requser)) = Some (User.username requser).
Proof.
  intros Hs Hauth. apply reachable_usernames_nonempty in Hs.
  rewrite Forall_forall in Hs.
  assert (Hin : In requser (users s)).
  { apply auth_findById in Hauth. apply findOne_some in Hauth. tauto. }
  specialize (Hs _ Hin). simpl in Hs. unfold required.
  apply String.eqb_neq in Hs. now rewrite Hs.
Qed.

Lemma required_nonempty v : v <> "" -> required (Some v) = Some v.
Proof. intros Hv. unfold required. apply String.eqb_neq in Hv. now rewrite Hv. Qed.

Lemma required_none_iff text :
  required text = None <-> text = None \/ text = Some "".
Proof.
  unfold required. destruct text as [v|]; [|tauto].
  destruct (String.eqb v "") eqn:E.
  - apply String.eqb_eq in E. subst v. tauto.
  - split; [discriminate|]. intros [H|[= ->]]; discriminate.
Qed.

Lemma find_singleton_findOne {A} (p : A -> bool) (c : list A) d :
  find p c = [d] -> findOne p c = Some d.
Proof.
  unfold find, findOne. induction c as [|x c IH]; simpl; [discriminate|].
  destruct (p x); [now intros [= ->] | exact IH].
Qed.

Lemma single_match {A} (p : A -> bool) (c : list A) a b :
  length (find p c) <= 1 -> In a c -> In b c -> p a = true -> p b = true -> a = b.
Proof.
  intros Hlen Ha Hb Hpa Hpb.
  pose proof (@singleton_of_count A p c a Hlen Ha Hpa) as H1.
  pose proof (@singleton_of_count A p c b Hlen Hb Hpb) as H2.
  congruence.
Qed.

(** X19. POST /api/teachers/:teacherId/reviews by an authenticated caller
    succeeds exactly when the caller has no review of that teacher yet
    and the text is present and not empty.  It then appends one review
    with the given text under the caller's username, and GET
    /api/teachers/:teacherId/my-review by the same caller reads that
    review back. *)
Theorem review_round_trip now now' tok requser teacherId text s :
  reachable s -> auth tok s = Some requser ->
  let resp := fst (handle now (mkRequest tok (POST_review teacherId text)) s) in
  let s' := snd (handle now (mkRequest tok (POST_review teacherId text)) s) in
  (status resp = 200 <->
   findOne (reviewOf teacherId (User._id requser)) (reviews s) = None /\
   exists v, text = Some v /\ v <> "") /\
  (status resp = 200 ->
   exists r,
     resp = ok (JReview (Some r)) /\
     text = Some (Review.text r) /\
     Review.username r = User.username requser /\
     Review.teacher r = teacherId /\ Review.user r = User._id requser /\
     reviews s' = create r (reviews s) /\
     handle now' (mkRequest tok (GET_my_review teacherId)) s' =
       (ok (JReview (Some r)), s')).
Proof.
  intros Hs Hauth resp s'. subst resp s'.
  unfold handle. simpl. unfold post_review, with_auth.
  rewrite Hauth, (auth_findById _ _ Hauth), (auth_username_nonempty _ Hs Hauth).
  destruct (findOne (reviewOf teacherId (User._id requser)) (reviews s)) eqn:Hex.
  - simpl. split; [|discriminate]. split; [discriminate|]. intros [Hn _]. discriminate.
  - destruct (required text) as [v|] eqn:Hv.
    + assert (Htext : text = Some v /\ v <> "").
      { unfold required in Hv. destruct text as [w|]; [|discriminate].
        destruct (String.eqb w "") eqn:E; [discriminate|].
        injection Hv as <-. split; [reflexivity|]. now apply String.eqb_neq. }
      destruct Htext as [-> Hne]. unfold newId. simpl.
      split; [split; [intros _; split; [reflexivity | now exists v] | reflexivity]|].
      intros _. eexists. split; [reflexivity|]. simpl. repeat split.
      unfold get_my_review, with_auth. simpl.
      assert (Hauth' : auth tok
                {| users := users s; schools := schools s; classes := classes s;
                   teachers := teachers s;
                   reviews := create (Review.mk (nextId s) teacherId (User._id requser)
                                        (User.username requser) v now now) (reviews s);
                   ratings := ratings s; discussions := discussions s;
                   adminConfigs := adminConfigs s; nextId := S (nextId s) |}
                = Some requser) by exact Hauth.
      unfold set_reviews. simpl. rewrite Hauth'. simpl.
      rewrite (findOne_create_new _ _ _ Hex); [reflexivity|].
      unfold reviewOf. simpl. now rewrite !Nat.eqb_refl.
    + simpl. split; [|discriminate]. split; [discriminate|].
      intros (_ & v & -> & Hne). rewrite (required_nonempty Hne) in Hv. discriminate.
Qed.

Lemma review_round_trip_witness :
  let s' := snd (handle 7 (asUser alice (POST_review msRao (Some "Explains clearly.")))
                        classroom) in
  handle 8 (asUser alice (GET_my_review msRao)) s' =
  (ok (JReview (Some (Review.mk 7 msRao alice "alice" "Explains clearly." 7 7))), s').
Proof.
  destruct (@review_round_trip 7 8 (Some (UserToken alice))
              (User.mk alice "alice" (Bcrypt "pw-a") None None false 1) msRao
              (Some "Explains clearly.") classroom classroom_reachable eq_refl)
    as (_ & Hok).
  destruct (Hok eq_refl) as (r & Hr & _ & _ & _ & _ & _ & Hget).
  injection Hr as <-. exact Hget.
Defined.

(** X20. PUT /api/reviews/:reviewId by the review's author with a text
    that is not empty replaces the text and sets updatedAt to the time of
    the request; the identifier, teacher, user, username and createdAt of
    the review stay, no other review changes, and my-review reads the
    edited review back.  With a missing or empty text it answers 400 and
    writes nothing. *)
Theorem review_edit_by_author now now' tok requser reviewId review text s :
  reachable s -> auth tok s = Some requser ->
  findById reviewId (reviews s) = Some review ->
  Review.user review = User._id requser ->
  let edited := Review.mk (Review._id review) (Review.teacher review)
                          (Review.user review) (Review.username review)
                          (match text with Some v => v | None => "" end)
                          (Review.createdAt review) now in
  let s' := snd (handle now (mkRequest tok (PUT_review reviewId text)) s) in
  (required text = None ->
   handle now (mkRequest tok (PUT_review reviewId text)) s = (thrown, s)) /\
  (required text <> None ->
   fst (handle now (mkRequest tok (PUT_review reviewId text)) s) =
     ok (JReview (Some edited)) /\
   findById reviewId (reviews s') = Some edited /\
   (forall j, j <> reviewId -> findById j (reviews s') = findById j (reviews s)) /\
   handle now' (mkRequest tok (GET_my_review (Review.teacher review))) s' =
     (ok (JReview (Some edited)), s')).
Proof.
  intros Hs Hauth Hfind Howner edited s'.
  pose proof (reachable_wellFormed Hs) as Hwf.
  destruct (wf_reviews Hwf) as [Hnd _].
  pose proof (findById_id _ _ Hfind) as Hid. unfold doc_id, Review_doc in Hid.
  assert (Hin : In review (reviews s)) by (apply findOne_some in Hfind; tauto).
  assert (Hmine : findOne (fun r => (Review._id r =? reviewId)
                                    && (Review.user r =? User._id requser))
                          (reviews s) = Some review).
  { destruct (findOne_exists
                (fun r => (Review._id r =? reviewId)
                          && (Review.user r =? User._id requser))
                (reviews s) review Hin) as (r1 & Hr1).
    - simpl. now rewrite Hid, Howner, !Nat.eqb_refl.
    - rewrite Hr1. f_equal. apply findOne_some in Hr1. destruct Hr1 as [Hin1 Hp].
      apply andb_true_iff in Hp. destruct Hp as [Hp _]. apply Nat.eqb_eq in Hp.
      apply (NoDup_ids_inj (reviews s)); auto.
      unfold doc_id, Review_doc. congruence. }
  assert (Hwf' : wellFormed s') by (now apply handle_wellFormed).
  subst s'. revert Hwf'.
  unfold handle. simpl. unfold put_review, with_auth. rewrite Hauth, Hmine.
  destruct (required text) as [v|] eqn:Hv.
  - assert (Htext : text = Some v).
    { unfold required in Hv. destruct text as [w|]; [|discriminate].
      destruct (String.eqb w ""); [discriminate | congruence]. }
    subst text. simpl. intros Hwf'. split; [discriminate|]. intros _.
    fold edited. split; [reflexivity|].
    assert (Hsaved : findById reviewId (save edited (reviews s)) = Some edited).
    { rewrite findById_save, Hfind.
      unfold doc_id, Review_doc. simpl. now rewrite Hid, Nat.eqb_refl. }
    split; [exact Hsaved|]. split.
    + intros j Hj. apply findById_save_other.
      unfold doc_id, Review_doc. simpl. congruence.
    + unfold get_my_review, with_auth.
      assert (Hauth' : auth tok (set_reviews (save edited (reviews s)) s) = Some requser)
        by exact Hauth.
      assert (Hsingle : find (reviewOf (Review.teacher review) (User._id requser))
                             (save edited (reviews s)) = [edited]).
      { apply singleton_of_count.
        - apply (wf_one_review Hwf').
        - apply findOne_some in Hsaved. tauto.
        - unfold reviewOf. simpl. now rewrite Howner, !Nat.eqb_refl. }
      rewrite Hauth'. simpl.
      now rewrite (find_singleton_findOne _ _ Hsingle).
  - intros _. split; [reflexivity|]. intros Habs. now elim Habs.
Qed.

Lemma review_edit_by_author_witness :
  let s' := snd (handle 8 (asUser alice (PUT_review 7 (Some "Explains very clearly.")))
                        reviewed) in
  handle 9 (asUser alice (GET_my_review msRao)) s' =
    (ok (JReview (Some (Review.mk 7 msRao alice "alice" "Explains very clearly." 7 8))),
     s') /\
  handle 8 (asUser alice (PUT_review 7 (Some ""))) reviewed = (thrown, reviewed).
Proof.
  assert (Hr : reachable reviewed) by (apply reachable_run; exact classroom_reachable).
  split.
  - destruct (@review_edit_by_author 8 9 (Some (UserToken alice))
                (User.mk alice "alice" (Bcrypt "pw-a") None None false 1) 7
                (Review.mk 7 msRao alice "alice" "Explains clearly." 7 7)
                (Some "Explains very clearly.") reviewed Hr eq_refl eq_refl eq_refl)
      as (_ & Hok).
    destruct Hok as (_ & _ & _ & Hget); [discriminate | exact Hget].
  - destruct (@review_edit_by_author 8 9 (Some (UserToken alice))
                (User.mk alice "alice" (Bcrypt "pw-a") None None false 1) 7
                (Review.mk 7 msRao alice "alice" "Explains clearly." 7 7)
                (Some "") reviewed Hr eq_refl eq_refl eq_refl)
      as (Hbad & _).
    exact (Hbad eq_refl).
Defined.

(** X21. After a successful POST /api/teachers/:teacherId/ratings, GET
    /api/teachers/:teacherId/my-rating by the same caller answers with
    the caller's rating of that teacher, carrying the value just
    submitted; for a caller who has not rated the teacher it answers
    null. *)
Theorem my_rating_reads_back now now' tok requser teacherId q s :
  reachable s -> auth tok s = Some requser ->
  (validRating q = true ->
   let s' := snd (handle now (mkRequest tok (POST_rating teacherId (Some q))) s) in
   exists r,
     handle now' (mkRequest tok (GET_my_rating teacherId)) s' =
       (ok (JRating (Some r)), s') /\
     Rating.rating r = q /\ Rating.teacher r = teacherId /\
     Rating.user r = User._id requser) /\
  ((forall r, In r (ratings s) ->
              Rating.teacher r = teacherId -> Rating.user r <> User._id requser) ->
   handle now' (mkRequest tok (GET_my_rating teacherId)) s = (ok (JRating None), s)).
Proof.
  intros Hs Hauth. apply reachable_wellFormed in Hs. split.
  - intros Hq s'.
    destruct (@post_rating_stores now tok teacherId q s requser Hs Hauth Hq)
      as (_ & Hus & r & Hr & Hval).
    exists r. subst s'. unfold handle. simpl.
    assert (Hauth' : auth tok (snd (post_rating now tok teacherId (Some q) s))
                     = Some requser).
    { unfold auth in *. now rewrite Hus. }
    unfold get_my_rating, with_auth. rewrite Hauth'.
    rewrite (find_singleton_findOne _ _ Hr).
    split; [reflexivity|]. split; [exact Hval|].
    assert (Hp : In r (find (ratingOf teacherId (User._id requser))
                          (ratings (snd (post_rating now tok teacherId (Some q) s)))))
      by (rewrite Hr; now left).
    apply filter_In in Hp. destruct Hp as [_ Hp].
    unfold ratingOf in Hp. apply andb_true_iff in Hp.
    now rewrite !Nat.eqb_eq in Hp.
  - intros Hnone. unfold handle. simpl. unfold get_my_rating, with_auth.
    rewrite Hauth.
    destruct (findOne (ratingOf teacherId (User._id requser)) (ratings s))
      as [r|] eqn:Hr; [|reflexivity].
    exfalso. apply findOne_some in Hr. destruct Hr as [Hin Hp].
    unfold ratingOf in Hp. apply andb_true_iff in Hp.
    rewrite !Nat.eqb_eq in Hp. destruct Hp as [Ht Hu].
    exact (Hnone r Hin Ht Hu).
Qed.

Lemma my_rating_reads_back_witness :
  handle 9 (asUser bob (GET_my_rating msRao)) twoRatings =
    (ok (JRating (Some (Rating.mk 8 msRao bob 3 8))), twoRatings) /\
  handle 9 (asUser carol (GET_my_rating msRao)) twoRatings =
    (ok (JRating None), twoRatings).
Proof.
  assert (Hr : reachable twoRatings).
  { unfold twoRatings. apply reachable_run. exact classroom_reachable. }
  split.
  - reflexivity.
  - destruct (@my_rating_reads_back 9 9 (Some (UserToken carol))
                (User.mk carol "carol" (Bcrypt "pw-c") None None false 3) msRao 4%Q
                twoRatings Hr eq_refl) as (_ & Hnone).
    apply Hnone. intros r Hin _ Hu. simpl in Hin.
    destruct Hin as [<-|[<-|[]]]; discriminate Hu.
Defined.

(** X22. Removing a review frees its author's slot: after DELETE
    /api/admin/reviews/:reviewId the author's my-review for that teacher
    answers null, every other review is still stored, and the author's
    next POST of a review with a text that is not empty succeeds. *)
Theorem admin_delete_frees_review_slot now now' tok requser reviewId review v s :
  reachable s -> auth tok s = Some requser ->
  findById reviewId (reviews s) = Some review ->
  Review.user review = User._id requser -> v <> "" ->
  let s1 := snd (handle now (asAdmin (DELETE_admin_review reviewId)) s) in
  (forall r, In r (reviews s1) <-> In r (reviews s) /\ Review._id r <> reviewId) /\
  handle now' (mkRequest tok (GET_my_review (Review.teacher review))) s1 =
    (ok (JReview None), s1) /\
  status (fst (handle now' (mkRequest tok (POST_review (Review.teacher review) (Some v)))
                      s1)) = 200.
Proof.
  intros Hs Hauth Hfind Howner Hv s1.
  assert (Hs1 : reachable s1) by (now apply reachable_step).
  pose proof (reachable_wellFormed Hs) as Hwf.
  destruct (wf_reviews Hwf) as [Hnd _].
  pose proof (findById_id _ _ Hfind) as Hid. unfold doc_id, Review_doc in Hid.
  assert (Hin : In review (reviews s)) by (apply findOne_some in Hfind; tauto).
  assert (Hrev : reviews s1 = findByIdAndDelete reviewId (reviews s)) by reflexivity.
  assert (Hauth1 : auth tok s1 = Some requser) by exact Hauth.
  assert (Hfree : findOne (reviewOf (Review.teacher review) (User._id requser))
                          (reviews s1) = None).
  { destruct (findOne _ (reviews s1)) as [r|] eqn:Hr; [|reflexivity].
    exfalso. apply findOne_some in Hr. destruct Hr as [Hr Hp].
    rewrite Hrev in Hr. apply (In_delete_iff reviewId (reviews s) r Hnd) in Hr.
    destruct Hr as [Hr Hne]. apply Hne.
    assert (He : r = review).
    { apply (single_match (reviewOf (Review.teacher review) (User._id requser))
               (reviews s)); auto.
      - apply (wf_one_review Hwf).
      - unfold reviewOf. now rewrite Howner, !Nat.eqb_refl. }
    subst r. exact Hid. }
  split; [|split].
  - intros r. rewrite Hrev. now apply In_delete_iff.
  - unfold handle. simpl. unfold get_my_review, with_auth.
    now rewrite Hauth1, Hfree.
  - unfold handle. simpl. unfold post_review, with_auth.
    rewrite Hauth1, (auth_findById _ _ Hauth1),
      (auth_username_nonempty _ Hs1 Hauth1), Hfree, (required_nonempty Hv).
    reflexivity.
Qed.

Lemma admin_delete_frees_review_slot_witness :
  let s1 := snd (handle 8 (asAdmin (DELETE_admin_review 7)) reviewed) in
  handle 9 (asUser alice (GET_my_review msRao)) s1 = (ok (JReview None), s1) /\
  status (fst (handle 9 (asUser alice (POST_review msRao (Some "Second thoughts."))) s1))
  = 200.
Proof.
  assert (Hr : reachable reviewed) by (apply reachable_run; exact classroom_reachable).
  destruct (@admin_delete_frees_review_slot 8 9 (Some (UserToken alice))
              (User.mk alice "alice" (Bcrypt "pw-a") None None false 1) 7
              (Review.mk 7 msRao alice "alice" "Explains clearly." 7 7)
              "Second thoughts." reviewed Hr eq_refl eq_refl eq_refl)
    as (_ & Hnull & Hpost).
  - discriminate.
  - split; [exact Hnull | exact Hpost].
Defined.

(** ** Teachers and discussions created *)

(** X23. POST /api/admin/teachers by the administrator succeeds exactly
    when name, qualifications and imageUrl are present and not empty and
    classId and schoolId are present; whether the class and the school
    exist is not checked.  The teacher it appends starts with
    averageRating 0 and totalRatings 0 and is what GET
    /api/teachers/:teacherId then answers with (images not hidden). *)
Theorem teacher_creation now now' tok requser name qualifications imageUrl classId schoolId s :
  reachable s ->
  let resp := fst (handle now (asAdmin (POST_admin_teacher name qualifications imageUrl
                                                           classId schoolId)) s) in
  let s' := snd (handle now (asAdmin (POST_admin_teacher name qualifications imageUrl
                                                         classId schoolId)) s) in
  (status resp = 200 <->
   exists n q i c sc,
     name = Some n /\ n <> "" /\ qualifications = Some q /\ q <> "" /\
     imageUrl = Some i /\ i <> "" /\ classId = Some c /\ schoolId = Some sc) /\
  (forall n q i c sc,
     name = Some n -> n <> "" -> qualifications = Some q -> q <> "" ->
     imageUrl = Some i -> i <> "" -> classId = Some c -> schoolId = Some sc ->
     let t := Teacher.mk (nextId s) n q i c sc (Num 0) 0 now in
     resp = ok (JTeacher (Some t)) /\
     teachers s' = create t (teachers s) /\
     findById (nextId s) (teachers s) = None /\
     (auth tok s = Some requser -> hideTeacherImages s = false ->
      handle now' (mkRequest tok (GET_teacher (nextId s))) s' =
        (ok (JTeacher (Some t)), s'))).
Proof.
  intros Hs resp s'. subst resp s'. apply reachable_wellFormed in Hs.
  unfold handle, asAdmin. simpl. unfold post_admin_teacher, with_adminAuth. simpl.
  assert (Hfresh : findById (nextId s) (teachers s) = None).
  { destruct (findById (nextId s) (teachers s)) as [t|] eqn:Ht; [|reflexivity].
    exfalso. destruct (wf_teachers Hs) as [_ Hb]. rewrite Forall_forall in Hb.
    pose proof (findById_id _ _ Ht) as Hid.
    apply findOne_some in Ht. destruct Ht as [Hin _].
    specialize (Hb _ Hin). lia. }
  split.
  - destruct (required name) as [n|] eqn:Hn;
      [destruct (required qualifications) as [q|] eqn:Hq;
       [destruct (required imageUrl) as [i|] eqn:Hi;
        [destruct classId as [c|]; [destruct schoolId as [sc|]|]|]|]|];
      simpl.
    2-6: split; [discriminate|];
      intros (n' & q' & i' & c' & sc' & -> & Hn' & -> & Hq' & -> & Hi' & Hc & Hsc);
      rewrite ?(required_nonempty Hn'), ?(required_nonempty Hq'),
        ?(required_nonempty Hi') in *; discriminate.
    split; [intros _|reflexivity].
    destruct name as [n'|]; [|discriminate].
    destruct qualifications as [q'|]; [|discriminate].
    destruct imageUrl as [i'|]; [|discriminate].
    apply required_some in Hn, Hq, Hi.
    exists n', q', i', c, sc. tauto.
  - intros n q i c sc -> Hn -> Hq -> Hi -> ->.
    rewrite (required_nonempty Hn), (required_nonempty Hq), (required_nonempty Hi).
    unfold newId. simpl. split; [reflexivity|]. split; [reflexivity|].
    split; [exact Hfresh|].
    intros Hauth Hshow. unfold get_teacher, with_auth.
    match goal with
    | |- context [auth tok ?st] =>
        assert (Hauth' : auth tok st = Some requser) by exact Hauth;
        assert (Hshow' : hideTeacherImages st = false) by exact Hshow
    end.
    rewrite Hauth'. unfold set_teachers. simpl.
    rewrite findById_create, Hfresh. unfold doc_id at 1, Teacher_doc. simpl.
    rewrite Nat.eqb_refl. unfold teacherObj.
    unfold set_teachers in Hshow'. simpl in Hshow'. now rewrite Hshow'.
Qed.

Lemma teacher_creation_witness :
  let s' := snd (handle 7 (asAdmin (POST_admin_teacher (Some "Mr Okafor") (Some "BEd")
                                      (Some "https://img.example/okafor.png")
                                      (Some class7B) (Some hilltop))) classroom) in
  handle 8 (asUser alice (GET_teacher 7)) s' =
  (ok (JTeacher (Some (Teacher.mk 7 "Mr Okafor" "BEd" "https://img.example/okafor.png"
                                  class7B hilltop (Num 0) 0 7))), s').
Proof.
  destruct (@teacher_creation 7 8 (Some (UserToken alice))
              (User.mk alice "alice" (Bcrypt "pw-a") None None false 1)
              (Some "Mr Okafor") (Some "BEd") (Some "https://img.example/okafor.png")
              (Some class7B) (Some hilltop) classroom classroom_reachable)
    as (_ & Hmade).
  assert (Hne : forall a b, String a b <> "") by (intros a b; discriminate).
  destruct (Hmade "Mr Okafor" "BEd" "https://img.example/okafor.png" class7B hilltop
              eq_refl (Hne _ _) eq_refl (Hne _ _) eq_refl (Hne _ _) eq_refl eq_refl)
    as (_ & _ & _ & Hget).
  exact (Hget eq_refl eq_refl).
Defined.



(** X25. PUT /api/admin/teachers/:teacherId with name, qualifications and
    imageUrl replaces these three fields of a stored teacher and nothing
    else: identifier, class, school, aggregate and creation time stay,
    and no other teacher changes; no validator runs, so an empty string
    is stored as given.  For an identifier that is not stored it answers
    200 with null and writes nothing. *)
Theorem teacher_update now teacherId name qualifications imageUrl s :
  let resp := fst (handle now (asAdmin (PUT_admin_teacher teacherId (Some name)
                                          (Some qualifications) (Some imageUrl))) s) in
  let s' := snd (handle now (asAdmin (PUT_admin_teacher teacherId (Some name)
                                        (Some qualifications) (Some imageUrl))) s) in
  (forall t,
      findById teacherId (teachers s) = Some t ->
      let t' := Teacher.mk (Teacher._id t) name qualifications imageUrl
                           (Teacher.class t) (Teacher.school t)
                           (Teacher.averageRating t) (Teacher.totalRatings t)
                           (Teacher.createdAt t) in
      resp = ok (JTeacher (Some t')) /\
      findById teacherId (teachers s') = Some t' /\
      (forall j, j <> teacherId ->
                 findById j (teachers s') = findById j (teachers s))) /\
  (findById teacherId (teachers s) = None ->
   resp = ok (JTeacher None) /\ s' = s).
Proof.
  intros resp s'. subst resp s'.
  unfold handle, asAdmin. simpl. unfold put_admin_teacher, with_adminAuth. simpl.
  split.
  - intros t Ht.
    assert (Hnew : findById teacherId
                     (findByIdAndUpdate teacherId
                        (editTeacher (Some name) (Some qualifications) (Some imageUrl))
                        (teachers s)) =
                   Some (editTeacher (Some name) (Some qualifications) (Some imageUrl) t)).
    { rewrite findById_update by (intros d Hd; exact Hd).
      now rewrite Nat.eqb_refl, Ht. }
    rewrite Hnew. split; [reflexivity|]. split; [reflexivity|].
    intros j Hj. rewrite findById_update by (intros d Hd; exact Hd).
    apply Nat.eqb_neq in Hj. now rewrite Hj.
  - intros Ht.
    assert (Hsame : findByIdAndUpdate teacherId
                      (editTeacher (Some name) (Some qualifications) (Some imageUrl))
                      (teachers s) = teachers s).
    { unfold findById, findOne in Ht.
      induction (teachers s) as [|x l IH]; simpl in *; [reflexivity|].
      destruct (doc_id x =? teacherId); [discriminate|]. f_equal. now apply IH. }
    rewrite Hsame, Ht. split; [reflexivity|]. now destruct s.
Qed.

Lemma teacher_update_witness :
  fst (handle 7 (asAdmin (PUT_admin_teacher msRao (Some "Dr Rao") (Some "PhD Physics")
                            (Some ""))) classroom) =
    ok (JTeacher (Some (Teacher.mk msRao "Dr Rao" "PhD Physics" "" class7B hilltop
                                   (Num 0) 0 6))) /\
  snd (handle 7 (asAdmin (PUT_admin_teacher 99 (Some "Nobody") (Some "None")
                            (Some "x"))) classroom) = classroom.
Proof.
  split.
  - destruct (teacher_update 7 msRao "Dr Rao" "PhD Physics" "" classroom) as (Hset & _).
    destruct (Hset (Teacher.mk msRao "Ms Rao" "MSc Physics" "https://img.example/rao.png"
                               class7B hilltop (Num 0) 0 6) eq_refl) as (Hresp & _).
    exact Hresp.
  - destruct (teacher_update 7 99 "Nobody" "None" "x" classroom) as (_ & Hnone).
    destruct (Hnone eq_refl) as (_ & Hs). exact Hs.
Defined.

(** ** Start-up *)

(** X26. [initializeAdminConfig] creates the configuration, with both
    flags off and the secret "admin", only on a database that has none:
    on the empty database it yields the initial store, and on every store
    the server reaches it changes nothing, so a restart resets neither
    the moderation flags nor anything else. *)
Theorem restart_keeps_the_config :
  initializeAdminConfig emptyStore = initialStore /\
  (forall s, reachable s -> initializeAdminConfig s = s) /\
  (forall s, initializeAdminConfig (initializeAdminConfig s) = initializeAdminConfig s).
Proof.
  split; [reflexivity|]. split.
  - intros s Hs. destruct (reachable_adminSecret Hs) as (c & Hc & _).
    unfold initializeAdminConfig. now rewrite Hc.
  - intros s. unfold initializeAdminConfig at 2.
    destruct (config s) as [c|] eqn:Hc.
    + unfold initializeAdminConfig. now rewrite Hc.
    + unfold initializeAdminConfig, newId. simpl.
      unfold config in *. simpl.
      destruct (adminConfigs s); [reflexivity | discriminate].
Qed.

Lemma restart_keeps_the_config_witness :
  initializeAdminConfig anonymousOn = anonymousOn /\
  anonymousReviews (initializeAdminConfig anonymousOn) = true.
Proof.
  destruct restart_keeps_the_config as (_ & Hkeep & _).
  assert (Hr : reachable anonymousOn).
  { unfold anonymousOn, reviewed. do 2 apply reachable_run. exact classroom_reachable. }
  rewrite (Hkeep anonymousOn Hr). split; reflexivity.
Defined.
